(** * The promotion coupon endpoint: cache, repository, tracking, response

    A shallow embedding of the request path documented in
    [docs/promotion-coupon-pseudocode.md] (GET /api/promotion/coupon/:coupon)
    together with the facts the endpoint documentation states about it.

    Conventions of the model.
    - The wall clock is an integer number of seconds; one request is served
      at the instant [clock] of the world it starts in.  Latencies of cache
      operations are integers in milliseconds and only decide the race
      against the 1000 ms timer.
    - Everything outside the handler (the cache server, the relational
      store, the template engine, the JSON library) is either part of the
      [World] or of the per-request [Env], which fixes how each external
      operation behaves during that request.
    - The handler is written in a state-and-exception monad over [World];
      the operations it issues are recorded in [trace], its log lines in
      [log], the detached tasks it starts in [spawned].
    - The cache invalidation hook, the global error handler and the batch click
      buffer with its background job are embedded after the request path,
      on the same world. *)

From stdpp Require Import gmap strings list pretty.
From Stdlib Require Import ZArith Ascii String Lia.

Local Open Scope string_scope.
Local Open Scope Z_scope.
Local Open Scope list_scope.

(** ** Data structures *)

Inductive CommissionType : Type := PERCENTAGE | FIXED.
Inductive Activity : Type := ACTIVE | INACTIVE.
Inductive TrackingStatus : Type := CLICK | CONVERSION.
Inductive PaymentState : Type := HOLD | RELEASE.

(** STRUCTURE Campaign.  Columns that a query may leave out of its select
    list are optional in the objects built from its rows. *)
Record Campaign : Type := mkCampaign {
  campaign_pk : Z;
  title : string;
  url : string;
  image_id : option Z;
  description : string;
  start_on : Z;
  end_on : Z;
  package_id : Z;
  commission_type : CommissionType;
  commission : Z;
  approval : Activity;
  campaign_status : Activity;
  campaign_created_at : option Z;
  campaign_updated_at : option Z
}.

(** A row of table affiliate_links. *)
Record AffiliateLinkRow : Type := mkLinkRow {
  row_id : Z;
  row_coupon : string;
  row_affiliate_id : Z;
  row_campaign_id : Z;
  row_created_at : Z;
  row_updated_at : Z
}.

(** STRUCTURE AffiliateLink: the object the handler works with, either
    built from a joined row or parsed from a cached text.  The handler
    tests [affiliateLink.id is NULL], so the id of an object is optional. *)
Record AffiliateLink : Type := mkLink {
  link_id : option Z;
  link_coupon : string;
  link_affiliate_id : Z;
  link_campaign_id : Z;
  link_campaign : option Campaign;
  link_created_at : Z;
  link_updated_at : Z
}.

(** STRUCTURE ClickTrackingEvent.  The amount is a decimal in the
    schema; the endpoint only ever writes zero, so integers suffice. *)
Record ClickTrackingEvent : Type := mkEvent {
  ev_country : string;
  ev_affiliate_id : Z;
  ev_campaign_id : Z;
  ev_link_id : option Z;
  ev_status : TrackingStatus;
  ev_payment : PaymentState;
  ev_amount : Z
}.

(** A row of table affiliate_tracking. *)
Record TrackingRow : Type := mkTrackingRow {
  trk_id : Z;
  trk_country : string;
  trk_affiliate_id : Z;
  trk_campaign_id : Z;
  trk_link_id : option Z;
  trk_status : TrackingStatus;
  trk_payment : PaymentState;
  trk_amount : Z;
  trk_created_at : Z;
  trk_updated_at : Z
}.

(** STRUCTURE TemplateData. *)
Record TemplateData : Type := mkTemplateData {
  data : AffiliateLink;
  country : string
}.

(** Error objects, with the fields the error helpers inspect. *)
Record Error : Type := mkError {
  err_statusCode : option Z;
  err_status : option Z;
  err_message : option string;
  err_errors : list string
}.

Record Header : Type := mkHeader { name : string; value : string }.

Record Request : Type := mkRequest {
  pathParameters : gmap string string;
  headers : list Header
}.

(** What the handler sends back. A rendered page is represented by the
    template and the data it is rendered with. *)
Inductive Response : Type :=
| Redirect (statusCode : Z) (location : string)
| Html (statusCode : Z) (template : string) (templateData : TemplateData)
| JSONError (statusCode : Z) (message : string).

(** ** The JSON library

    [toJSON] and [parseJSON] belong to the platform.  The cache stores
    [payload]s; parsing a payload throws, yields NULL, or yields an object. *)

Inductive Outcome (A : Type) : Type :=
| Returned (a : A)
| Thrown (e : Error).
Arguments Returned {A} a.
Arguments Thrown {A} e.

Class Serializer : Type := {
  payload : Type;
  toJSON : AffiliateLink -> payload;
  parseJSON : payload -> Outcome (option AffiliateLink)
}.

(** ** The world and the environment of a request *)

Inductive LogLevel : Type := INFO | WARNING | ERROR.
Record LogEntry : Type := mkLog { level : LogLevel; text : string }.

(** Detached work started by the handler: the closure of STEP 8 (which
    captures [clickEvent] and [affiliateLink.id]) and the closure of
    [trackClickAsync]. *)
Inductive BackgroundTask : Type :=
| InsertTrackingTask (clickEvent : ClickTrackingEvent) (linkId : option Z)
| TrackClickTask (clickEvent : ClickTrackingEvent).

(** How an external operation behaves when it is started. *)
Inductive Behaviour : Type :=
| Responds (latency_ms : Z)
| Fails (latency_ms : Z) (e : Error)
| Hangs.

Record Env : Type := mkEnv {
  get_behaviour : Behaviour;
  set_behaviour : Behaviour;
  query_fault : option Error;
  insert_fault : option Error;
  render_fault : option Error
}.

Declare Scope handler_scope.
Delimit Scope handler_scope with handler.

Section Endpoint.

Context `{Serializer}.

(** Operations issued to the cache server and to the relational store. *)
Inductive Event : Type :=
| CacheGet (key : string)
| CacheSet (key : string) (v : payload) (ttl : Z)
| DbQuery (couponCode : string) (asOf : Z)
| DbInsert (columns : ClickTrackingEvent).

Record World : Type := mkWorld {
  clock : Z;
  cache_connected : bool;
  cache_healthy : bool;
  cache_store : gmap string (payload * Z);
  affiliate_links : list AffiliateLinkRow;
  campaigns : list Campaign;
  affiliate_tracking : list TrackingRow;
  log : list LogEntry;
  trace : list Event;
  spawned : list BackgroundTask
}.

(** ** The monad of handler code *)

Definition Handler (A : Type) : Type := World -> Outcome A * World.

Definition ret {A} (a : A) : Handler A := fun w => (Returned a, w).

Definition bind {A B} (m : Handler A) (k : A -> Handler B) : Handler B :=
  fun w => match m w with
           | (Returned a, w') => k a w'
           | (Thrown e, w') => (Thrown e, w')
           end.

Definition throw {A} (e : Error) : Handler A := fun w => (Thrown e, w).

(** TRY m CATCH e: h e END TRY.  Effects of [m] before the throw stay. *)
Definition tryCatch {A} (m : Handler A) (h : Error -> Handler A) : Handler A :=
  fun w => match m w with
           | (Returned a, w') => (Returned a, w')
           | (Thrown e, w') => h e w'
           end.

Definition gets {A} (f : World -> A) : Handler A := fun w => (Returned (f w), w).
Definition modify (f : World -> World) : Handler unit := fun w => (Returned tt, f w).

Notation "x <- m ;; k" := (bind m (fun x => k))
  (at level 100, m at next level, k at level 200, right associativity) : handler_scope.
Notation "m ;; k" := (bind m (fun _ => k))
  (at level 100, k at level 200, right associativity) : handler_scope.
Local Open Scope handler_scope.

(** Field updates of the world. *)
Definition set_log (l : list LogEntry) (w : World) : World :=
  mkWorld (clock w) (cache_connected w) (cache_healthy w) (cache_store w)
          (affiliate_links w) (campaigns w) (affiliate_tracking w)
          l (trace w) (spawned w).
Definition set_trace (t : list Event) (w : World) : World :=
  mkWorld (clock w) (cache_connected w) (cache_healthy w) (cache_store w)
          (affiliate_links w) (campaigns w) (affiliate_tracking w)
          (log w) t (spawned w).
Definition set_cache_store (s : gmap string (payload * Z)) (w : World) : World :=
  mkWorld (clock w) (cache_connected w) (cache_healthy w) s
          (affiliate_links w) (campaigns w) (affiliate_tracking w)
          (log w) (trace w) (spawned w).
Definition set_affiliate_tracking (t : list TrackingRow) (w : World) : World :=
  mkWorld (clock w) (cache_connected w) (cache_healthy w) (cache_store w)
          (affiliate_links w) (campaigns w) t
          (log w) (trace w) (spawned w).
Definition set_spawned (ts : list BackgroundTask) (w : World) : World :=
  mkWorld (clock w) (cache_connected w) (cache_healthy w) (cache_store w)
          (affiliate_links w) (campaigns w) (affiliate_tracking w)
          (log w) (trace w) ts.
Definition set_clock (t : Z) (w : World) : World :=
  mkWorld t (cache_connected w) (cache_healthy w) (cache_store w)
          (affiliate_links w) (campaigns w) (affiliate_tracking w)
          (log w) (trace w) (spawned w).

Definition logAt (lv : LogLevel) (msg : string) : Handler unit :=
  modify (fun w => set_log (log w ++ [mkLog lv msg]) w).
Definition logInfo : string -> Handler unit := logAt INFO.
Definition logWarning : string -> Handler unit := logAt WARNING.
Definition logError : string -> Handler unit := logAt ERROR.

Definition emit (ev : Event) : Handler unit :=
  modify (fun w => set_trace (trace w ++ [ev]) w).

(** [error.message] inside a string concatenation. *)
Definition messageOf (e : Error) : string :=
  match err_message e with Some m => m | None => "undefined" end.

(** An optional integer inside a string concatenation. *)
Definition showId (i : option Z) : string :=
  match i with Some n => pretty n | None => "null" end.

(** ** Helper functions *)

Definition lowerChar (c : ascii) : ascii :=
  let n := nat_of_ascii c in
  if (Nat.leb 65 n && Nat.leb n 90)%bool then ascii_of_nat (n + 32) else c.

Fixpoint toLowerCase (s : string) : string :=
  match s with
  | EmptyString => EmptyString
  | String c s' => String (lowerChar c) (toLowerCase s')
  end.

(** FUNCTION extractHeader(request, headerName) *)
Fixpoint findHeader (hs : list Header) (headerNameLower : string) : option string :=
  match hs with
  | [] => None
  | header :: rest =>
      if String.eqb (toLowerCase (name header)) headerNameLower
      then Some (value header)
      else findHeader rest headerNameLower
  end.

Definition extractHeader (request : Request) (headerName : string) : option string :=
  let headerNameLower := toLowerCase headerName in
  findHeader (headers request) headerNameLower.

(** FUNCTION extractPathParameter(request, paramName) *)
Definition extractPathParameter (request : Request) (paramName : string) : option string :=
  pathParameters request !! paramName.

(** FUNCTION extractHTTPStatusCode(error, defaultCode = 500) *)
Definition extractHTTPStatusCode (error : Error) (defaultCode : Z) : Z :=
  match err_statusCode error with
  | Some c => c
  | None => match err_status error with
            | Some c => c
            | None => defaultCode
            end
  end.

(** FUNCTION extractErrorMessage(error) *)
Definition extractErrorMessage (error : Error) : string :=
  match err_message error with
  | Some m => m
  | None => match err_errors error with
            | m :: _ => m
            | [] => "An unexpected error occurred"
            end
  end.

(** [x OR d] on status codes: a zero code falls through to the default. *)
Definition orDefault (x d : Z) : Z := if x =? 0 then d else x.

(** ** Promises and the race against the timer *)

Inductive Promise (A : Type) : Type :=
| Settles (latency_ms : Z) (result : Outcome A)
| NeverSettles.
Arguments Settles {A} latency_ms result.
Arguments NeverSettles {A}.

Definition TimeoutError (milliseconds : Z) : Error :=
  mkError None None
          (Some ("Operation timed out after " +:+ pretty milliseconds +:+ "ms")) [].

(** FUNCTION createTimeout(milliseconds) *)
Definition createTimeout {A} (milliseconds : Z) : Promise A :=
  Settles milliseconds (Thrown (TimeoutError milliseconds)).

Inductive RaceSource : Type := operation | timeout.

Record RaceResult (A : Type) : Type := mkRace {
  source : RaceSource;
  race_value : option A;
  race_error : option Error
}.
Arguments mkRace {A} source race_value race_error.
Arguments source {A} r.
Arguments race_value {A} r.
Arguments race_error {A} r.

(** The operation is the first to complete when it settles strictly before
    the timer fires. *)
Definition operationFirst {A} (op timer : Promise A) : bool :=
  match op, timer with
  | Settles t _, Settles limit _ => t <? limit
  | Settles _ _, NeverSettles => true
  | NeverSettles, _ => false
  end.

Definition valueOf {A} (p : Promise A) : option A :=
  match p with Settles _ (Returned v) => Some v | _ => None end.

Definition errorOf {A} (p : Promise A) : option Error :=
  match p with Settles _ (Thrown e) => Some e | _ => None end.

(** FUNCTION awaitFirstResolved(promises), for [promises = [op, timer]] *)
Definition awaitFirstResolved {A} (op timer : Promise A) : RaceResult A :=
  if operationFirst op timer
  then mkRace operation (valueOf op) (errorOf op)
  else mkRace timeout (valueOf timer) (errorOf timer).

(** Awaiting the race itself (Promise.race): the winner's value, or its
    error thrown. *)
Definition awaitRace {A} (op : Promise A) (milliseconds : Z) : Handler A :=
  let result := awaitFirstResolved op (createTimeout milliseconds) in
  match race_error result, race_value result with
  | Some e, _ => throw e
  | None, Some v => ret v
  | None, None => throw (TimeoutError milliseconds)
  end.

(** ** The cache client *)

Definition liveValue (now : Z) (entry : payload * Z) : option payload :=
  if now <? entry.2 then Some entry.1 else None.

(** What the cache server holds under [key] at the clock of [w]. *)
Definition storedValue (w : World) (key : string) : option payload :=
  match cache_store w !! key with
  | Some entry => liveValue (clock w) entry
  | None => None
  end.

Section Operations.

Variable env : Env.

Definition cacheClient_isConnected : Handler bool := gets cache_connected.
Definition cacheClient_isHealthy : Handler bool := gets cache_healthy.

(** cacheClient.get(key) *)
Definition cacheClient_get (key : string) : Handler (Promise (option payload)) :=
  emit (CacheGet key) ;;
  v <- gets (fun w => storedValue w key) ;;
  ret (match get_behaviour env with
       | Responds t => Settles t (Returned v)
       | Fails t e => Settles t (Thrown e)
       | Hangs => NeverSettles
       end).

(** cacheClient.setWithExpiry(key, value, ttl).  A command the server
    answers has been applied by it, however late the answer arrives. *)
Definition cacheClient_setWithExpiry (key : string) (v : payload) (ttl : Z)
  : Handler (Promise unit) :=
  emit (CacheSet key v ttl) ;;
  match set_behaviour env with
  | Responds t =>
      modify (fun w => set_cache_store (<[key := (v, clock w + ttl)]> (cache_store w)) w) ;;
      ret (Settles t (Returned tt))
  | Fails t e => ret (Settles t (Thrown e))
  | Hangs => ret NeverSettles
  end.

(** cacheClient.getWithTimeout(key, timeout) *)
Definition cacheClient_getWithTimeout (key : string) (milliseconds : Z)
  : Handler (option payload) :=
  p <- cacheClient_get key ;;
  awaitRace p milliseconds.

(** cacheClient.setWithTimeout(key, value, ttl, timeout) *)
Definition cacheClient_setWithTimeout (key : string) (v : payload) (ttl milliseconds : Z)
  : Handler unit :=
  p <- cacheClient_setWithExpiry key v ttl ;;
  awaitRace p milliseconds.

(** ** The relational store *)

(** affiliate_links INNER JOIN campaigns
    ON affiliate_links.campaign_id = campaigns.id, in table order. *)
Definition innerJoin (links : list AffiliateLinkRow) (camps : list Campaign)
  : list (AffiliateLinkRow * Campaign) :=
  flat_map (fun al =>
              List.map (fun c => (al, c))
                       (List.filter (fun c => row_campaign_id al =? campaign_pk c) camps))
           links.

(** WHERE coupon = ? AND start_on < asOfStart AND end_on > asOfEnd *)
Definition whereClause (couponCode : string) (asOfStart asOfEnd : Z)
           (r : AffiliateLinkRow * Campaign) : bool :=
  (String.eqb (row_coupon r.1) couponCode
   && (start_on r.2 <? asOfStart) && (end_on r.2 >? asOfEnd))%bool.

Definition selectRows (links : list AffiliateLinkRow) (camps : list Campaign)
           (couponCode : string) (asOfStart asOfEnd : Z)
  : list (AffiliateLinkRow * Campaign) :=
  List.filter (whereClause couponCode asOfStart asOfEnd) (innerJoin links camps).

(** The object built from a joined row, with every column. *)
Definition linkObject (r : AffiliateLinkRow * Campaign) : AffiliateLink :=
  mkLink (Some (row_id r.1)) (row_coupon r.1) (row_affiliate_id r.1)
         (row_campaign_id r.1) (Some r.2) (row_created_at r.1) (row_updated_at r.1).

(** The select list of [queryAffiliateLinkFromDatabase] leaves image_id,
    created_at and updated_at of the campaign out. *)
Definition selectedCampaignColumns (c : Campaign) : Campaign :=
  mkCampaign (campaign_pk c) (title c) (url c) None (description c)
             (start_on c) (end_on c) (package_id c) (commission_type c)
             (commission c) (approval c) (campaign_status c) None None.

Definition selectedColumns (r : AffiliateLinkRow * Campaign) : AffiliateLink :=
  linkObject (r.1, selectedCampaignColumns r.2).

Definition getCurrentDateTime : Handler Z := gets clock.

(** database.query(table: "affiliate_links", where: {coupon}, include:
    {campaigns, where: start_on < currentDateTime() AND end_on >
    currentDateTime()}) of STEP 4: the first matching object or NULL. *)
Definition database_query (couponCode : string) : Handler (option AffiliateLink) :=
  asOfStart <- getCurrentDateTime ;;
  asOfEnd <- getCurrentDateTime ;;
  emit (DbQuery couponCode asOfStart) ;;
  match query_fault env with
  | Some e => throw e
  | None =>
      rows <- gets (fun w => selectRows (affiliate_links w) (campaigns w)
                                        couponCode asOfStart asOfEnd) ;;
      ret (head (List.map linkObject rows))
  end.

(** database.execute(query) for the query record built by
    [queryAffiliateLinkFromDatabase], with its select lists and limit. *)
Definition database_execute (couponCode : string) (currentTime : Z) (limit : nat)
  : Handler (list AffiliateLink) :=
  emit (DbQuery couponCode currentTime) ;;
  match query_fault env with
  | Some e => throw e
  | None =>
      rows <- gets (fun w => selectRows (affiliate_links w) (campaigns w)
                                        couponCode currentTime currentTime) ;;
      ret (take limit (List.map selectedColumns rows))
  end.

(** FUNCTION queryAffiliateLinkFromDatabase(coupon) *)
Definition queryAffiliateLinkFromDatabase (couponCode : string)
  : Handler (option AffiliateLink) :=
  currentTime <- getCurrentDateTime ;;
  rows <- database_execute couponCode currentTime 1 ;;
  match rows with
  | first :: _ => ret (Some first)
  | [] => ret None
  end.

(** database.insert into affiliate_tracking: the new row gets the next id
    and the current time as its timestamps; returns the inserted id. *)
Definition database_insert (columns : ClickTrackingEvent) : Handler Z :=
  emit (DbInsert columns) ;;
  match insert_fault env with
  | Some e => throw e
  | None =>
      now <- getCurrentDateTime ;;
      rows <- gets affiliate_tracking ;;
      let insertedId := Z.of_nat (List.length rows) + 1 in
      modify (set_affiliate_tracking
                (rows ++ [mkTrackingRow insertedId (ev_country columns)
                                        (ev_affiliate_id columns) (ev_campaign_id columns)
                                        (ev_link_id columns) (ev_status columns)
                                        (ev_payment columns) (ev_amount columns)
                                        now now])) ;;
      ret insertedId
  end.

(** FUNCTION insertClickTracking(event) *)
Definition insertClickTracking (event : ClickTrackingEvent) : Handler Z :=
  database_insert (mkEvent (ev_country event) (ev_affiliate_id event)
                           (ev_campaign_id event) (ev_link_id event)
                           (ev_status event) HOLD 0).

(** new ClickTrackingEvent { country, affiliate_id, campaign_id, link_id,
    status }: the remaining fields take the defaults of the structure. *)
Definition newClickTrackingEvent (country0 : string) (affiliateId campaignId : Z)
           (linkId : option Z) (status : TrackingStatus) : ClickTrackingEvent :=
  mkEvent country0 affiliateId campaignId linkId status HOLD 0.

(** ** The caching layer *)

Definition liftOutcome {A} (o : Outcome A) : Handler A :=
  match o with
  | Returned a => ret a
  | Thrown e => throw e
  end.

(** FUNCTION getCachedAffiliateLink(coupon) *)
Definition getCachedAffiliateLink (couponCode : string) : Handler (option AffiliateLink) :=
  let cacheKey := "affiliate:link:" +:+ couponCode in
  let maxWaitTime := 1000 in
  connected <- cacheClient_isConnected ;;
  if negb connected then
    logWarning "Cache client not connected" ;;
    ret None
  else
    tryCatch
      (let timeoutPromise := createTimeout maxWaitTime in
       cachePromise <- cacheClient_get cacheKey ;;
       let result := awaitFirstResolved cachePromise timeoutPromise in
       match source result with
       | timeout =>
           logWarning ("Cache read timeout for key: " +:+ cacheKey) ;;
           ret None
       | operation =>
           match race_value result with
           | Some (Some cachedText) => liftOutcome (parseJSON cachedText)
           | _ => ret None
           end
       end)
      (fun error =>
         logWarning ("Cache read error: " +:+ messageOf error) ;;
         ret None).

(** FUNCTION cacheAffiliateLink(coupon, affiliateLink, ttl) *)
Definition cacheAffiliateLink (couponCode : string) (affiliateLink : AffiliateLink)
           (ttl : Z) : Handler bool :=
  let cacheKey := "affiliate:link:" +:+ couponCode in
  let maxWaitTime := 1000 in
  connected <- cacheClient_isConnected ;;
  if negb connected then
    logWarning "Cache client not connected, skipping cache write" ;;
    ret false
  else
    tryCatch
      (let serializedData := toJSON affiliateLink in
       let timeoutPromise := createTimeout maxWaitTime in
       cachePromise <- cacheClient_setWithExpiry cacheKey serializedData ttl ;;
       let result := awaitFirstResolved cachePromise timeoutPromise in
       match source result with
       | timeout =>
           logWarning ("Cache write timeout for key: " +:+ cacheKey) ;;
           ret false
       | operation =>
           logInfo ("Successfully cached affiliate link: " +:+ couponCode) ;;
           ret true
       end)
      (fun error =>
         logWarning ("Cache write error: " +:+ messageOf error) ;;
         ret false).

(** ** The tracking system *)

(** executeAsync / executeInBackground: the task is detached, the caller
    goes on at once. *)
Definition executeAsync (task : BackgroundTask) : Handler unit :=
  modify (fun w => set_spawned (spawned w ++ [task]) w).

(** FUNCTION trackClickAsync(clickEvent) *)
Definition trackClickAsync (clickEvent : ClickTrackingEvent) : Handler unit :=
  executeAsync (TrackClickTask clickEvent).

(** The bodies of the two detached closures. *)
Definition runTask (task : BackgroundTask) : Handler unit :=
  match task with
  | InsertTrackingTask clickEvent linkId =>
      tryCatch
        (database_insert clickEvent ;;
         logInfo ("Click tracked for link: " +:+ showId linkId))
        (fun trackingError =>
           logError ("Click tracking failed: " +:+ messageOf trackingError))
  | TrackClickTask clickEvent =>
      tryCatch
        (insertClickTracking clickEvent ;;
         logInfo ("Click tracked: link=" +:+ showId (ev_link_id clickEvent) +:+
                  ", country=" +:+ ev_country clickEvent))
        (fun error =>
           logError ("Click tracking failed: " +:+ messageOf error))
  end.

(** Detached tasks run after the handler has produced its response; what
    a task throws reaches nobody. *)
Fixpoint runTasks (tasks : list BackgroundTask) : Handler unit :=
  match tasks with
  | [] => ret tt
  | task :: rest =>
      tryCatch (runTask task) (fun _ => ret tt) ;;
      runTasks rest
  end.

Definition runBackground : Handler unit :=
  tasks <- gets spawned ;;
  modify (set_spawned []) ;;
  runTasks tasks.

(** ** Responses *)

(** redirect(response, location): status 302 Found, as the endpoint
    documentation gives it for the redirect response. *)
Definition redirect (location : string) : Handler Response :=
  ret (Redirect 302 location).

(** FUNCTION renderTemplate(response, templateName, data), status 200 *)
Definition renderTemplate (templateName : string) (templateData : TemplateData)
  : Handler Response :=
  tryCatch
    (match render_fault env with
     | Some e => throw e
     | None => ret (Html 200 templateName templateData)
     end)
    (fun error =>
       logError ("Template rendering failed: " +:+ messageOf error) ;;
       throw error).

Definition sendJSONError (statusCode : Z) (message : string) : Handler Response :=
  ret (JSONError statusCode message).

(** ** Main controller function *)

(** STEP 3: Attempt cache retrieval *)
Definition attemptCacheRetrieval (couponCode cacheKey : string)
  : Handler (option AffiliateLink) :=
  connected <- cacheClient_isConnected ;;
  healthy <- cacheClient_isHealthy ;;
  if (connected && healthy)%bool then
    tryCatch
      (cachedData <- cacheClient_getWithTimeout cacheKey 1000 ;;
       match cachedData with
       | Some cachedText =>
           affiliateLink <- liftOutcome (parseJSON cachedText) ;;
           logInfo ("Cache hit for coupon: " +:+ couponCode) ;;
           ret affiliateLink
       | None => ret None
       end)
      (fun cacheError =>
         logWarning ("Cache read failed: " +:+ messageOf cacheError) ;;
         ret None)
  else ret None.

(** STEP 4: Query database on cache miss, and
    STEP 5: Cache the result if found *)
Definition queryOnCacheMiss (couponCode cacheKey : string)
  : Handler (option AffiliateLink) :=
  logInfo ("Cache miss for coupon: " +:+ couponCode) ;;
  affiliateLink <- database_query couponCode ;;
  connected <- cacheClient_isConnected ;;
  match affiliateLink with
  | Some found =>
      if connected then
        tryCatch
          (cacheClient_setWithTimeout cacheKey (toJSON found) 1800 1000 ;;
           logInfo ("Cached affiliate link: " +:+ couponCode))
          (fun cacheError =>
             logWarning ("Cache write failed: " +:+ messageOf cacheError))
      else ret tt
  | None => ret tt
  end ;;
  ret affiliateLink.

(** STEP 2 to STEP 5: the value of [affiliateLink] when STEP 6 tests it. *)
Definition resolveAffiliateLink (couponCode : string) : Handler (option AffiliateLink) :=
  let cacheKey := "affiliate:link:" +:+ couponCode in
  affiliateLink <- attemptCacheRetrieval couponCode cacheKey ;;
  match affiliateLink with
  | Some cached => ret (Some cached)
  | None => queryOnCacheMiss couponCode cacheKey
  end.

(** STEP 7: Extract country from request.  Header names are
    case-insensitive: [request.headers[n]] is the lookup of
    [extractHeader]. *)
Definition detectCountry (request : Request) : string :=
  match extractHeader request "cf-ipcountry" with
  | Some c => if String.eqb c "" then "UNKNOWN" else c
  | None => "UNKNOWN"
  end.

(** STEP 7 to STEP 9 *)
Definition trackAndRender (request : Request) (affiliateLink : AffiliateLink)
  : Handler Response :=
  let country0 := detectCountry request in
  let clickEvent :=
    newClickTrackingEvent country0
                          (link_affiliate_id affiliateLink)
                          (link_campaign_id affiliateLink)
                          (link_id affiliateLink)
                          CLICK in
  executeAsync (InsertTrackingTask clickEvent (link_id affiliateLink)) ;;
  let templateData := mkTemplateData affiliateLink country0 in
  renderTemplate "coupon_redirect" templateData.

(** FUNCTION handlePromotionCouponRequest(request, response) *)
Definition handlePromotionCouponRequest (request : Request) : Handler Response :=
  tryCatch
    (match pathParameters request !! "coupon" with
     | None => redirect "/pricing"
     | Some couponCode =>
         if String.eqb couponCode "" then redirect "/pricing"
         else
           affiliateLink <- resolveAffiliateLink couponCode ;;
           match affiliateLink with
           | None =>
               logInfo ("Invalid coupon: " +:+ couponCode) ;;
               redirect "/pricing"
           | Some found =>
               match link_id found with
               | None =>
                   logInfo ("Invalid coupon: " +:+ couponCode) ;;
                   redirect "/pricing"
               | Some _ => trackAndRender request found
               end
           end
     end)
    (fun error =>
       logError ("Coupon request failed: " +:+ messageOf error) ;;
       let statusCode := orDefault (extractHTTPStatusCode error 500) 500 in
       let errorMessage := extractErrorMessage error in
       sendJSONError statusCode errorMessage).

(** A request from arrival to the end of the detached work it started. *)
Definition serveRequest (request : Request) : Handler Response :=
  response <- handlePromotionCouponRequest request ;;
  runBackground ;;
  ret response.

(** ** What a request finds in the cache and in the repository *)

Definition answersInTime (b : Behaviour) : bool :=
  match b with
  | Responds t => t <? 1000
  | Fails _ _ => false
  | Hangs => false
  end.

(** The cache read of STEP 3 is answered: the client is connected and
    healthy and the server replies before the 1000 ms timer fires. *)
Definition cacheAnswers (w : World) : bool :=
  (cache_connected w && cache_healthy w && answersInTime (get_behaviour env))%bool.

(** The object the cache server can supply for [cacheKey]: a live text
    is stored under the key and parses to an object. *)
Definition usableSnapshot (w : World) (cacheKey : string) : option AffiliateLink :=
  match storedValue w cacheKey with
  | Some cachedText =>
      match parseJSON cachedText with
      | Returned found => found
      | Thrown _ => None
      end
  | None => None
  end.

(** The object STEP 3 obtains from the cache, if any. *)
Definition cachedSnapshot (w : World) (cacheKey : string) : option AffiliateLink :=
  if cacheAnswers w then usableSnapshot w cacheKey else None.

(** A cache hit, and a cache miss. *)
Definition CacheHit (w : World) (cacheKey : string) (snapshot : AffiliateLink) : Prop :=
  cacheAnswers w = true /\ usableSnapshot w cacheKey = Some snapshot.

Definition CacheMiss (w : World) (cacheKey : string) : Prop :=
  cacheAnswers w = true /\ usableSnapshot w cacheKey = None.

(** The click event STEP 8 creates for a resolved object. *)
Definition clickEventFor (request : Request) (affiliateLink : AffiliateLink)
  : ClickTrackingEvent :=
  newClickTrackingEvent (detectCountry request)
                        (link_affiliate_id affiliateLink)
                        (link_campaign_id affiliateLink)
                        (link_id affiliateLink)
                        CLICK.

(** The operations STEP 3 issues. *)
Definition readEvents (w : World) (cacheKey : string) : list Event :=
  if (cache_connected w && cache_healthy w)%bool then [CacheGet cacheKey] else [].

End Operations.

(** The answer of the repository for a coupon at the clock of [w]. *)
Definition findActiveLink (w : World) (couponCode : string) : option AffiliateLink :=
  head (List.map linkObject
                 (selectRows (affiliate_links w) (campaigns w) couponCode
                             (clock w) (clock w))).

(** The repository contains a row of affiliate_links with the coupon whose
    campaign satisfies start_on < now AND end_on > now. *)
Definition activeRow (w : World) (couponCode : string)
           (al : AffiliateLinkRow) (c : Campaign) : Prop :=
  In al (affiliate_links w) /\ In c (campaigns w) /\
  row_campaign_id al = campaign_pk c /\
  row_coupon al = couponCode /\
  start_on c < clock w /\ clock w < end_on c.

(** The parts of the world a request may only read. *)
Definition sameSurroundings (w w' : World) : Prop :=
  clock w' = clock w /\
  cache_connected w' = cache_connected w /\
  cache_healthy w' = cache_healthy w /\
  affiliate_links w' = affiliate_links w /\
  campaigns w' = campaigns w.

(** [w'] differs from [w] at most by log lines, by the issued operations
    [evs] and by the detached [tasks] started. *)
Definition advanced (w w' : World) (evs : list Event) (tasks : list BackgroundTask)
  : Prop :=
  sameSurroundings w w' /\
  cache_store w' = cache_store w /\
  affiliate_tracking w' = affiliate_tracking w /\
  spawned w' = spawned w ++ tasks /\
  trace w' = trace w ++ evs.

(** The operations STEP 5 issues for a found object, and the store it
    leaves behind. *)
Definition writeEvents (w : World) (cacheKey : string) (found : AffiliateLink)
  : list Event :=
  if cache_connected w then [CacheSet cacheKey (toJSON found) 1800] else [].

Definition storeAfterWrite (env : Env) (w : World) (cacheKey : string)
           (found : AffiliateLink) : gmap string (payload * Z) :=
  if cache_connected w then
    match set_behaviour env with
    | Responds _ => <[cacheKey := (toJSON found, clock w + 1800)]> (cache_store w)
    | _ => cache_store w
    end
  else cache_store w.

(** The response of the catch-all handler for a thrown error. *)
Definition errorResponse (error : Error) : Response :=
  JSONError (orDefault (extractHTTPStatusCode error 500) 500)
            (extractErrorMessage error).

(** The response STEP 6 to STEP 9 produce from the outcome of STEP 2 to
    STEP 5, and the detached work they start. *)
Definition responseFor (env : Env) (request : Request)
           (resolved : Outcome (option AffiliateLink)) : Response :=
  match resolved with
  | Thrown e => errorResponse e
  | Returned None => Redirect 302 "/pricing"
  | Returned (Some found) =>
      match link_id found with
      | None => Redirect 302 "/pricing"
      | Some _ =>
          match render_fault env with
          | None => Html 200 "coupon_redirect"
                         (mkTemplateData found (detectCountry request))
          | Some e => errorResponse e
          end
      end
  end.

Definition tasksFor (request : Request) (resolved : Outcome (option AffiliateLink))
  : list BackgroundTask :=
  match resolved with
  | Returned (Some found) =>
      match link_id found with
      | Some _ => [InsertTrackingTask (clickEventFor request found) (link_id found)]
      | None => []
      end
  | _ => []
  end.

(** The row a successful insert of [columns] appends to [rows] at [now]. *)
Definition rowOf (rows : list TrackingRow) (now : Z) (columns : ClickTrackingEvent)
  : TrackingRow :=
  mkTrackingRow (Z.of_nat (List.length rows) + 1) (ev_country columns)
                (ev_affiliate_id columns) (ev_campaign_id columns)
                (ev_link_id columns) (ev_status columns)
                (ev_payment columns) (ev_amount columns) now now.

(** The columns a detached task inserts, and the line it logs. *)
Definition columnsOf (task : BackgroundTask) : ClickTrackingEvent :=
  match task with
  | InsertTrackingTask clickEvent _ => clickEvent
  | TrackClickTask clickEvent =>
      mkEvent (ev_country clickEvent) (ev_affiliate_id clickEvent)
              (ev_campaign_id clickEvent) (ev_link_id clickEvent)
              (ev_status clickEvent) HOLD 0
  end.

Definition taskLogLine (env : Env) (task : BackgroundTask) : LogEntry :=
  match insert_fault env with
  | Some e => mkLog ERROR ("Click tracking failed: " +:+ messageOf e)
  | None =>
      match task with
      | InsertTrackingTask _ linkId =>
          mkLog INFO ("Click tracked for link: " +:+ showId linkId)
      | TrackClickTask clickEvent =>
          mkLog INFO ("Click tracked: link=" +:+ showId (ev_link_id clickEvent) +:+
                      ", country=" +:+ ev_country clickEvent)
      end
  end.

(** Table affiliate_tracking after the detached [tasks] have run at [now]. *)
Fixpoint trackingAfter (env : Env) (now : Z) (tasks : list BackgroundTask)
         (rows : list TrackingRow) : list TrackingRow :=
  match tasks with
  | [] => rows
  | task :: rest =>
      trackingAfter env now rest
                    (match insert_fault env with
                     | Some _ => rows
                     | None => rows ++ [rowOf rows now (columnsOf task)]
                     end)
  end.

(** Cache key format: affiliate:link:{coupon} *)
Definition affiliateLinkKey (couponCode : string) : string :=
  "affiliate:link:" +:+ couponCode.

Definition isDbQuery (ev : Event) : bool :=
  match ev with DbQuery _ _ => true | _ => false end.


Definition isCacheGet (ev : Event) : bool :=
  match ev with CacheGet _ => true | _ => false end.

Definition with_insert_fault (fault : option Error) (env : Env) : Env :=
  mkEnv (get_behaviour env) (set_behaviour env) (query_fault env) fault (render_fault env).

End Endpoint.

Notation "x <- m ;; k" := (bind m (fun x => k))
  (at level 100, m at next level, k at level 200, right associativity) : handler_scope.
Notation "m ;; k" := (bind m (fun _ => k))
  (at level 100, k at level 200, right associativity) : handler_scope.

(** ** A serializer and worlds for closed examples

    In the examples a cached text is represented by what it denotes: the
    text of an object, the text [null], or a text that does not parse. *)

Inductive CachedText : Type :=
| TextOf (l : AffiliateLink)
| TextNull
| TextMalformed (s : string).

Definition SyntaxError : Error :=
  mkError None None (Some "Unexpected token in JSON") [].

#[global] Instance denotedJSON : Serializer := {|
  payload := CachedText;
  toJSON := TextOf;
  parseJSON := fun t =>
    match t with
    | TextOf l => Returned (Some l)
    | TextNull => Returned None
    | TextMalformed _ => Thrown SyntaxError
    end
|}.

(** The campaign and link of the endpoint documentation, with the window
    [1000, 2000] on the clock. *)
Definition summerSale : Campaign :=
  mkCampaign 456 "Summer Sale" "https://example.com/signup" None "Get 50% off!"
             1000 2000 1 PERCENTAGE 25 ACTIVE ACTIVE (Some 900) (Some 900).

Definition summerRow : AffiliateLinkRow :=
  mkLinkRow 789 "SUMMER2024" 123 456 900 900.

Definition summerLink : AffiliateLink := linkObject (summerRow, summerSale).

Definition quietEnv : Env := mkEnv (Responds 3) (Responds 3) None None None.

(** An environment whose cache read takes 1.5 s, and the error of a
    tracking store that rejects inserts. *)
Definition slowCacheEnv : Env := mkEnv (Responds 1500) (Responds 3) None None None.

Definition databaseDown : Error :=
  mkError (Some 503) None (Some "Database temporarily unavailable") [].

(** A store that holds the snapshot of the documented link until 3300. *)
Definition warmStore : gmap string (CachedText * Z) :=
  {[ "affiliate:link:SUMMER2024" := (TextOf summerLink, 3300) ]}.

Definition requestFor (couponCode : string) (hs : list Header) : Request :=
  mkRequest {[ "coupon" := couponCode ]} hs.

Definition worldAt (now : Z) (store : gmap string (CachedText * Z)) : World :=
  mkWorld now true true store [summerRow] [summerSale] [] [] [] [].

(** ** Further parts of the endpoint *)

Declare Scope job_scope.
Delimit Scope job_scope with job.

Section Further.

Context `{Serializer}.

Local Open Scope handler_scope.

Definition with_set_behaviour (b : Behaviour) (env : Env) : Env :=
  mkEnv (get_behaviour env) b (query_fault env) (insert_fault env) (render_fault env).

(** The outcome of STEP 2 to STEP 5: the snapshot of the cache when STEP 3
    obtains one, otherwise what the repository query throws or returns. *)
Definition resolvedOutcome (env : Env) (w : World) (couponCode : string)
  : Outcome (option AffiliateLink) :=
  match cachedSnapshot env w (affiliateLinkKey couponCode) with
  | Some snapshot => Returned (Some snapshot)
  | None =>
      match query_fault env with
      | Some e => Thrown e
      | None => Returned (findActiveLink w couponCode)
      end
  end.

(** An object restricted to the select lists of
    [queryAffiliateLinkFromDatabase]. *)
Definition withSelectedColumns (l : AffiliateLink) : AffiliateLink :=
  mkLink (link_id l) (link_coupon l) (link_affiliate_id l) (link_campaign_id l)
         (option_map selectedCampaignColumns (link_campaign l))
         (link_created_at l) (link_updated_at l).

(** The status code of the catch-all handler: the error's statusCode,
    else its status, else 500; a zero code counts as none. *)
Definition surfacedStatus (error : Error) : Z :=
  match err_statusCode error, err_status error with
  | Some c, _ => if c =? 0 then 500 else c
  | None, Some c => if c =? 0 then 500 else c
  | None, None => 500
  end.

(** The lines STEP 6 to STEP 9 and the catch-all handler add to the log. *)
Definition handlerLog (env : Env) (couponCode : string)
           (resolved : Outcome (option AffiliateLink)) : list LogEntry :=
  let failed e := mkLog ERROR ("Coupon request failed: " +:+ messageOf e) in
  let invalid := mkLog INFO ("Invalid coupon: " +:+ couponCode) in
  match resolved with
  | Thrown e => [failed e]
  | Returned None => [invalid]
  | Returned (Some found) =>
      match link_id found with
      | None => [invalid]
      | Some _ =>
          match render_fault env with
          | None => []
          | Some e => [mkLog ERROR ("Template rendering failed: " +:+ messageOf e);
                       failed e]
          end
      end
  end.

(** A started cache operation completes, with a value or with an error,
    before the 1000 ms timer fires. *)
Definition settlesInTime (b : Behaviour) : bool :=
  match b with
  | Responds t => t <? 1000
  | Fails t _ => t <? 1000
  | Hangs => false
  end.

(** What the race of STEP 5 throws for a cache write, if anything. *)
Definition writeFailure (b : Behaviour) : option Error :=
  match b with
  | Responds t => if t <? 1000 then None else Some (TimeoutError 1000)
  | Fails t e => if t <? 1000 then Some e else Some (TimeoutError 1000)
  | Hangs => Some (TimeoutError 1000)
  end.

(** ** Cache invalidation

    The commands of the invalidation hook: deleting keys and listing the
    keys that match a pattern.  [trace] records the operations of the
    request path only; the commands of the hook are visible in the store
    and in the log. *)

Arguments Settles {A} latency_ms result.
Arguments NeverSettles {A}.

(** How the server behaves for the commands of one invalidation. *)
Record CacheAdmin : Type := mkCacheAdmin {
  del_behaviour : Behaviour;
  keys_fault : option Error
}.

(** Key patterns: [*] matches any run of characters, every other
    character matches itself. *)
Fixpoint globMatch (pattern s : string) : bool :=
  match pattern with
  | EmptyString => match s with EmptyString => true | String _ _ => false end
  | String "*" rest =>
      (fix star (s : string) : bool :=
         (globMatch rest s || match s with
                              | EmptyString => false
                              | String _ s' => star s'
                              end)%bool) s
  | String c rest =>
      match s with
      | String d s' => (Ascii.eqb c d && globMatch rest s')%bool
      | EmptyString => false
      end
  end.

(** The keys the server holds at the clock of [w]: expired entries are
    gone. *)
Definition liveKeys (w : World) : list string :=
  List.map fst (List.filter (fun entry => clock w <? entry.2.2)
                            (map_to_list (cache_store w))).

(** cacheClient.getKeysByPattern(pattern) *)
Definition cacheClient_getKeysByPattern (admin : CacheAdmin) (pattern : string)
  : Handler (list string) :=
  match keys_fault admin with
  | Some e => throw e
  | None => gets (fun w => List.filter (globMatch pattern) (liveKeys w))
  end.

(** The delete command for a list of keys.  As for a write, a command
    the server answers has been applied by it. *)
Definition cacheClient_delete (admin : CacheAdmin) (keys : list string)
  : Handler (Promise unit) :=
  match del_behaviour admin with
  | Responds t =>
      modify (fun w => set_cache_store (foldr delete (cache_store w) keys) w) ;;
      ret (Settles t (Returned tt))
  | Fails t e => ret (Settles t (Thrown e))
  | Hangs => ret NeverSettles
  end.

(** cacheClient.deleteWithTimeout(key, timeout) *)
Definition cacheClient_deleteWithTimeout (admin : CacheAdmin) (key : string)
           (milliseconds : Z) : Handler unit :=
  p <- cacheClient_delete admin [key] ;;
  awaitRace p milliseconds.

(** cacheClient.deleteMultipleWithTimeout(keys, timeout) *)
Definition cacheClient_deleteMultipleWithTimeout (admin : CacheAdmin)
           (keys : list string) (milliseconds : Z) : Handler unit :=
  p <- cacheClient_delete admin keys ;;
  awaitRace p milliseconds.

(** FUNCTION invalidateAffiliateLinkCache(coupon = NULL) *)
Definition invalidateAffiliateLinkCache (admin : CacheAdmin) (coupon : option string)
  : Handler unit :=
  connected <- cacheClient_isConnected ;;
  if negb connected then ret tt
  else
    tryCatch
      (match coupon with
       | Some couponCode =>
           let cacheKey := "affiliate:link:" +:+ couponCode in
           cacheClient_deleteWithTimeout admin cacheKey 1000 ;;
           logInfo ("Invalidated cache for coupon: " +:+ couponCode)
       | None =>
           let pattern := "affiliate:link:*" in
           keys <- cacheClient_getKeysByPattern admin pattern ;;
           if (0 <? List.length keys)%nat then
             cacheClient_deleteMultipleWithTimeout admin keys 1000 ;;
             logInfo ("Invalidated all affiliate link caches ("
                      +:+ pretty (List.length keys) +:+ " keys)")
           else ret tt
       end)
      (fun error =>
         logWarning ("Cache invalidation failed: " +:+ messageOf error)).

(** What the race of a delete command throws, if anything. *)
Definition deleteFailure (admin : CacheAdmin) : option Error :=
  writeFailure (del_behaviour admin).

(** ** Error handling *)

(** The JSON body of an error response, and what is sent with it. *)
Record ErrorBody : Type := mkErrorBody {
  body_message : string;
  body_statusCode : Z;
  body_stack : option string
}.

Record SentError : Type := mkSentError {
  sent_contentType : string;
  sent_statusCode : Z;
  sent_body : ErrorBody
}.

Section ErrorHandling.

Variable isDevEnvironment : bool.
Variable stackTrace : Error -> string.

(** FUNCTION handleError(response, error) *)
Definition handleError (error : Error) : Handler SentError :=
  let statusCode := extractHTTPStatusCode error 500 in
  let message := extractErrorMessage error in
  logError ("Request failed: " +:+ message +:+ " (status: " +:+ pretty statusCode +:+ ")") ;;
  let errorBody := mkErrorBody message statusCode None in
  let errorBody :=
    if isDevEnvironment
    then mkErrorBody (body_message errorBody) (body_statusCode errorBody)
                     (Some (stackTrace error))
    else errorBody in
  ret (mkSentError "application/json" statusCode errorBody).

End ErrorHandling.

(** ** Batch click buffering

    The optional high-performance mode: clicks are pushed to a list of
    the cache server and a background job moves them to the tracking
    table in batches.  A list grows at its tail and is popped from its
    head.  The job has a world of its own around the world of the
    requests: the lists of the server, the debug log, and its variable
    [clicks], which the CATCH block of the job reads. *)

Class EventSerializer : Type := {
  eventText : Type;
  eventToJSON : ClickTrackingEvent -> eventText;
  eventParseJSON : eventText -> Outcome ClickTrackingEvent
}.

(** How the operations of the buffer behave while the job runs. *)
Record JobEnv : Type := mkJobEnv {
  request_env : Env;
  push_fault : string -> option Error;
  pop_fault : option Error;
  bulk_fault : option Error
}.

Section Buffering.

Context `{EventSerializer}.

Record BufferWorld : Type := mkBufferWorld {
  base : World;
  lists : gmap string (list eventText);
  debug_log : list string;
  clicks : option (list eventText)
}.

Definition Job (A : Type) : Type := BufferWorld -> Outcome A * BufferWorld.

Definition jret {A} (a : A) : Job A := fun s => (Returned a, s).

Definition jbind {A B} (m : Job A) (k : A -> Job B) : Job B :=
  fun s => match m s with
           | (Returned a, s') => k a s'
           | (Thrown e, s') => (Thrown e, s')
           end.

Definition jthrow {A} (e : Error) : Job A := fun s => (Thrown e, s).

Definition jtry {A} (m : Job A) (h : Error -> Job A) : Job A :=
  fun s => match m s with
           | (Returned a, s') => (Returned a, s')
           | (Thrown e, s') => h e s'
           end.

Definition set_base (w : World) (s : BufferWorld) : BufferWorld :=
  mkBufferWorld w (lists s) (debug_log s) (clicks s).
Definition set_lists (l : gmap string (list eventText)) (s : BufferWorld) : BufferWorld :=
  mkBufferWorld (base s) l (debug_log s) (clicks s).
Definition set_debug_log (l : list string) (s : BufferWorld) : BufferWorld :=
  mkBufferWorld (base s) (lists s) l (clicks s).
Definition set_clicks (c : option (list eventText)) (s : BufferWorld) : BufferWorld :=
  mkBufferWorld (base s) (lists s) (debug_log s) c.

(** Handler code run by the job. *)
Definition lift {A} (m : Handler A) : Job A :=
  fun s => match m (base s) with (o, w') => (o, set_base w' s) end.

Notation "x <- m ;; k" := (jbind m (fun x => k))
  (at level 100, m at next level, k at level 200, right associativity) : job_scope.
Notation "m ;; k" := (jbind m (fun _ => k))
  (at level 100, k at level 200, right associativity) : job_scope.
Local Open Scope job_scope.

Definition logDebug (msg : string) : Job unit :=
  fun s => (Returned tt, set_debug_log (debug_log s ++ [msg]) s).

(** Assignment to, and use of, the variable [clicks] of the job. *)
Definition assignClicks (batch : list eventText) : Job unit :=
  fun s => (Returned tt, set_clicks (Some batch) s).
Definition readClicks : Job (option (list eventText)) :=
  fun s => (Returned (clicks s), s).

(** wait(seconds) *)
Definition wait (seconds : Z) : Job unit :=
  lift (modify (fun w => set_clock (clock w + seconds) w)).

(** The list the server holds under [key]; a key without a list is the
    empty list. *)
Definition listOf (s : BufferWorld) (key : string) : list eventText :=
  match lists s !! key with Some l => l | None => [] end.

Section JobOperations.

Variable jenv : JobEnv.

(** cacheClient.listPush(key, value) *)
Definition cacheClient_listPush (key : string) (v : eventText) : Job unit :=
  match push_fault jenv key with
  | Some e => jthrow e
  | None => fun s => (Returned tt, set_lists (<[key := listOf s key ++ [v]]> (lists s)) s)
  end.

(** cacheClient.listPopMultiple(key, count) *)
Definition cacheClient_listPopMultiple (key : string) (count : nat)
  : Job (list eventText) :=
  match pop_fault jenv with
  | Some e => jthrow e
  | None => fun s => (Returned (take count (listOf s key)),
                      set_lists (<[key := drop count (listOf s key)]> (lists s)) s)
  end.

(** The rows a bulk insert of [events] appends to [rows] at [now]. *)
Definition bulkRows (now : Z) (events : list ClickTrackingEvent) (rows : list TrackingRow)
  : list TrackingRow :=
  fold_left (fun acc event => acc ++ [rowOf acc now event]) events rows.

(** database.bulkInsert("affiliate_tracking", events): one statement,
    which inserts every row or none. *)
Definition database_bulkInsert (events : list ClickTrackingEvent) : Job unit :=
  match bulk_fault jenv with
  | Some e => jthrow e
  | None =>
      lift (now <- getCurrentDateTime ;;
            modify (fun w => set_affiliate_tracking
                               (bulkRows now events (affiliate_tracking w)) w))%handler
  end.

(** FUNCTION bufferClickForBatch(clickEvent) *)
Definition bufferClickForBatch (clickEvent : ClickTrackingEvent) : Job unit :=
  let bufferKey := "click_buffer" in
  connected <- lift cacheClient_isConnected ;;
  if negb connected then
    lift (insertClickTracking (request_env jenv) clickEvent) ;;
    jret tt
  else
    jtry
      (let serializedEvent := eventToJSON clickEvent in
       cacheClient_listPush bufferKey serializedEvent ;;
       logDebug "Click buffered for batch insertion")
      (fun error =>
         lift (logWarning ("Click buffering failed, using direct insert: "
                           +:+ messageOf error)) ;;
         lift (insertClickTracking (request_env jenv) clickEvent) ;;
         jret tt).

(** FOR EACH clickJSON IN clicks: events.append(parseJSON(clickJSON)) *)
Fixpoint parseEvents (batch : list eventText) (events : list ClickTrackingEvent)
  : Job (list ClickTrackingEvent) :=
  match batch with
  | [] => jret events
  | clickJSON :: rest =>
      match eventParseJSON clickJSON with
      | Returned event => parseEvents rest (events ++ [event])
      | Thrown e => jthrow e
      end
  end.

(** FOR EACH click IN clicks: cacheClient.listPush(deadLetterKey, click) *)
Fixpoint pushEach (key : string) (batch : list eventText) : Job unit :=
  match batch with
  | [] => jret tt
  | click :: rest => cacheClient_listPush key click ;; pushEach key rest
  end.

(** One pass of the WHILE TRUE loop of [flushClickBuffer].  The TRY
    block yields whether the pass ended with CONTINUE. *)
Definition flushPass : Job unit :=
  let bufferKey := "click_buffer" in
  let batchSize := 5000 in
  continue <-
    jtry
      (popped <- cacheClient_listPopMultiple bufferKey (Z.to_nat batchSize) ;;
       assignClicks popped ;;
       if (List.length popped =? 0)%nat then
         wait 10 ;;
         jret true
       else
         events <- parseEvents popped [] ;;
         database_bulkInsert events ;;
         lift (logInfo ("Flushed " +:+ pretty (List.length events)
                        +:+ " clicks to database")) ;;
         jret false)
      (fun error =>
         lift (logError ("Click buffer flush failed: " +:+ messageOf error)) ;;
         batch <- readClicks ;;
         match batch with
         | Some failed =>
             if (0 <? List.length failed)%nat then
               let deadLetterKey := "click_buffer:dead_letter" in
               pushEach deadLetterKey failed
             else jret tt
         | None => jret tt
         end ;;
         jret false) ;;
  if continue then jret tt else wait 10.

(** FUNCTION flushClickBuffer(), for a number of passes of its loop. *)
Fixpoint flushClickBuffer (passes : nat) : Job unit :=
  match passes with
  | O => jret tt
  | S n => flushPass ;; flushClickBuffer n
  end.

End JobOperations.

(** What parsing a whole batch yields: its events in order, or the
    first error. *)
Fixpoint parsedBatch (batch : list eventText) : Outcome (list ClickTrackingEvent) :=
  match batch with
  | [] => Returned []
  | clickJSON :: rest =>
      match eventParseJSON clickJSON with
      | Returned event =>
          match parsedBatch rest with
          | Returned events => Returned (event :: events)
          | Thrown e => Thrown e
          end
      | Thrown e => Thrown e
      end
  end.

(** The row a bulk insert writes for [event] with id [id] at [now]. *)
Definition bulkRow (id now : Z) (event : ClickTrackingEvent) : TrackingRow :=
  mkTrackingRow id (ev_country event) (ev_affiliate_id event) (ev_campaign_id event)
                (ev_link_id event) (ev_status event) (ev_payment event)
                (ev_amount event) now now.

(** The clicks the system holds: buffered, written to the table, or
    parked in the dead-letter list. *)
Definition clicksHeld (s : BufferWorld) : nat :=
  (List.length (listOf s "click_buffer")
   + List.length (affiliate_tracking (base s))
   + List.length (listOf s "click_buffer:dead_letter"))%nat.

End Buffering.

End Further.

Notation "x <- m ;; k" := (jbind m (fun x => k))
  (at level 100, m at next level, k at level 200, right associativity) : job_scope.
Notation "m ;; k" := (jbind m (fun _ => k))
  (at level 100, k at level 200, right associativity) : job_scope.

(** ** Further examples *)

Definition templateMissing : Error :=
  mkError None None (Some "Failed to lookup view") [].

Definition rejectedQuery : Error :=
  mkError None (Some 0) None ["Validation error"].

(** An environment whose cache write is never answered. *)
Definition hangingWriteEnv : Env := mkEnv (Responds 3) Hangs None None None.

Definition connectionReset : Error :=
  mkError None None (Some "read ECONNRESET") [].

(** A cache server that answers the commands of the invalidation hook. *)
Definition answeringAdmin : CacheAdmin := mkCacheAdmin (Responds 3) None.

(** A buffered text is represented by the event it denotes, or is a text
    that does not parse. *)
Inductive ClickText : Type :=
| ClickOf (event : ClickTrackingEvent)
| ClickMalformed (s : string).

#[global] Instance denotedClicks : EventSerializer := {|
  eventText := ClickText;
  eventToJSON := ClickOf;
  eventParseJSON := fun t =>
    match t with
    | ClickOf event => Returned event
    | ClickMalformed _ => Thrown SyntaxError
    end
|}.

Definition quietJob : JobEnv := mkJobEnv quietEnv (fun _ => None) None None.

(** A job whose table rejects bulk inserts. *)
Definition rejectingJob : JobEnv :=
  mkJobEnv quietEnv (fun _ => None) None (Some databaseDown).

(** A job whose cache server rejects every push. *)
Definition pushlessJob : JobEnv :=
  mkJobEnv quietEnv (fun _ => Some connectionReset) None None.

Definition clickFrom (country0 : string) : ClickTrackingEvent :=
  newClickTrackingEvent country0 123 456 (Some 789) CLICK.

Definition bufferWorld (now : Z) (buffer : list ClickText) : BufferWorld :=
  mkBufferWorld (worldAt now ∅) {[ "click_buffer" := buffer ]} [] None.

(** * Facts *)

Section Facts.

Context `{Serializer}.

Local Open Scope handler_scope.

Implicit Types (env : Env) (w : World) (request : Request).

Lemma sameSurroundings_refl w : sameSurroundings w w.
Proof. repeat split. Qed.

Lemma sameSurroundings_trans w1 w2 w3 :
  sameSurroundings w1 w2 -> sameSurroundings w2 w3 -> sameSurroundings w1 w3.
Proof.
  unfold sameSurroundings. intros (?&?&?&?&?) (?&?&?&?&?).
  repeat split; congruence.
Qed.

Lemma advanced_refl w : advanced w w [] [].
Proof. repeat split; symmetry; apply app_nil_r. Qed.

Lemma advanced_trans w1 w2 w3 evs evs' ts ts' :
  advanced w1 w2 evs ts -> advanced w2 w3 evs' ts' ->
  advanced w1 w3 (evs ++ evs') (ts ++ ts').
Proof.
  unfold advanced. intros (Hs1&?&?&Hsp1&Htr1) (Hs2&?&?&Hsp2&Htr2).
  split; [eapply sameSurroundings_trans; eassumption|].
  repeat split; try congruence.
  - rewrite Hsp2, Hsp1. symmetry. apply app_assoc.
  - rewrite Htr2, Htr1. symmetry. apply app_assoc.
Qed.

Lemma bind_run {A B} (m : Handler A) (k : A -> Handler B) w :
  bind m k w = match m w with
               | (Returned a, w') => k a w'
               | (Thrown e, w') => (Thrown e, w')
               end.
Proof. reflexivity. Qed.

Lemma tryCatch_run {A} (m : Handler A) (h : Error -> Handler A) w :
  tryCatch m h w = match m w with
                   | (Returned a, w') => (Returned a, w')
                   | (Thrown e, w') => h e w'
                   end.
Proof. reflexivity. Qed.

(** *** STEP 3 *)

Lemma attemptCacheRetrieval_run env w couponCode cacheKey :
  exists w',
    attemptCacheRetrieval env couponCode cacheKey w
    = (Returned (cachedSnapshot env w cacheKey), w')
    /\ advanced w w' (readEvents w cacheKey) [].
Proof.
  unfold attemptCacheRetrieval, cachedSnapshot, cacheAnswers, usableSnapshot, readEvents.
  unfold cacheClient_isConnected, cacheClient_isHealthy, gets, bind at 1 2.
  destruct (cache_connected w && cache_healthy w)%bool eqn:Hup.
  2:{ eexists. split; [reflexivity | apply advanced_refl]. }
  unfold tryCatch, cacheClient_getWithTimeout, cacheClient_get, bind, emit, modify, gets, ret.
  destruct (get_behaviour env) as [t | t e | ]; cbn.
  - unfold awaitRace, awaitFirstResolved, createTimeout, operationFirst.
    destruct (t <? 1000) eqn:Ht; cbn.
    + unfold storedValue; cbn.
      destruct (cache_store w !! cacheKey) as [entry|]; cbn.
      2:{ eexists; split; [reflexivity|]. repeat split; cbn; symmetry; apply app_nil_r. }
      destruct (liveValue (clock w) entry) as [cachedText|]; cbn.
      2:{ eexists; split; [reflexivity|]. repeat split; cbn; symmetry; apply app_nil_r. }
      unfold liftOutcome.
      destruct (parseJSON cachedText) as [found | e]; cbn;
        eexists; (split; [reflexivity|]); repeat split; cbn; symmetry; apply app_nil_r.
    + eexists; split; [reflexivity|]. repeat split; cbn; symmetry; apply app_nil_r.
  - unfold awaitRace, awaitFirstResolved, createTimeout, operationFirst.
    destruct (t <? 1000) eqn:Ht; cbn;
      eexists; (split; [reflexivity|]); repeat split; cbn; symmetry; apply app_nil_r.
  - eexists; split; [reflexivity|]. repeat split; cbn; symmetry; apply app_nil_r.
Qed.

Lemma cachedSnapshot_hit env w cacheKey snapshot :
  CacheHit env w cacheKey snapshot -> cachedSnapshot env w cacheKey = Some snapshot.
Proof. intros [Ha Hu]. unfold cachedSnapshot. rewrite Ha. exact Hu. Qed.

Lemma cachedSnapshot_miss env w cacheKey :
  CacheMiss env w cacheKey -> cachedSnapshot env w cacheKey = None.
Proof. intros [Ha Hu]. unfold cachedSnapshot. rewrite Ha. exact Hu. Qed.

Lemma cachedSnapshot_unanswered env w cacheKey :
  cacheAnswers env w = false -> cachedSnapshot env w cacheKey = None.
Proof. intros Ha. unfold cachedSnapshot. rewrite Ha. reflexivity. Qed.

Lemma cachedSnapshot_no_usable env w cacheKey :
  usableSnapshot w cacheKey = None -> cachedSnapshot env w cacheKey = None.
Proof. intros Hu. unfold cachedSnapshot. rewrite Hu. destruct (cacheAnswers env w); reflexivity. Qed.

Lemma cacheAnswers_readEvents env w cacheKey :
  cacheAnswers env w = true -> readEvents w cacheKey = [CacheGet cacheKey].
Proof.
  unfold cacheAnswers, readEvents. intros Ha.
  destruct (cache_connected w && cache_healthy w)%bool; [reflexivity | discriminate].
Qed.

(** *** STEP 4 and STEP 5 *)

Lemma findActiveLink_set_log l w couponCode :
  findActiveLink (set_log l w) couponCode = findActiveLink w couponCode.
Proof. reflexivity. Qed.

Lemma database_query_run env w couponCode :
  database_query env couponCode w
  = (match query_fault env with
     | Some e => Thrown e
     | None => Returned (findActiveLink w couponCode)
     end,
     set_trace (trace w ++ [DbQuery couponCode (clock w)]) w).
Proof.
  unfold database_query, getCurrentDateTime, bind, gets, emit, modify, findActiveLink.
  destruct (query_fault env); reflexivity.
Qed.

Lemma queryOnCacheMiss_fault env w couponCode cacheKey e :
  query_fault env = Some e ->
  exists w',
    queryOnCacheMiss env couponCode cacheKey w = (Thrown e, w')
    /\ advanced w w' [DbQuery couponCode (clock w)] [].
Proof.
  intros Hq. unfold queryOnCacheMiss.
  rewrite bind_run. unfold logInfo at 1, logAt at 1, modify at 1.
  rewrite bind_run, database_query_run, Hq.
  eexists; split; [reflexivity|].
  repeat split; cbn; symmetry; apply app_nil_r.
Qed.

Lemma queryOnCacheMiss_none env w couponCode cacheKey :
  query_fault env = None ->
  findActiveLink w couponCode = None ->
  exists w',
    queryOnCacheMiss env couponCode cacheKey w = (Returned None, w')
    /\ advanced w w' [DbQuery couponCode (clock w)] [].
Proof.
  intros Hq Hnone. unfold queryOnCacheMiss.
  rewrite bind_run. unfold logInfo at 1, logAt at 1, modify at 1.
  rewrite bind_run, database_query_run, Hq, findActiveLink_set_log, Hnone.
  cbn.
  eexists; split; [reflexivity|].
  repeat split; cbn; symmetry; apply app_nil_r.
Qed.

Lemma queryOnCacheMiss_found env w couponCode cacheKey found :
  query_fault env = None ->
  findActiveLink w couponCode = Some found ->
  exists w',
    queryOnCacheMiss env couponCode cacheKey w = (Returned (Some found), w')
    /\ sameSurroundings w w'
    /\ cache_store w' = storeAfterWrite env w cacheKey found
    /\ affiliate_tracking w' = affiliate_tracking w
    /\ spawned w' = spawned w
    /\ trace w' = trace w ++ DbQuery couponCode (clock w) :: writeEvents w cacheKey found.
Proof.
  intros Hq Hfound. unfold queryOnCacheMiss.
  rewrite bind_run. unfold logInfo at 1, logAt at 1, modify at 1.
  rewrite bind_run, database_query_run, Hq, findActiveLink_set_log, Hfound.
  unfold storeAfterWrite, writeEvents.
  unfold cacheClient_isConnected, gets, bind. cbn.
  destruct (cache_connected w) eqn:Hc; cbn.
  2:{ eexists; split; [reflexivity|]. repeat split. }
  unfold tryCatch, cacheClient_setWithTimeout, cacheClient_setWithExpiry,
    bind, emit, modify, ret. cbn.
  destruct (set_behaviour env) as [t | t e | ]; cbn.
  - unfold awaitRace, awaitFirstResolved, createTimeout, operationFirst.
    destruct (t <? 1000); cbn;
      eexists; (split; [reflexivity|]); repeat split; cbn;
      rewrite <- app_assoc; reflexivity.
  - unfold awaitRace, awaitFirstResolved, createTimeout, operationFirst.
    destruct (t <? 1000); cbn;
      eexists; (split; [reflexivity|]); repeat split; cbn;
      rewrite <- app_assoc; reflexivity.
  - eexists; (split; [reflexivity|]); repeat split; cbn;
      rewrite <- app_assoc; reflexivity.
Qed.

(** *** STEP 2 to STEP 5 *)

Lemma findActiveLink_surroundings w w' couponCode :
  sameSurroundings w w' -> findActiveLink w' couponCode = findActiveLink w couponCode.
Proof.
  intros (Hc&_&_&Hl&Hcs). unfold findActiveLink. rewrite Hc, Hl, Hcs. reflexivity.
Qed.

Lemma resolve_hit env w couponCode found :
  cachedSnapshot env w (affiliateLinkKey couponCode) = Some found ->
  exists w',
    resolveAffiliateLink env couponCode w = (Returned (Some found), w')
    /\ advanced w w' (readEvents w (affiliateLinkKey couponCode)) [].
Proof.
  intros Hhit. unfold resolveAffiliateLink. rewrite bind_run.
  destruct (attemptCacheRetrieval_run env w couponCode (affiliateLinkKey couponCode))
    as (w1 & Hrun & Hadv).
  unfold affiliateLinkKey in *. rewrite Hrun, Hhit.
  exists w1. split; [reflexivity | exact Hadv].
Qed.

Lemma resolve_miss_fault env w couponCode e :
  cachedSnapshot env w (affiliateLinkKey couponCode) = None ->
  query_fault env = Some e ->
  exists w',
    resolveAffiliateLink env couponCode w = (Thrown e, w')
    /\ advanced w w' (readEvents w (affiliateLinkKey couponCode)
                      ++ [DbQuery couponCode (clock w)]) [].
Proof.
  intros Hmiss Hq. unfold resolveAffiliateLink. rewrite bind_run.
  destruct (attemptCacheRetrieval_run env w couponCode (affiliateLinkKey couponCode))
    as (w1 & Hrun & Hadv).
  unfold affiliateLinkKey in *. rewrite Hrun, Hmiss.
  destruct (queryOnCacheMiss_fault env w1 couponCode ("affiliate:link:" +:+ couponCode) e Hq)
    as (w2 & Hrun2 & Hadv2).
  exists w2. split; [exact Hrun2|].
  replace (clock w) with (clock w1) by apply Hadv.
  change (@nil BackgroundTask) with (@nil BackgroundTask ++ []).
  eapply advanced_trans; eassumption.
Qed.

Lemma resolve_miss_none env w couponCode :
  cachedSnapshot env w (affiliateLinkKey couponCode) = None ->
  query_fault env = None ->
  findActiveLink w couponCode = None ->
  exists w',
    resolveAffiliateLink env couponCode w = (Returned None, w')
    /\ advanced w w' (readEvents w (affiliateLinkKey couponCode)
                      ++ [DbQuery couponCode (clock w)]) [].
Proof.
  intros Hmiss Hq Hnone. unfold resolveAffiliateLink. rewrite bind_run.
  destruct (attemptCacheRetrieval_run env w couponCode (affiliateLinkKey couponCode))
    as (w1 & Hrun & Hadv).
  unfold affiliateLinkKey in *. rewrite Hrun, Hmiss.
  assert (Hnone1 : findActiveLink w1 couponCode = None)
    by (rewrite (findActiveLink_surroundings w w1); [exact Hnone | apply Hadv]).
  destruct (queryOnCacheMiss_none env w1 couponCode ("affiliate:link:" +:+ couponCode)
                                  Hq Hnone1) as (w2 & Hrun2 & Hadv2).
  exists w2. split; [exact Hrun2|].
  replace (clock w) with (clock w1) by apply Hadv.
  change (@nil BackgroundTask) with (@nil BackgroundTask ++ []).
  eapply advanced_trans; eassumption.
Qed.

Lemma resolve_miss_found env w couponCode found :
  cachedSnapshot env w (affiliateLinkKey couponCode) = None ->
  query_fault env = None ->
  findActiveLink w couponCode = Some found ->
  exists w',
    resolveAffiliateLink env couponCode w = (Returned (Some found), w')
    /\ sameSurroundings w w'
    /\ cache_store w' = storeAfterWrite env w (affiliateLinkKey couponCode) found
    /\ affiliate_tracking w' = affiliate_tracking w
    /\ spawned w' = spawned w
    /\ trace w' = trace w ++ readEvents w (affiliateLinkKey couponCode)
                  ++ DbQuery couponCode (clock w)
                  :: writeEvents w (affiliateLinkKey couponCode) found.
Proof.
  intros Hmiss Hq Hfound. unfold resolveAffiliateLink. rewrite bind_run.
  destruct (attemptCacheRetrieval_run env w couponCode (affiliateLinkKey couponCode))
    as (w1 & Hrun & Hadv).
  unfold affiliateLinkKey in *. rewrite Hrun, Hmiss.
  assert (Hfound1 : findActiveLink w1 couponCode = Some found)
    by (rewrite (findActiveLink_surroundings w w1); [exact Hfound | apply Hadv]).
  destruct (queryOnCacheMiss_found env w1 couponCode ("affiliate:link:" +:+ couponCode)
                                   found Hq Hfound1)
    as (w2 & Hrun2 & Hs2 & Hst2 & Htk2 & Hsp2 & Htr2).
  destruct Hadv as (Hs1 & Hst1 & Htk1 & Hsp1 & Htr1).
  pose proof Hs1 as (Hclock & Hconn & _).
  exists w2. split; [exact Hrun2|].
  split; [eapply sameSurroundings_trans; eassumption|].
  unfold storeAfterWrite, writeEvents in *.
  rewrite Hst2, Htk2, Hsp2, Htr2, Hst1, Htk1, Hsp1, Htr1, Hclock, Hconn.
  rewrite app_nil_r, <- app_assoc. repeat split.
Qed.

(** *** STEP 1 and STEP 6 to STEP 9 *)

Lemma handle_no_coupon env request w :
  pathParameters request !! "coupon" = None \/
  pathParameters request !! "coupon" = Some "" ->
  handlePromotionCouponRequest env request w = (Returned (Redirect 302 "/pricing"), w).
Proof.
  intros [Hc | Hc]; unfold handlePromotionCouponRequest; rewrite Hc; reflexivity.
Qed.

Lemma handle_from_resolve env request w couponCode resolved w1 :
  pathParameters request !! "coupon" = Some couponCode ->
  couponCode <> "" ->
  resolveAffiliateLink env couponCode w = (resolved, w1) ->
  exists w',
    handlePromotionCouponRequest env request w
    = (Returned (responseFor env request resolved), w')
    /\ advanced w1 w' [] (tasksFor request resolved).
Proof.
  intros Hc Hne Hres. unfold handlePromotionCouponRequest. rewrite Hc.
  destruct (String.eqb couponCode "") eqn:Heq;
    [apply String.eqb_eq in Heq; contradiction|].
  rewrite tryCatch_run, bind_run, Hres.
  destruct resolved as [[found|]|e]; cbn.
  - destruct (link_id found) as [linkId|] eqn:Hid.
    + unfold trackAndRender, renderTemplate, executeAsync.
      destruct (render_fault env) as [e|]; cbn;
        eexists; (split; [reflexivity|]); repeat split; cbn;
        try (symmetry; apply app_nil_r); unfold clickEventFor; rewrite Hid; reflexivity.
    + eexists; split; [reflexivity|].
      repeat split; cbn; symmetry; apply app_nil_r.
  - eexists; split; [reflexivity|].
    repeat split; cbn; symmetry; apply app_nil_r.
  - eexists; split; [reflexivity|].
    repeat split; cbn; symmetry; apply app_nil_r.
Qed.

(** The catch-all of the handler leaves nothing thrown. *)
Lemma handle_total env request w :
  exists response w',
    handlePromotionCouponRequest env request w = (Returned response, w').
Proof.
  destruct (pathParameters request !! "coupon") as [couponCode|] eqn:Hc.
  - destruct (String.eqb_spec couponCode "") as [-> | Hne].
    + do 2 eexists. apply handle_no_coupon. now right.
    + destruct (resolveAffiliateLink env couponCode w) as [resolved w1] eqn:Hres.
      destruct (handle_from_resolve env request w couponCode resolved w1 Hc Hne Hres)
        as (w' & Hrun & _).
      eauto.
  - do 2 eexists. apply handle_no_coupon. now left.
Qed.

(** *** Detached work *)

Lemma runTask_run env task w :
  exists w',
    runTask env task w = (Returned tt, w')
    /\ sameSurroundings w w'
    /\ cache_store w' = cache_store w
    /\ spawned w' = spawned w
    /\ trace w' = trace w ++ [DbInsert (columnsOf task)]
    /\ affiliate_tracking w'
       = match insert_fault env with
         | Some _ => affiliate_tracking w
         | None => affiliate_tracking w
                   ++ [rowOf (affiliate_tracking w) (clock w) (columnsOf task)]
         end
    /\ log w' = log w ++ [taskLogLine env task].
Proof.
  destruct task as [clickEvent linkId | clickEvent];
    unfold runTask, insertClickTracking, database_insert, taskLogLine, columnsOf;
    rewrite tryCatch_run, !bind_run; unfold emit at 1, modify at 1;
    destruct (insert_fault env) as [e|]; cbn;
    eexists; (split; [reflexivity|]); repeat split.
Qed.

Lemma runTasks_run env tasks :
  forall w,
  exists w',
    runTasks env tasks w = (Returned tt, w')
    /\ sameSurroundings w w'
    /\ cache_store w' = cache_store w
    /\ spawned w' = spawned w
    /\ trace w' = trace w ++ List.map (fun t => DbInsert (columnsOf t)) tasks
    /\ affiliate_tracking w' = trackingAfter env (clock w) tasks (affiliate_tracking w)
    /\ log w' = log w ++ List.map (taskLogLine env) tasks.
Proof.
  induction tasks as [|task rest IH]; intros w.
  - exists w. cbn. rewrite !app_nil_r. repeat split.
  - cbn [runTasks]. rewrite bind_run, tryCatch_run.
    destruct (runTask_run env task w) as (w1 & Hrun & Hs1 & Hst1 & Hsp1 & Htr1 & Htk1 & Hlg1).
    rewrite Hrun.
    destruct (IH w1) as (w2 & Hrun2 & Hs2 & Hst2 & Hsp2 & Htr2 & Htk2 & Hlg2).
    exists w2. split; [exact Hrun2|].
    split; [eapply sameSurroundings_trans; eassumption|].
    pose proof Hs1 as (Hclock & _).
    rewrite Hst2, Hsp2, Htr2, Htk2, Hlg2, Hst1, Hsp1, Htr1, Htk1, Hlg1, Hclock.
    cbn [List.map trackingAfter]. rewrite <- !app_assoc.
    repeat split.
Qed.

Lemma serveRequest_run env request w response w1 :
  handlePromotionCouponRequest env request w = (Returned response, w1) ->
  exists w',
    serveRequest env request w = (Returned response, w')
    /\ sameSurroundings w1 w'
    /\ cache_store w' = cache_store w1
    /\ spawned w' = []
    /\ trace w' = trace w1 ++ List.map (fun t => DbInsert (columnsOf t)) (spawned w1)
    /\ affiliate_tracking w'
       = trackingAfter env (clock w1) (spawned w1) (affiliate_tracking w1)
    /\ log w' = log w1 ++ List.map (taskLogLine env) (spawned w1).
Proof.
  intros Hrun. unfold serveRequest, runBackground.
  rewrite bind_run, Hrun, !bind_run. unfold gets at 1, modify at 1.
  destruct (runTasks_run env (spawned w1) (set_spawned [] w1))
    as (w2 & Hrun2 & Hs2 & Hst2 & Hsp2 & Htr2 & Htk2 & Hlg2).
  rewrite bind_run, Hrun2. exists w2. split; [reflexivity|].
  repeat split; try apply Hs2; assumption.
Qed.

(** The response of a served request is the response of its handler. *)
Lemma serveRequest_response env request w :
  fst (serveRequest env request w) = fst (handlePromotionCouponRequest env request w).
Proof.
  destruct (handle_total env request w) as (response & w1 & Hrun).
  destruct (serveRequest_run env request w response w1 Hrun) as (w' & Hserve & _).
  rewrite Hserve, Hrun. reflexivity.
Qed.

(** *** The repository *)

Lemma in_innerJoin links camps al c :
  In (al, c) (innerJoin links camps)
  <-> In al links /\ In c camps /\ row_campaign_id al = campaign_pk c.
Proof.
  unfold innerJoin. rewrite in_flat_map. split.
  - intros (al' & Hal & Hin). apply in_map_iff in Hin as (c' & Heq & Hc).
    apply filter_In in Hc as (Hc & Hid). inversion Heq; subst.
    apply Z.eqb_eq in Hid. auto.
  - intros (Hal & Hc & Hid). exists al. split; [exact Hal|].
    apply in_map_iff. exists c. split; [reflexivity|].
    apply filter_In. split; [exact Hc|]. now apply Z.eqb_eq.
Qed.

Lemma in_selectRows w couponCode al c :
  In (al, c) (selectRows (affiliate_links w) (campaigns w) couponCode (clock w) (clock w))
  <-> activeRow w couponCode al c.
Proof.
  unfold selectRows, activeRow, whereClause. rewrite filter_In, in_innerJoin. cbn.
  rewrite !andb_true_iff, String.eqb_eq, Z.ltb_lt, Z.gtb_lt. tauto.
Qed.

Lemma selectRows_nil_iff w couponCode :
  selectRows (affiliate_links w) (campaigns w) couponCode (clock w) (clock w) = []
  <-> ~ exists al c, activeRow w couponCode al c.
Proof.
  split.
  - intros Hnil (al & c & Hrow). apply in_selectRows in Hrow.
    rewrite Hnil in Hrow. exact Hrow.
  - intros Hno.
    destruct (selectRows _ _ _ _ _) as [|[al c] rest] eqn:Hsel; [reflexivity|].
    exfalso. apply Hno. exists al, c. apply in_selectRows. rewrite Hsel. now left.
Qed.

Lemma findActiveLink_None_iff w couponCode :
  findActiveLink w couponCode = None <-> ~ exists al c, activeRow w couponCode al c.
Proof.
  rewrite <- selectRows_nil_iff. unfold findActiveLink.
  destruct (selectRows _ _ _ _ _); cbn; split; congruence.
Qed.

(** An object built from a row has the id of the row. *)
Lemma findActiveLink_has_id w couponCode found :
  findActiveLink w couponCode = Some found -> exists i, link_id found = Some i.
Proof.
  unfold findActiveLink.
  destruct (selectRows _ _ _ _ _) as [|r rest]; cbn; [discriminate|].
  intros [= <-]. cbn. eauto.
Qed.

Lemma queryAffiliateLinkFromDatabase_run env w couponCode :
  queryAffiliateLinkFromDatabase env couponCode w
  = (match query_fault env with
     | Some e => Thrown e
     | None =>
         Returned (head (List.map selectedColumns
                                  (selectRows (affiliate_links w) (campaigns w)
                                              couponCode (clock w) (clock w))))
     end,
     set_trace (trace w ++ [DbQuery couponCode (clock w)]) w).
Proof.
  unfold queryAffiliateLinkFromDatabase, database_execute, getCurrentDateTime,
    bind, gets, emit, modify.
  destruct (query_fault env); [reflexivity|]. cbn -[selectRows].
  destruct (selectRows _ _ _ _ _) as [|r rest]; reflexivity.
Qed.

Lemma queryAffiliateLinkFromDatabase_None_iff env w couponCode :
  query_fault env = None ->
  (fst (queryAffiliateLinkFromDatabase env couponCode w) = Returned None
   <-> ~ exists al c, activeRow w couponCode al c).
Proof.
  intros Hq. rewrite queryAffiliateLinkFromDatabase_run, Hq, <- selectRows_nil_iff. cbn.
  destruct (selectRows _ _ _ _ _); cbn; split; congruence.
Qed.

(** A request that carries a non-empty coupon: its response and the world
    it leaves, from the outcome of STEP 2 to STEP 5. *)
Lemma serve_from_resolve env request w couponCode resolved w1 :
  pathParameters request !! "coupon" = Some couponCode ->
  String.eqb couponCode "" = false ->
  resolveAffiliateLink env couponCode w = (resolved, w1) ->
  exists w',
    serveRequest env request w = (Returned (responseFor env request resolved), w')
    /\ sameSurroundings w1 w'
    /\ cache_store w' = cache_store w1
    /\ spawned w' = []
    /\ trace w' = trace w1
                  ++ List.map (fun t => DbInsert (columnsOf t))
                              (spawned w1 ++ tasksFor request resolved)
    /\ affiliate_tracking w'
       = trackingAfter env (clock w1) (spawned w1 ++ tasksFor request resolved)
                       (affiliate_tracking w1)
    /\ log w' = log (snd (handlePromotionCouponRequest env request w))
                ++ List.map (taskLogLine env) (spawned w1 ++ tasksFor request resolved).
Proof.
  intros Hc Hne Hres.
  assert (Hne' : couponCode <> "") by (intros ->; discriminate).
  destruct (handle_from_resolve env request w couponCode resolved w1 Hc Hne' Hres)
    as (w2 & Hrun & Hs2 & Hst2 & Htk2 & Hsp2 & Htr2).
  destruct (serveRequest_run env request w _ w2 Hrun)
    as (w3 & Hserve & Hs3 & Hst3 & Hsp3 & Htr3 & Htk3 & Hlg3).
  exists w3. split; [exact Hserve|].
  split; [eapply sameSurroundings_trans; eassumption|].
  pose proof Hs2 as (Hclock & _).
  rewrite Hst3, Hsp3, Htr3, Htk3, Hlg3, Hrun, Hst2, Htk2, Hsp2, Htr2, Hclock.
  rewrite app_nil_r. repeat split.
Qed.

(** The outcome of STEP 2 to STEP 5 when the cache supplies nothing. *)
Lemma resolve_miss_outcome env w couponCode :
  cachedSnapshot env w (affiliateLinkKey couponCode) = None ->
  exists w',
    resolveAffiliateLink env couponCode w
    = (match query_fault env with
       | Some e => Thrown e
       | None => Returned (findActiveLink w couponCode)
       end, w')
    /\ In (DbQuery couponCode (clock w)) (trace w').
Proof.
  intros Hmiss. destruct (query_fault env) as [e|] eqn:Hq.
  - destruct (resolve_miss_fault env w couponCode e Hmiss Hq)
      as (w1 & Hrun & _ & _ & _ & _ & Htr).
    exists w1. split; [exact Hrun|]. rewrite Htr, !in_app_iff. right. right. now left.
  - destruct (findActiveLink w couponCode) as [found|] eqn:Hfind.
    + destruct (resolve_miss_found env w couponCode found Hmiss Hq Hfind)
        as (w1 & Hrun & _ & _ & _ & _ & Htr).
      exists w1. split; [exact Hrun|]. rewrite Htr, !in_app_iff. right. right. now left.
    + destruct (resolve_miss_none env w couponCode Hmiss Hq Hfind)
        as (w1 & Hrun & _ & _ & _ & _ & Htr).
      exists w1. split; [exact Hrun|]. rewrite Htr, !in_app_iff. right. right. now left.
Qed.

(** STEP 2 to STEP 5 start no detached work and insert no tracking row. *)
Lemma resolve_frame env w couponCode resolved w1 :
  resolveAffiliateLink env couponCode w = (resolved, w1) ->
  sameSurroundings w w1
  /\ affiliate_tracking w1 = affiliate_tracking w
  /\ spawned w1 = spawned w.
Proof.
  intros Hres.
  destruct (cachedSnapshot env w (affiliateLinkKey couponCode)) as [snapshot|] eqn:Hsnap.
  - destruct (resolve_hit env w couponCode snapshot Hsnap)
      as (w' & Hrun & Hs & _ & Htk & Hsp & _).
    rewrite Hrun in Hres. inversion Hres; subst. rewrite app_nil_r in Hsp. auto.
  - destruct (query_fault env) as [e|] eqn:Hq.
    + destruct (resolve_miss_fault env w couponCode e Hsnap Hq)
        as (w' & Hrun & Hs & _ & Htk & Hsp & _).
      rewrite Hrun in Hres. inversion Hres; subst. rewrite app_nil_r in Hsp. auto.
    + destruct (findActiveLink w couponCode) as [found|] eqn:Hfind.
      * destruct (resolve_miss_found env w couponCode found Hsnap Hq Hfind)
          as (w' & Hrun & Hs & _ & Htk & Hsp & _).
        rewrite Hrun in Hres. inversion Hres; subst. auto.
      * destruct (resolve_miss_none env w couponCode Hsnap Hq Hfind)
          as (w' & Hrun & Hs & _ & Htk & Hsp & _).
        rewrite Hrun in Hres. inversion Hres; subst. rewrite app_nil_r in Hsp. auto.
Qed.

(** The handler never consults the tracking store itself. *)
Lemma handle_insert_fault env request w fault :
  handlePromotionCouponRequest (with_insert_fault fault env) request w
  = handlePromotionCouponRequest env request w.
Proof. reflexivity. Qed.

Lemma trackingAfter_app env now ts ts' rows :
  trackingAfter env now (ts ++ ts') rows
  = trackingAfter env now ts' (trackingAfter env now ts rows).
Proof.
  revert rows. induction ts as [|t ts IH]; intros rows; cbn; [reflexivity|].
  apply IH.
Qed.

Lemma trackingAfter_failing env now ts rows e :
  insert_fault env = Some e -> trackingAfter env now ts rows = rows.
Proof.
  intros Hf. induction ts as [|t ts IH]; cbn; [reflexivity|]. now rewrite Hf.
Qed.

(** *** Entries of the cache store *)

Lemma usableSnapshot_of_entry w cacheKey cachedText expires snapshot :
  cache_store w !! cacheKey = Some (cachedText, expires) ->
  clock w < expires ->
  parseJSON cachedText = Returned (Some snapshot) ->
  usableSnapshot w cacheKey = Some snapshot.
Proof.
  intros Hentry Hlive Hparse. unfold usableSnapshot, storedValue, liveValue.
  rewrite Hentry. cbn.
  destruct (Z.ltb_spec (clock w) expires); [|lia].
  now rewrite Hparse.
Qed.


Lemma storeAfterWrite_applied env w cacheKey found t :
  cache_connected w = true ->
  set_behaviour env = Responds t ->
  storeAfterWrite env w cacheKey found !! cacheKey
  = Some (toJSON found, clock w + 1800).
Proof.
  intros Hc Hset. unfold storeAfterWrite. rewrite Hc, Hset.
  apply lookup_insert_eq.
Qed.

(** *** The caching helpers *)

Lemma getCachedAffiliateLink_failure env w couponCode :
  cache_connected w = false \/ answersInTime (get_behaviour env) = false ->
  fst (getCachedAffiliateLink env couponCode w) = Returned None.
Proof.
  intros Hfail. unfold getCachedAffiliateLink, cacheClient_isConnected.
  rewrite bind_run. unfold gets at 1.
  destruct (cache_connected w) eqn:Hc; [|reflexivity].
  destruct Hfail as [Hfail | Hfail]; [discriminate|].
  cbn [negb]. rewrite tryCatch_run, bind_run.
  unfold cacheClient_get, emit, modify, gets, bind. cbn.
  unfold awaitFirstResolved, operationFirst, createTimeout.
  destruct (get_behaviour env) as [t | t e | ]; cbn in *.
  - rewrite Hfail. reflexivity.
  - destruct (t <? 1000); reflexivity.
  - reflexivity.
Qed.

Lemma cacheAnswers_failure env w :
  cache_connected w = false \/ answersInTime (get_behaviour env) = false ->
  cacheAnswers env w = false.
Proof.
  unfold cacheAnswers. intros [-> | ->]; [reflexivity|]. apply andb_false_r.
Qed.

Lemma cacheAnswers_connected env w :
  cacheAnswers env w = true -> cache_connected w = true.
Proof.
  unfold cacheAnswers. intros Ha.
  destruct (cache_connected w); [reflexivity | discriminate].
Qed.

(** *** Header lookup *)

Lemma extractHeader_name_case request headerName headerName' :
  toLowerCase headerName = toLowerCase headerName' ->
  extractHeader request headerName = extractHeader request headerName'.
Proof. unfold extractHeader. now intros ->. Qed.

Lemma findHeader_header_case hs hs' headerNameLower :
  List.map (fun h => (toLowerCase (name h), value h)) hs
  = List.map (fun h => (toLowerCase (name h), value h)) hs' ->
  findHeader hs headerNameLower = findHeader hs' headerNameLower.
Proof.
  revert hs'. induction hs as [|h hs IH]; intros [|h' hs'] Heq; try discriminate.
  - reflexivity.
  - cbn in Heq. injection Heq as Hn Hv Hrest. cbn. rewrite Hn, Hv.
    now rewrite (IH hs' Hrest).
Qed.

Lemma detectCountry_blank request :
  extractHeader request "cf-ipcountry" = None \/
  extractHeader request "cf-ipcountry" = Some "" ->
  detectCountry request = "UNKNOWN".
Proof. unfold detectCountry. intros [-> | ->]; reflexivity. Qed.

(** The same holds when every header that bears the name, in whatever
    letter case, is empty, so whichever of them a lookup selects. *)
Lemma findHeader_all_blank hs headerNameLower :
  (forall h, In h hs -> toLowerCase (name h) = headerNameLower -> value h = "") ->
  findHeader hs headerNameLower = None \/ findHeader hs headerNameLower = Some "".
Proof.
  induction hs as [|h hs IH]; intros Hblank; cbn; [now left|].
  destruct (String.eqb_spec (toLowerCase (name h)) headerNameLower) as [Heq | Hne].
  - right. f_equal. apply Hblank; [now left | exact Heq].
  - apply IH. intros h' Hin. apply Hblank. now right.
Qed.

Lemma detectCountry_all_blank request :
  (forall h, In h (headers request) ->
             toLowerCase (name h) = "cf-ipcountry" -> value h = "") ->
  detectCountry request = "UNKNOWN".
Proof.
  intros Hblank. apply detectCountry_blank.
  exact (findHeader_all_blank (headers request) "cf-ipcountry" Hblank).
Qed.

(** *** Cache writes of STEP 2 to STEP 5 *)

Lemma resolve_cache_writes env w couponCode resolved w1 :
  resolveAffiliateLink env couponCode w = (resolved, w1) ->
  exists evs,
    trace w1 = trace w ++ evs
    /\ forall k v ttl,
        In (CacheSet k v ttl) evs ->
        exists found,
          findActiveLink w couponCode = Some found
          /\ resolved = Returned (Some found)
          /\ k = affiliateLinkKey couponCode /\ v = toJSON found /\ ttl = 1800.
Proof.
  intros Hres.
  assert (Hread : forall k v ttl,
             ~ In (CacheSet k v ttl) (readEvents w (affiliateLinkKey couponCode))).
  { intros k v ttl. unfold readEvents.
    destruct (cache_connected w && cache_healthy w)%bool; cbn; [|tauto].
    intros [Heq | []]. discriminate Heq. }
  destruct (cachedSnapshot env w (affiliateLinkKey couponCode)) as [snapshot|] eqn:Hsnap.
  - destruct (resolve_hit env w couponCode snapshot Hsnap)
      as (w' & Hrun & _ & _ & _ & _ & Htr).
    rewrite Hrun in Hres. inversion Hres; subst.
    eexists. split; [exact Htr|]. intros k v ttl Hin. destruct (Hread _ _ _ Hin).
  - destruct (query_fault env) as [e|] eqn:Hq.
    + destruct (resolve_miss_fault env w couponCode e Hsnap Hq)
        as (w' & Hrun & _ & _ & _ & _ & Htr).
      rewrite Hrun in Hres. inversion Hres; subst.
      eexists. split; [exact Htr|]. intros k v ttl Hin.
      apply in_app_iff in Hin as [Hin | [Heq | []]];
        [destruct (Hread _ _ _ Hin) | discriminate Heq].
    + destruct (findActiveLink w couponCode) as [found|] eqn:Hfind.
      * destruct (resolve_miss_found env w couponCode found Hsnap Hq Hfind)
          as (w' & Hrun & _ & _ & _ & _ & Htr).
        rewrite Hrun in Hres. inversion Hres; subst.
        eexists. split; [exact Htr|]. intros k v ttl Hin.
        apply in_app_iff in Hin as [Hin | [Heq | Hin]];
          [destruct (Hread _ _ _ Hin) | discriminate Heq |].
        unfold writeEvents in Hin.
        destruct (cache_connected w); cbn in Hin; [|tauto].
        destruct Hin as [Heq | []]. inversion Heq; subst. exists found. auto.
      * destruct (resolve_miss_none env w couponCode Hsnap Hq Hfind)
          as (w' & Hrun & _ & _ & _ & _ & Htr).
        rewrite Hrun in Hres. inversion Hres; subst.
        eexists. split; [exact Htr|]. intros k v ttl Hin.
        apply in_app_iff in Hin as [Hin | [Heq | []]];
          [destruct (Hread _ _ _ Hin) | discriminate Heq].
Qed.

Lemma answersInTime_false_iff b :
  answersInTime b = false
  <-> b = Hangs \/ (exists t e, b = Fails t e) \/ (exists t, b = Responds t /\ 1000 <= t).
Proof.
  destruct b as [t | t e | ]; cbn.
  - rewrite Z.ltb_ge. split.
    + intros Ht. right. right. eauto.
    + intros [Hb | [(t' & e & Hb) | (t' & Hb & Ht)]]; try discriminate.
      now inversion Hb; subst.
  - split; [intros _; right; left; eauto | reflexivity].
  - split; [intros _; now left | reflexivity].
Qed.

Lemma cacheAffiliateLink_applied env w couponCode affiliateLink ttl t :
  cache_connected w = true ->
  set_behaviour env = Responds t ->
  t < 1000 ->
  exists w',
    cacheAffiliateLink env couponCode affiliateLink ttl w = (Returned true, w')
    /\ cache_store w' = <[affiliateLinkKey couponCode := (toJSON affiliateLink, clock w + ttl)]>
                          (cache_store w)
    /\ trace w' = trace w ++ [CacheSet (affiliateLinkKey couponCode) (toJSON affiliateLink) ttl].
Proof.
  intros Hc Hset Ht. unfold cacheAffiliateLink, cacheClient_isConnected.
  rewrite bind_run. unfold gets at 1. rewrite Hc. cbn [negb].
  rewrite tryCatch_run, bind_run.
  unfold cacheClient_setWithExpiry, emit, modify, bind. rewrite Hset. cbn.
  unfold awaitFirstResolved, operationFirst, createTimeout.
  destruct (Z.ltb_spec t 1000); [|lia]. cbn.
  eexists. split; [reflexivity|]. split; reflexivity.
Qed.

(** ** The claims *)

(** C1, as amended.  For a request with a non-empty coupon whose
    resolution obtains no snapshot from the cache and whose repository
    read does not fail: resolution yields not-found, and the response is
    the 302 redirect to /pricing, exactly when the repository has no row
    with that coupon whose campaign satisfies start_on < now < end_on
    (strict on both sides); the repository query alone returns NULL under
    the same condition; in particular the response is the redirect when
    every campaign joined to the coupon is at one of its boundary
    instants. *)
Theorem not_found_iff_no_active_row env w request couponCode :
  pathParameters request !! "coupon" = Some couponCode ->
  String.eqb couponCode "" = false ->
  cachedSnapshot env w (affiliateLinkKey couponCode) = None ->
  query_fault env = None ->
  (fst (resolveAffiliateLink env couponCode w) = Returned None
   <-> ~ exists al c, activeRow w couponCode al c)
  /\ (fst (serveRequest env request w) = Returned (Redirect 302 "/pricing")
      <-> ~ exists al c, activeRow w couponCode al c)
  /\ (fst (queryAffiliateLinkFromDatabase env couponCode w) = Returned None
      <-> ~ exists al c, activeRow w couponCode al c)
  /\ ((forall al c,
          In al (affiliate_links w) -> In c (campaigns w) ->
          row_campaign_id al = campaign_pk c -> row_coupon al = couponCode ->
          clock w = start_on c \/ clock w = end_on c) ->
      fst (serveRequest env request w) = Returned (Redirect 302 "/pricing")).
Proof.
  intros Hc Hne Hmiss Hq.
  assert (Hresolve :
            fst (resolveAffiliateLink env couponCode w) = Returned None
            <-> ~ exists al c, activeRow w couponCode al c).
  { rewrite <- findActiveLink_None_iff.
    destruct (findActiveLink w couponCode) as [found|] eqn:Hfind.
    - destruct (resolve_miss_found env w couponCode found Hmiss Hq Hfind)
        as (w1 & Hrun & _).
      rewrite Hrun. cbn. split; discriminate.
    - destruct (resolve_miss_none env w couponCode Hmiss Hq Hfind) as (w1 & Hrun & _).
      rewrite Hrun. cbn. split; reflexivity. }
  assert (Hserve :
            fst (serveRequest env request w) = Returned (Redirect 302 "/pricing")
            <-> ~ exists al c, activeRow w couponCode al c).
  { rewrite <- findActiveLink_None_iff.
    destruct (findActiveLink w couponCode) as [found|] eqn:Hfind.
    - destruct (resolve_miss_found env w couponCode found Hmiss Hq Hfind)
        as (w1 & Hrun & _).
      destruct (serve_from_resolve env request w couponCode _ w1 Hc Hne Hrun)
        as (w2 & Hrun2 & _).
      rewrite Hrun2. cbn.
      destruct (findActiveLink_has_id w couponCode found Hfind) as (i & Hid).
      rewrite Hid. destruct (render_fault env); split; discriminate.
    - destruct (resolve_miss_none env w couponCode Hmiss Hq Hfind) as (w1 & Hrun & _).
      destruct (serve_from_resolve env request w couponCode _ w1 Hc Hne Hrun)
        as (w2 & Hrun2 & _).
      rewrite Hrun2. cbn. split; reflexivity. }
  split; [exact Hresolve|]. split; [exact Hserve|].
  split; [apply queryAffiliateLinkFromDatabase_None_iff; exact Hq|].
  intros Hboundary. apply Hserve.
  intros (al & c & Hal & Hcm & Hid & Hcoupon & Hstart & Hend).
  destruct (Hboundary al c Hal Hcm Hid Hcoupon); lia.
Qed.

(** C2.  On a cache hit (the read under affiliate:link:{coupon} is
    answered with a stored snapshot) the resolver returns that snapshot,
    the only operation it issues is the cache read, and no operation of
    the whole request is a repository query. *)
Theorem cache_hit_never_queries_repository env w couponCode snapshot :
  CacheHit env w (affiliateLinkKey couponCode) snapshot ->
  (exists w',
      resolveAffiliateLink env couponCode w = (Returned (Some snapshot), w')
      /\ trace w' = trace w ++ [CacheGet (affiliateLinkKey couponCode)]
      /\ cache_store w' = cache_store w)
  /\ forall request,
      pathParameters request !! "coupon" = Some couponCode ->
      exists response w'' evs,
        serveRequest env request w = (Returned response, w'')
        /\ trace w'' = trace w ++ evs
        /\ forall ev, In ev evs -> isDbQuery ev = false.
Proof.
  intros Hhit.
  pose proof (cachedSnapshot_hit env w _ snapshot Hhit) as Hsnap.
  destruct (resolve_hit env w couponCode snapshot Hsnap) as (w1 & Hrun & Hadv).
  rewrite (cacheAnswers_readEvents env w _ (proj1 Hhit)) in Hadv.
  destruct Hadv as (Hs1 & Hst1 & Htk1 & Hsp1 & Htr1).
  split.
  { exists w1. auto. }
  intros request Hc.
  destruct (String.eqb couponCode "") eqn:Hne.
  - apply String.eqb_eq in Hne. subst couponCode.
    pose proof (handle_no_coupon env request w (or_intror Hc)) as Hh.
    destruct (serveRequest_run env request w _ w Hh)
      as (w2 & Hserve & _ & _ & _ & Htr2 & _).
    exists (Redirect 302 "/pricing"), w2,
      (List.map (fun t => DbInsert (columnsOf t)) (spawned w)).
    split; [exact Hserve|]. split; [exact Htr2|].
    intros ev Hin. apply in_map_iff in Hin as (t & <- & _). reflexivity.
  - destruct (serve_from_resolve env request w couponCode _ w1 Hc Hne Hrun)
      as (w2 & Hserve & _ & _ & _ & Htr2 & _).
    eexists _, w2, _. split; [exact Hserve|].
    split; [rewrite Htr2, Htr1, <- app_assoc; reflexivity|].
    intros ev [<- | Hin]; [reflexivity|].
    apply in_map_iff in Hin as (t & <- & _). reflexivity.
Qed.

(** C6.  A request whose coupon is missing or empty is answered with the
    302 redirect to /pricing and leaves the world as it found it: no cache
    read and no repository read is issued. *)
Theorem empty_coupon_redirects_without_lookup env w request :
  pathParameters request !! "coupon" = None \/
  pathParameters request !! "coupon" = Some "" ->
  handlePromotionCouponRequest env request w = (Returned (Redirect 302 "/pricing"), w)
  /\ exists w' evs,
      serveRequest env request w = (Returned (Redirect 302 "/pricing"), w')
      /\ cache_store w' = cache_store w
      /\ trace w' = trace w ++ evs
      /\ forall ev, In ev evs -> isCacheGet ev = false /\ isDbQuery ev = false.
Proof.
  intros Hc. pose proof (handle_no_coupon env request w Hc) as Hh.
  split; [exact Hh|].
  destruct (serveRequest_run env request w _ w Hh)
    as (w2 & Hserve & _ & Hst & _ & Htr2 & _).
  exists w2, (List.map (fun t => DbInsert (columnsOf t)) (spawned w)).
  split; [exact Hserve|]. split; [exact Hst|]. split; [exact Htr2|].
  intros ev Hin. apply in_map_iff in Hin as (t & <- & _). split; reflexivity.
Qed.

(** C3, as amended.  When the resolution of a coupon is a cache miss
    followed by a successful repository read, the resolver issues, after
    the read and the query, a write of the serialized record under
    affiliate:link:{coupon} with TTL 1800 seconds.  When the cache server
    answers that write, the entry expires 1800 seconds after the request,
    and a following resolution of the same coupon within the TTL, with
    the entry still in place, its cache read answered and the serialized
    record parsing back to the record, is a cache hit that returns the
    same record without a repository query.  The helper
    [cacheAffiliateLink] stores the same entry when its write is answered
    within the budget. *)
Theorem cache_miss_populates_cache env w couponCode found :
  CacheMiss env w (affiliateLinkKey couponCode) ->
  query_fault env = None ->
  findActiveLink w couponCode = Some found ->
  (exists w1,
      resolveAffiliateLink env couponCode w = (Returned (Some found), w1)
      /\ trace w1 = trace w ++ [CacheGet (affiliateLinkKey couponCode);
                                DbQuery couponCode (clock w);
                                CacheSet (affiliateLinkKey couponCode) (toJSON found) 1800]
      /\ forall t,
          set_behaviour env = Responds t ->
          cache_store w1 !! affiliateLinkKey couponCode
          = Some (toJSON found, clock w + 1800)
          /\ forall env2 w2,
              cache_store w2 = cache_store w1 ->
              clock w <= clock w2 < clock w + 1800 ->
              cacheAnswers env2 w2 = true ->
              parseJSON (toJSON found) = Returned (Some found) ->
              CacheHit env2 w2 (affiliateLinkKey couponCode) found
              /\ exists w3,
                  resolveAffiliateLink env2 couponCode w2 = (Returned (Some found), w3)
                  /\ trace w3 = trace w2 ++ [CacheGet (affiliateLinkKey couponCode)])
  /\ (forall t w0,
         cache_connected w0 = true ->
         set_behaviour env = Responds t ->
         t < 1000 ->
         exists w',
           cacheAffiliateLink env couponCode found 1800 w0 = (Returned true, w')
           /\ cache_store w' !! affiliateLinkKey couponCode
              = Some (toJSON found, clock w0 + 1800)
           /\ trace w' = trace w0 ++ [CacheSet (affiliateLinkKey couponCode)
                                               (toJSON found) 1800]).
Proof.
  intros Hmiss Hq Hfind.
  split.
  2:{ intros t w0 Hc0 Hset Ht.
      destruct (cacheAffiliateLink_applied env w0 couponCode found 1800 t Hc0 Hset Ht)
        as (w' & Hrun & Hst & Htr).
      exists w'. split; [exact Hrun|]. split; [|exact Htr].
      rewrite Hst. apply lookup_insert_eq. }
  pose proof (cacheAnswers_connected env w (proj1 Hmiss)) as Hconn.
  destruct (resolve_miss_found env w couponCode found
                               (cachedSnapshot_miss env w _ Hmiss) Hq Hfind)
    as (w1 & Hrun & Hs1 & Hst1 & _ & _ & Htr1).
  exists w1. split; [exact Hrun|]. split.
  { rewrite Htr1, (cacheAnswers_readEvents env w _ (proj1 Hmiss)).
    unfold writeEvents. rewrite Hconn. reflexivity. }
  intros t Hset.
  assert (Hentry : cache_store w1 !! affiliateLinkKey couponCode
                   = Some (toJSON found, clock w + 1800))
    by (rewrite Hst1; eapply storeAfterWrite_applied; eassumption).
  split; [exact Hentry|].
  intros env2 w2 Hsame [_ Httl] Hanswers Hparse.
  assert (Hhit : CacheHit env2 w2 (affiliateLinkKey couponCode) found).
  { split; [exact Hanswers|].
    eapply usableSnapshot_of_entry; [rewrite Hsame; exact Hentry | exact Httl | exact Hparse]. }
  split; [exact Hhit|].
  destruct (resolve_hit env2 w2 couponCode found (cachedSnapshot_hit env2 w2 _ found Hhit))
    as (w3 & Hrun3 & _ & _ & _ & _ & Htr3).
  exists w3. split; [exact Hrun3|].
  rewrite Htr3, (cacheAnswers_readEvents env2 w2 _ Hanswers). reflexivity.
Qed.

(** C4.  When the cache read exceeds the 1000 ms budget, fails, or the
    client is disconnected, the cache helper returns NULL and the request
    is served exactly as on a cache miss: nothing is thrown by the cache
    read, the repository is queried, response and resolved record are
    those of a request that misses, no error response is produced when
    repository and template engine work, and a coupon with an active
    campaign is resolved and rendered. *)
Theorem cache_read_failure_degrades_to_miss env w request couponCode :
  pathParameters request !! "coupon" = Some couponCode ->
  String.eqb couponCode "" = false ->
  cache_connected w = false \/ answersInTime (get_behaviour env) = false ->
  fst (getCachedAffiliateLink env couponCode w) = Returned None
  /\ fst (attemptCacheRetrieval env couponCode (affiliateLinkKey couponCode) w)
     = Returned None
  /\ (exists resolved w1,
         resolveAffiliateLink env couponCode w = (resolved, w1)
         /\ In (DbQuery couponCode (clock w)) (trace w1))
  /\ (forall env0 w0,
         CacheMiss env0 w0 (affiliateLinkKey couponCode) ->
         sameSurroundings w w0 ->
         query_fault env0 = query_fault env ->
         render_fault env0 = render_fault env ->
         fst (resolveAffiliateLink env couponCode w)
         = fst (resolveAffiliateLink env0 couponCode w0)
         /\ fst (serveRequest env request w) = fst (serveRequest env0 request w0))
  /\ (query_fault env = None -> render_fault env = None ->
      forall status message,
        fst (serveRequest env request w) <> Returned (JSONError status message))
  /\ (forall found,
         query_fault env = None ->
         findActiveLink w couponCode = Some found ->
         fst (resolveAffiliateLink env couponCode w) = Returned (Some found)
         /\ (render_fault env = None ->
             fst (serveRequest env request w)
             = Returned (Html 200 "coupon_redirect"
                              (mkTemplateData found (detectCountry request))))).
Proof.
  intros Hc Hne Hfail.
  pose proof (cachedSnapshot_unanswered env w (affiliateLinkKey couponCode)
                                        (cacheAnswers_failure env w Hfail)) as Hsnap.
  destruct (resolve_miss_outcome env w couponCode Hsnap) as (w1 & Hrun & Hin).
  destruct (serve_from_resolve env request w couponCode _ w1 Hc Hne Hrun)
    as (w2 & Hserve & _).
  split; [apply getCachedAffiliateLink_failure; exact Hfail|].
  split.
  { destruct (attemptCacheRetrieval_run env w couponCode (affiliateLinkKey couponCode))
      as (w' & Hread & _).
    rewrite Hread, Hsnap. reflexivity. }
  split; [eauto|].
  split.
  { intros env0 w0 Hmiss0 Hsame Hq0 Hr0.
    destruct (resolve_miss_outcome env0 w0 couponCode (cachedSnapshot_miss env0 w0 _ Hmiss0))
      as (w1' & Hrun0 & _).
    destruct (serve_from_resolve env0 request w0 couponCode _ w1' Hc Hne Hrun0)
      as (w2' & Hserve0 & _).
    rewrite Hrun, Hrun0, Hserve, Hserve0, Hq0, (findActiveLink_surroundings w w0 _ Hsame).
    split; [reflexivity|]. cbn [fst]. f_equal.
    unfold responseFor. rewrite Hr0. reflexivity. }
  split.
  { intros Hq Hr status message. rewrite Hserve, Hq. cbn. rewrite Hr.
    destruct (findActiveLink w couponCode) as [found|]; [|discriminate].
    destruct (link_id found); discriminate. }
  intros found Hq Hfind. rewrite Hrun, Hserve, Hq, Hfind. cbn.
  split; [reflexivity|]. intros Hr. rewrite Hr.
  destruct (findActiveLink_has_id w couponCode found Hfind) as (i & ->). reflexivity.
Qed.

(** C5.  Each of the two detached tracking closures catches a failing
    insert, logs it at error level and writes no row.  The response of a
    request is the same whether the tracking insert fails or succeeds, and
    nothing is thrown to the caller; for a resolved request whose insert
    fails, the response is the one the resolved record determines, the
    failure is in the log, and no tracking row is written. *)
Theorem tracking_failure_isolated env w request e :
  (forall task w0,
      exists w',
        runTask (with_insert_fault (Some e) env) task w0 = (Returned tt, w')
        /\ log w' = log w0 ++ [mkLog ERROR ("Click tracking failed: " +:+ messageOf e)]
        /\ affiliate_tracking w' = affiliate_tracking w0)
  /\ fst (serveRequest (with_insert_fault (Some e) env) request w)
  = fst (serveRequest (with_insert_fault None env) request w)
  /\ (exists response,
         fst (serveRequest (with_insert_fault (Some e) env) request w)
         = Returned response)
  /\ forall couponCode found i,
      pathParameters request !! "coupon" = Some couponCode ->
      String.eqb couponCode "" = false ->
      fst (resolveAffiliateLink env couponCode w) = Returned (Some found) ->
      link_id found = Some i ->
      fst (serveRequest (with_insert_fault (Some e) env) request w)
      = Returned (responseFor env request (Returned (Some found)))
      /\ In (mkLog ERROR ("Click tracking failed: " +:+ messageOf e))
            (log (snd (serveRequest (with_insert_fault (Some e) env) request w)))
      /\ affiliate_tracking (snd (serveRequest (with_insert_fault (Some e) env) request w))
         = affiliate_tracking w.
Proof.
  split.
  { intros task w0.
    destruct (runTask_run (with_insert_fault (Some e) env) task w0)
      as (w' & Hrun & _ & _ & _ & _ & Htk & Hlg).
    exists w'. split; [exact Hrun|]. split; [exact Hlg | exact Htk]. }
  split.
  { rewrite !serveRequest_response, !handle_insert_fault. reflexivity. }
  split.
  { rewrite serveRequest_response.
    destruct (handle_total (with_insert_fault (Some e) env) request w)
      as (response & w' & Hrun).
    exists response. rewrite Hrun. reflexivity. }
  intros couponCode found i Hc Hne Hres Hid.
  destruct (resolveAffiliateLink env couponCode w) as [resolved w1] eqn:Hrun.
  cbn in Hres. subst resolved.
  destruct (resolve_frame env w couponCode _ w1 Hrun) as (_ & Htk1 & _).
  destruct (serve_from_resolve (with_insert_fault (Some e) env) request w couponCode
                               _ w1 Hc Hne Hrun)
    as (w2 & Hserve & _ & _ & _ & _ & Htk2 & Hlg2).
  rewrite Hserve. cbn [fst snd]. split; [reflexivity|]. split.
  - rewrite Hlg2, in_app_iff. right. rewrite map_app, in_app_iff. right.
    cbn. rewrite Hid. now left.
  - rewrite Htk2, <- Htk1. eapply trackingAfter_failing. reflexivity.
Qed.

(** C7.  For a successfully resolved request whose cf-ipcountry header,
    looked up without regard to letter case, is absent or empty, the
    tracking event the handler creates, the data passed to the template
    and the tracking row written all carry the country "UNKNOWN". *)
Theorem missing_country_defaults_to_UNKNOWN env w request couponCode found i :
  pathParameters request !! "coupon" = Some couponCode ->
  String.eqb couponCode "" = false ->
  fst (resolveAffiliateLink env couponCode w) = Returned (Some found) ->
  link_id found = Some i ->
  extractHeader request "cf-ipcountry" = None \/
  extractHeader request "cf-ipcountry" = Some "" ->
  (exists w' clickEvent,
      handlePromotionCouponRequest env request w
      = (Returned (responseFor env request (Returned (Some found))), w')
      /\ spawned w' = spawned w ++ [InsertTrackingTask clickEvent (Some i)]
      /\ ev_country clickEvent = "UNKNOWN")
  /\ (render_fault env = None ->
      fst (serveRequest env request w)
      = Returned (Html 200 "coupon_redirect" (mkTemplateData found "UNKNOWN")))
  /\ (insert_fault env = None ->
      exists rows row,
        affiliate_tracking (snd (serveRequest env request w)) = rows ++ [row]
        /\ trk_link_id row = Some i
        /\ trk_country row = "UNKNOWN").
Proof.
  intros Hc Hne Hres Hid Hblank.
  pose proof (detectCountry_blank request Hblank) as Hcountry.
  destruct (resolveAffiliateLink env couponCode w) as [resolved w1] eqn:Hrun.
  cbn in Hres. subst resolved.
  destruct (resolve_frame env w couponCode _ w1 Hrun) as (_ & _ & Hsp1).
  assert (Hne' : couponCode <> "") by (intros ->; discriminate).
  destruct (handle_from_resolve env request w couponCode _ w1 Hc Hne' Hrun)
    as (w2 & Hhandle & _ & _ & _ & Hsp2 & _).
  destruct (serve_from_resolve env request w couponCode _ w1 Hc Hne Hrun)
    as (w3 & Hserve & _ & _ & _ & _ & Htk3 & _).
  cbn [tasksFor] in Hsp2, Htk3. rewrite Hid in Hsp2, Htk3.
  split.
  { exists w2, (clickEventFor request found).
    split; [exact Hhandle|]. split; [rewrite Hsp2, Hsp1; reflexivity|].
    cbn. exact Hcountry. }
  split.
  { intros Hr. rewrite Hserve. cbn. rewrite Hid, Hr, Hcountry. reflexivity. }
  intros Hins. rewrite Hserve. cbn [snd].
  rewrite Htk3, trackingAfter_app. cbn [trackingAfter]. rewrite Hins.
  eexists _, _. split; [reflexivity|]. cbn. split; [exact Hid | exact Hcountry].
Qed.

(** C8.  The rows a request adds to affiliate_tracking, beyond those of
    detached work still pending from earlier requests, are rows of a
    resolved coupon and carry its affiliate id, campaign id and link id,
    the detected country, status CLICK, payment HOLD and amount 0; a
    resolved request whose insert succeeds adds exactly that row; and
    [insertClickTracking] writes HOLD and 0 whatever the event holds. *)
Theorem tracking_row_fields env w request :
  (exists added,
      affiliate_tracking (snd (serveRequest env request w))
      = trackingAfter env (clock w) (spawned w) (affiliate_tracking w) ++ added
      /\ forall row,
          In row added ->
          exists couponCode found,
            pathParameters request !! "coupon" = Some couponCode
            /\ fst (resolveAffiliateLink env couponCode w) = Returned (Some found)
            /\ trk_affiliate_id row = link_affiliate_id found
            /\ trk_campaign_id row = link_campaign_id found
            /\ trk_link_id row = link_id found
            /\ trk_country row = detectCountry request
            /\ trk_status row = CLICK
            /\ trk_payment row = HOLD
            /\ trk_amount row = 0)
  /\ (forall couponCode found i,
         pathParameters request !! "coupon" = Some couponCode ->
         String.eqb couponCode "" = false ->
         fst (resolveAffiliateLink env couponCode w) = Returned (Some found) ->
         link_id found = Some i ->
         insert_fault env = None ->
         let rows := trackingAfter env (clock w) (spawned w) (affiliate_tracking w) in
         affiliate_tracking (snd (serveRequest env request w))
         = rows ++ [mkTrackingRow (Z.of_nat (List.length rows) + 1)
                                  (detectCountry request)
                                  (link_affiliate_id found) (link_campaign_id found)
                                  (Some i) CLICK HOLD 0 (clock w) (clock w)])
  /\ (forall event w0,
         insert_fault env = None ->
         affiliate_tracking (snd (insertClickTracking env event w0))
         = affiliate_tracking w0
           ++ [mkTrackingRow (Z.of_nat (List.length (affiliate_tracking w0)) + 1)
                             (ev_country event) (ev_affiliate_id event)
                             (ev_campaign_id event) (ev_link_id event)
                             (ev_status event) HOLD 0 (clock w0) (clock w0)]).
Proof.
  assert (Hgeneral :
    forall couponCode resolved w1,
      pathParameters request !! "coupon" = Some couponCode ->
      String.eqb couponCode "" = false ->
      resolveAffiliateLink env couponCode w = (resolved, w1) ->
      affiliate_tracking (snd (serveRequest env request w))
      = trackingAfter env (clock w) (tasksFor request resolved)
                      (trackingAfter env (clock w) (spawned w) (affiliate_tracking w))).
  { intros couponCode resolved w1 Hc Hne Hrun.
    destruct (resolve_frame env w couponCode _ w1 Hrun) as ((Hclock & _) & Htk1 & Hsp1).
    destruct (serve_from_resolve env request w couponCode _ w1 Hc Hne Hrun)
      as (w3 & Hserve & _ & _ & _ & _ & Htk3 & _).
    rewrite Hserve. cbn [snd].
    rewrite Htk3, trackingAfter_app, Htk1, Hsp1, Hclock. reflexivity. }
  split; [|split].
  - destruct (pathParameters request !! "coupon") as [couponCode|] eqn:Hc.
    2:{ exists []. rewrite app_nil_r.
        pose proof (handle_no_coupon env request w (or_introl Hc)) as Hh.
        destruct (serveRequest_run env request w _ w Hh)
          as (w2 & Hserve & _ & _ & _ & _ & Htk & _).
        rewrite Hserve. split; [exact Htk | intros row []]. }
    destruct (String.eqb couponCode "") eqn:Hne.
    { apply String.eqb_eq in Hne. subst couponCode.
      exists []. rewrite app_nil_r.
      pose proof (handle_no_coupon env request w (or_intror Hc)) as Hh.
      destruct (serveRequest_run env request w _ w Hh)
        as (w2 & Hserve & _ & _ & _ & _ & Htk & _).
      rewrite Hserve. split; [exact Htk | intros row []]. }
    destruct (resolveAffiliateLink env couponCode w) as [resolved w1] eqn:Hrun.
    rewrite (Hgeneral couponCode resolved w1 eq_refl Hne Hrun).
    destruct resolved as [[found|]|e]; cbn [tasksFor trackingAfter].
    + destruct (link_id found) as [i|] eqn:Hid; cbn [trackingAfter].
      * destruct (insert_fault env).
        -- exists []. rewrite app_nil_r. split; [reflexivity | intros row []].
        -- eexists [_]. split; [reflexivity|].
           intros row [<- | []]. exists couponCode, found. cbn.
           rewrite Hrun. repeat split.
      * exists []. rewrite app_nil_r. split; [reflexivity | intros row []].
    + exists []. rewrite app_nil_r. split; [reflexivity | intros row []].
    + exists []. rewrite app_nil_r. split; [reflexivity | intros row []].
  - intros couponCode found i Hc Hne Hres Hid Hins rows.
    destruct (resolveAffiliateLink env couponCode w) as [resolved w1] eqn:Hrun.
    cbn in Hres. subst resolved.
    rewrite (Hgeneral couponCode _ w1 Hc Hne Hrun).
    cbn [tasksFor]. rewrite Hid. cbn [trackingAfter]. rewrite Hins.
    unfold rows, rowOf, columnsOf, clickEventFor, newClickTrackingEvent.
    cbn. rewrite Hid. reflexivity.
  - intros event w0 Hins.
    unfold insertClickTracking, database_insert.
    rewrite bind_run. unfold emit at 1, modify at 1. rewrite Hins. reflexivity.
Qed.


End Facts.

(** C10.  On a cache hit the response is decided by the snapshot alone:
    the redirect when its id is NULL, otherwise the page rendered from it
    (or the error of the template engine), whatever the clock and the
    window of its campaign.  And there is a snapshot, cached by a request
    served while its campaign was active, that a request within the TTL
    and after end_on still resolves and renders with status 200 although
    the repository no longer has an active row for the coupon. *)
Theorem cache_hit_bypasses_validity_check :
  (forall `{Serializer} env w request couponCode snapshot,
      pathParameters request !! "coupon" = Some couponCode ->
      String.eqb couponCode "" = false ->
      CacheHit env w (affiliateLinkKey couponCode) snapshot ->
      fst (resolveAffiliateLink env couponCode w) = Returned (Some snapshot)
      /\ fst (serveRequest env request w)
         = Returned (match link_id snapshot with
                     | None => Redirect 302 "/pricing"
                     | Some _ =>
                         match render_fault env with
                         | None => Html 200 "coupon_redirect"
                                        (mkTemplateData snapshot (detectCountry request))
                         | Some e => errorResponse e
                         end
                     end))
  /\ exists (w0 : World) (request : Request) (later : Z),
      let w1 := snd (serveRequest quietEnv request w0) in
      let w2 := set_clock later w1 in
      CacheMiss quietEnv w0 (affiliateLinkKey "SUMMER2024")
      /\ findActiveLink w0 "SUMMER2024" = Some summerLink
      /\ end_on summerSale <= later < clock w0 + 1800
      /\ findActiveLink w2 "SUMMER2024" = None
      /\ fst (resolveAffiliateLink quietEnv "SUMMER2024" w2) = Returned (Some summerLink)
      /\ fst (serveRequest quietEnv request w2)
         = Returned (Html 200 "coupon_redirect" (mkTemplateData summerLink "UNKNOWN")).
Proof.
  split.
  - intros S env w request couponCode snapshot Hc Hne Hhit.
    destruct (resolve_hit env w couponCode snapshot (cachedSnapshot_hit env w _ _ Hhit))
      as (w1 & Hrun & _).
    destruct (serve_from_resolve env request w couponCode _ w1 Hc Hne Hrun)
      as (w2 & Hserve & _).
    rewrite Hrun, Hserve. split; reflexivity.
  - exists (worldAt 1500 ∅), (requestFor "SUMMER2024" []), 2500.
    cbv zeta.
    split; [split; reflexivity|].
    split; [reflexivity|].
    split; [cbn; lia|].
    split; [reflexivity|].
    split; reflexivity.
Qed.

(** ** The claims at concrete inputs *)

(** C1 as stated fails: a snapshot cached at 1500, inside the window
    [1000, 2000] of its campaign, is still served at the boundary instant
    2000 = end_on, when the repository has no active row for the coupon;
    the response is the rendered page, not the redirect. *)
Lemma found_at_window_end_counterexample :
  let request := requestFor "SUMMER2024" [] in
  let warm := snd (serveRequest quietEnv request (worldAt 1500 ∅)) in
  let w := set_clock 2000 warm in
  clock w = end_on summerSale
  /\ (~ exists al c, activeRow w "SUMMER2024" al c)
  /\ fst (resolveAffiliateLink quietEnv "SUMMER2024" w) = Returned (Some summerLink)
  /\ fst (serveRequest quietEnv request w)
     = Returned (Html 200 "coupon_redirect" (mkTemplateData summerLink "UNKNOWN"))
  /\ fst (serveRequest quietEnv request w) <> Returned (Redirect 302 "/pricing").
Proof.
  cbv zeta.
  split; [reflexivity|].
  split; [apply findActiveLink_None_iff; reflexivity|].
  split; [reflexivity|].
  split; [reflexivity|].
  discriminate.
Qed.

(** C3 as stated fails: after a cache miss and a successful repository
    read the write is issued, but the server never answers it; STEP 5
    swallows the timeout, the store stays empty, and the resolution that
    follows at once, with a cache that answers its read, is a miss again
    and queries the repository a second time. *)
Lemma unanswered_write_counterexample :
  let w := worldAt 1500 ∅ in
  let w1 := snd (resolveAffiliateLink hangingWriteEnv "SUMMER2024" w) in
  CacheMiss hangingWriteEnv w (affiliateLinkKey "SUMMER2024")
  /\ query_fault hangingWriteEnv = None
  /\ findActiveLink w "SUMMER2024" = Some summerLink
  /\ fst (resolveAffiliateLink hangingWriteEnv "SUMMER2024" w) = Returned (Some summerLink)
  /\ trace w1 = [CacheGet (affiliateLinkKey "SUMMER2024");
                 DbQuery "SUMMER2024" 1500;
                 CacheSet (affiliateLinkKey "SUMMER2024") (toJSON summerLink) 1800]
  /\ clock w1 = clock w
  /\ cache_store w1 = ∅
  /\ cacheAnswers quietEnv w1 = true
  /\ CacheMiss quietEnv w1 (affiliateLinkKey "SUMMER2024")
  /\ (~ exists snapshot, CacheHit quietEnv w1 (affiliateLinkKey "SUMMER2024") snapshot)
  /\ trace (snd (resolveAffiliateLink quietEnv "SUMMER2024" w1))
     = trace w1 ++ [CacheGet (affiliateLinkKey "SUMMER2024");
                    DbQuery "SUMMER2024" 1500;
                    CacheSet (affiliateLinkKey "SUMMER2024") (toJSON summerLink) 1800].
Proof.
  cbv zeta.
  split; [split; reflexivity|].
  split; [reflexivity|]. split; [reflexivity|]. split; [reflexivity|].
  split; [reflexivity|]. split; [reflexivity|]. split; [reflexivity|].
  split; [reflexivity|].
  split; [split; reflexivity|].
  split; [|reflexivity].
  intros (snapshot & _ & Husable). discriminate.
Qed.


Lemma not_found_iff_no_active_row_witness :
  let w := worldAt 2000 ∅ in
  let request := requestFor "SUMMER2024" [] in
  pathParameters request !! "coupon" = Some "SUMMER2024"
  /\ String.eqb "SUMMER2024" "" = false
  /\ cachedSnapshot quietEnv w (affiliateLinkKey "SUMMER2024") = None
  /\ query_fault quietEnv = None
  /\ (fst (serveRequest quietEnv request w) = Returned (Redirect 302 "/pricing")
      <-> ~ exists al c, activeRow w "SUMMER2024" al c).
Proof.
  cbv zeta.
  split; [reflexivity|]. split; [reflexivity|].
  split; [reflexivity|]. split; [reflexivity|].
  apply (not_found_iff_no_active_row quietEnv (worldAt 2000 ∅)
                                     (requestFor "SUMMER2024" []) "SUMMER2024");
    reflexivity.
Defined.

Lemma cache_hit_never_queries_repository_witness :
  let w := worldAt 1600 warmStore in
  CacheHit quietEnv w (affiliateLinkKey "SUMMER2024") summerLink
  /\ exists w',
      resolveAffiliateLink quietEnv "SUMMER2024" w = (Returned (Some summerLink), w')
      /\ trace w' = trace w ++ [CacheGet (affiliateLinkKey "SUMMER2024")]
      /\ cache_store w' = cache_store w.
Proof.
  cbv zeta.
  assert (Hhit : CacheHit quietEnv (worldAt 1600 warmStore)
                          (affiliateLinkKey "SUMMER2024") summerLink)
    by (split; reflexivity).
  split; [exact Hhit|].
  exact (proj1 (cache_hit_never_queries_repository
                  quietEnv (worldAt 1600 warmStore) "SUMMER2024" summerLink Hhit)).
Defined.

Lemma cache_miss_populates_cache_witness :
  let w := worldAt 1500 ∅ in
  let w1 := snd (resolveAffiliateLink quietEnv "SUMMER2024" w) in
  let w2 := set_clock 1600 w1 in
  CacheMiss quietEnv w (affiliateLinkKey "SUMMER2024")
  /\ query_fault quietEnv = None
  /\ findActiveLink w "SUMMER2024" = Some summerLink
  /\ set_behaviour quietEnv = Responds 3
  /\ cache_store w2 = cache_store w1
  /\ clock w <= clock w2 < clock w + 1800
  /\ cacheAnswers quietEnv w2 = true
  /\ parseJSON (toJSON summerLink) = Returned (Some summerLink)
  /\ cache_store w1 !! affiliateLinkKey "SUMMER2024" = Some (toJSON summerLink, 3300)
  /\ CacheHit quietEnv w2 (affiliateLinkKey "SUMMER2024") summerLink
  /\ exists w3,
      resolveAffiliateLink quietEnv "SUMMER2024" w2 = (Returned (Some summerLink), w3)
      /\ trace w3 = trace w2 ++ [CacheGet (affiliateLinkKey "SUMMER2024")].
Proof.
  cbv zeta.
  assert (Hmiss : CacheMiss quietEnv (worldAt 1500 ∅) (affiliateLinkKey "SUMMER2024"))
    by (split; reflexivity).
  assert (Httl : clock (worldAt 1500 ∅)
                 <= clock (set_clock 1600
                             (snd (resolveAffiliateLink quietEnv "SUMMER2024" (worldAt 1500 ∅))))
                 < clock (worldAt 1500 ∅) + 1800)
    by (cbn; lia).
  split; [exact Hmiss|]. split; [reflexivity|]. split; [reflexivity|].
  split; [reflexivity|]. split; [reflexivity|]. split; [exact Httl|].
  split; [reflexivity|]. split; [reflexivity|].
  destruct (cache_miss_populates_cache quietEnv (worldAt 1500 ∅) "SUMMER2024" summerLink
                                       Hmiss eq_refl eq_refl)
    as ((w1 & Hrun & _ & Hwrite) & _).
  assert (Hw1 : w1 = snd (resolveAffiliateLink quietEnv "SUMMER2024" (worldAt 1500 ∅)))
    by (rewrite Hrun; reflexivity).
  subst w1.
  destruct (Hwrite 3 eq_refl) as (Hentry & Hnext).
  split; [exact Hentry|].
  apply Hnext; [reflexivity | exact Httl | reflexivity | reflexivity].
Defined.

Lemma cache_read_failure_degrades_to_miss_witness :
  let w := worldAt 1500 warmStore in
  let request := requestFor "SUMMER2024" [] in
  pathParameters request !! "coupon" = Some "SUMMER2024"
  /\ String.eqb "SUMMER2024" "" = false
  /\ answersInTime (get_behaviour slowCacheEnv) = false
  /\ fst (getCachedAffiliateLink slowCacheEnv "SUMMER2024" w) = Returned None
  /\ (exists resolved w1,
         resolveAffiliateLink slowCacheEnv "SUMMER2024" w = (resolved, w1)
         /\ In (DbQuery "SUMMER2024" (clock w)) (trace w1))
  /\ fst (serveRequest slowCacheEnv request w)
     = Returned (Html 200 "coupon_redirect" (mkTemplateData summerLink "UNKNOWN")).
Proof.
  cbv zeta.
  split; [reflexivity|]. split; [reflexivity|]. split; [reflexivity|].
  destruct (cache_read_failure_degrades_to_miss
              slowCacheEnv (worldAt 1500 warmStore) (requestFor "SUMMER2024" [])
              "SUMMER2024" eq_refl eq_refl (or_intror eq_refl))
    as (Hhelper & _ & Hquery & _ & _ & Hactive).
  split; [exact Hhelper|]. split; [exact Hquery|].
  exact (proj2 (Hactive summerLink eq_refl eq_refl) eq_refl).
Defined.

Lemma tracking_failure_isolated_witness :
  let w := worldAt 1500 ∅ in
  let request := requestFor "SUMMER2024" [mkHeader "cf-ipcountry" "US"] in
  let failing := with_insert_fault (Some databaseDown) quietEnv in
  pathParameters request !! "coupon" = Some "SUMMER2024"
  /\ String.eqb "SUMMER2024" "" = false
  /\ fst (resolveAffiliateLink quietEnv "SUMMER2024" w) = Returned (Some summerLink)
  /\ link_id summerLink = Some 789
  /\ fst (serveRequest failing request w)
     = fst (serveRequest (with_insert_fault None quietEnv) request w)
  /\ fst (serveRequest failing request w)
     = Returned (Html 200 "coupon_redirect" (mkTemplateData summerLink "US"))
  /\ In (mkLog ERROR "Click tracking failed: Database temporarily unavailable")
        (log (snd (serveRequest failing request w)))
  /\ affiliate_tracking (snd (serveRequest failing request w)) = [].
Proof.
  cbv zeta.
  split; [reflexivity|]. split; [reflexivity|].
  split; [reflexivity|]. split; [reflexivity|].
  destruct (tracking_failure_isolated
              quietEnv (worldAt 1500 ∅)
              (requestFor "SUMMER2024" [mkHeader "cf-ipcountry" "US"]) databaseDown)
    as (_ & Hsame & _ & Hresolved).
  split; [exact Hsame|].
  exact (Hresolved "SUMMER2024" summerLink 789 eq_refl eq_refl eq_refl eq_refl).
Defined.

Lemma empty_coupon_redirects_without_lookup_witness :
  let w := worldAt 1500 warmStore in
  let request := mkRequest ∅ [] in
  pathParameters request !! "coupon" = None
  /\ handlePromotionCouponRequest quietEnv request w
     = (Returned (Redirect 302 "/pricing"), w).
Proof.
  cbv zeta. split; [reflexivity|].
  exact (proj1 (empty_coupon_redirects_without_lookup
                  quietEnv (worldAt 1500 warmStore) (mkRequest ∅ [])
                  (or_introl eq_refl))).
Defined.

Lemma missing_country_defaults_to_UNKNOWN_witness :
  let w := worldAt 1500 ∅ in
  let request := requestFor "SUMMER2024" [mkHeader "CF-IPCountry" ""] in
  pathParameters request !! "coupon" = Some "SUMMER2024"
  /\ String.eqb "SUMMER2024" "" = false
  /\ fst (resolveAffiliateLink quietEnv "SUMMER2024" w) = Returned (Some summerLink)
  /\ link_id summerLink = Some 789
  /\ extractHeader request "cf-ipcountry" = Some ""
  /\ fst (serveRequest quietEnv request w)
     = Returned (Html 200 "coupon_redirect" (mkTemplateData summerLink "UNKNOWN"))
  /\ exists rows row,
      affiliate_tracking (snd (serveRequest quietEnv request w)) = rows ++ [row]
      /\ trk_link_id row = Some 789
      /\ trk_country row = "UNKNOWN".
Proof.
  cbv zeta.
  split; [reflexivity|]. split; [reflexivity|]. split; [reflexivity|].
  split; [reflexivity|]. split; [reflexivity|].
  assert (Hresolved :
            fst (resolveAffiliateLink quietEnv "SUMMER2024" (worldAt 1500 ∅))
            = Returned (Some summerLink)) by reflexivity.
  destruct (missing_country_defaults_to_UNKNOWN
              quietEnv (worldAt 1500 ∅)
              (requestFor "SUMMER2024" [mkHeader "CF-IPCountry" ""])
              "SUMMER2024" summerLink 789
              eq_refl eq_refl Hresolved eq_refl (or_intror eq_refl))
    as (_ & Hpage & Hrow).
  split; [exact (Hpage eq_refl) | exact (Hrow eq_refl)].
Defined.

Lemma tracking_row_fields_witness :
  let w := worldAt 1500 ∅ in
  let request := requestFor "SUMMER2024" [mkHeader "cf-ipcountry" "US"] in
  pathParameters request !! "coupon" = Some "SUMMER2024"
  /\ String.eqb "SUMMER2024" "" = false
  /\ fst (resolveAffiliateLink quietEnv "SUMMER2024" w) = Returned (Some summerLink)
  /\ link_id summerLink = Some 789
  /\ insert_fault quietEnv = None
  /\ affiliate_tracking (snd (serveRequest quietEnv request w))
     = [mkTrackingRow 1 "US" 123 456 (Some 789) CLICK HOLD 0 1500 1500].
Proof.
  cbv zeta.
  split; [reflexivity|]. split; [reflexivity|]. split; [reflexivity|].
  split; [reflexivity|]. split; [reflexivity|].
  exact (proj1 (proj2 (tracking_row_fields
                         quietEnv (worldAt 1500 ∅)
                         (requestFor "SUMMER2024" [mkHeader "cf-ipcountry" "US"])))
               "SUMMER2024" summerLink 789 eq_refl eq_refl eq_refl eq_refl eq_refl).
Defined.


Lemma cache_hit_bypasses_validity_check_witness :
  let w := worldAt 2500 warmStore in
  let request := requestFor "SUMMER2024" [] in
  pathParameters request !! "coupon" = Some "SUMMER2024"
  /\ String.eqb "SUMMER2024" "" = false
  /\ CacheHit quietEnv w (affiliateLinkKey "SUMMER2024") summerLink
  /\ end_on summerSale < clock w
  /\ fst (serveRequest quietEnv request w)
     = Returned (Html 200 "coupon_redirect" (mkTemplateData summerLink "UNKNOWN")).
Proof.
  cbv zeta.
  assert (Hhit : CacheHit quietEnv (worldAt 2500 warmStore)
                          (affiliateLinkKey "SUMMER2024") summerLink)
    by (split; reflexivity).
  split; [reflexivity|]. split; [reflexivity|]. split; [exact Hhit|].
  split; [cbn; lia|].
  exact (proj2 (proj1 cache_hit_bypasses_validity_check
                      denotedJSON quietEnv (worldAt 2500 warmStore)
                      (requestFor "SUMMER2024" []) "SUMMER2024" summerLink
                      eq_refl eq_refl Hhit)).
Defined.

(** * Further facts *)

Section Coverage.

Context `{Serializer}.

Local Open Scope handler_scope.

Implicit Types (env : Env) (w : World) (request : Request).

(** ** The outcome of a resolution *)

Lemma resolve_outcome env w couponCode :
  exists w1,
    resolveAffiliateLink env couponCode w = (resolvedOutcome env w couponCode, w1)
    /\ sameSurroundings w w1
    /\ affiliate_tracking w1 = affiliate_tracking w
    /\ spawned w1 = spawned w.
Proof.
  unfold resolvedOutcome.
  destruct (cachedSnapshot env w (affiliateLinkKey couponCode)) as [snapshot|] eqn:Hs.
  - destruct (resolve_hit env w couponCode snapshot Hs) as (w1 & Hrun & Hadv).
    exists w1. split; [exact Hrun|]. exact (resolve_frame _ _ _ _ _ Hrun).
  - destruct (resolve_miss_outcome env w couponCode Hs) as (w1 & Hrun & _).
    exists w1. split; [exact Hrun|]. exact (resolve_frame _ _ _ _ _ Hrun).
Qed.

Lemma errorResponse_surfaced (e : Error) :
  errorResponse e = JSONError (surfacedStatus e) (extractErrorMessage e).
Proof.
  unfold errorResponse, surfacedStatus, extractHTTPStatusCode, orDefault.
  destruct (err_statusCode e), (err_status e); reflexivity.
Qed.

Lemma handle_log env request w couponCode resolved w1 :
  pathParameters request !! "coupon" = Some couponCode ->
  couponCode <> "" ->
  resolveAffiliateLink env couponCode w = (resolved, w1) ->
  log (snd (handlePromotionCouponRequest env request w))
  = log w1 ++ handlerLog env couponCode resolved.
Proof.
  intros Hc Hne Hres. unfold handlePromotionCouponRequest. rewrite Hc.
  destruct (String.eqb couponCode "") eqn:Heq;
    [apply String.eqb_eq in Heq; contradiction|].
  rewrite tryCatch_run, bind_run, Hres.
  destruct resolved as [[found|]|e]; cbn; try reflexivity.
  destruct (link_id found) as [linkId|] eqn:Hid; [|reflexivity].
  unfold trackAndRender, renderTemplate, executeAsync.
  destruct (render_fault env) as [e|]; cbn.
  - rewrite <- app_assoc. reflexivity.
  - symmetry. apply app_nil_r.
Qed.

(** A request with a non-empty coupon, from the world it starts in. *)
Lemma serve_resolved env request w couponCode :
  pathParameters request !! "coupon" = Some couponCode ->
  String.eqb couponCode "" = false ->
  let resolved := resolvedOutcome env w couponCode in
  exists w1 w',
    resolveAffiliateLink env couponCode w = (resolved, w1)
    /\ serveRequest env request w = (Returned (responseFor env request resolved), w')
    /\ cache_store w' = cache_store w1
    /\ trace w' = trace w1
                  ++ List.map (fun t => DbInsert (columnsOf t))
                              (spawned w ++ tasksFor request resolved)
    /\ affiliate_tracking w'
       = trackingAfter env (clock w) (spawned w ++ tasksFor request resolved)
                       (affiliate_tracking w)
    /\ log w' = log w1 ++ handlerLog env couponCode resolved
                ++ List.map (taskLogLine env) (spawned w ++ tasksFor request resolved).
Proof.
  intros Hc Hne resolved.
  destruct (resolve_outcome env w couponCode) as (w1 & Hrun & Hsur & Htrk & Hsp).
  fold resolved in Hrun.
  destruct (serve_from_resolve env request w couponCode resolved w1 Hc Hne Hrun)
    as (w' & Hserve & _ & Hstore & _ & Htrace & Htracking & Hlog).
  exists w1, w'. split; [exact Hrun|]. split; [exact Hserve|].
  split; [exact Hstore|].
  destruct Hsur as (Hclock & _).
  rewrite Hsp in Htrace, Htracking, Hlog. rewrite Htrk, Hclock in Htracking.
  split; [exact Htrace|]. split; [exact Htracking|].
  rewrite Hlog.
  assert (Hne' : couponCode <> "") by (intros ->; discriminate).
  rewrite (handle_log env request w couponCode resolved w1 Hc Hne' Hrun).
  rewrite <- app_assoc. reflexivity.
Qed.

(** ** Responses *)

(** X1.  Every request is answered, and the answer is one of three: the
    302 redirect to /pricing; the page coupon_redirect with status 200,
    rendered from the snapshot of the cache or from the row of the
    repository, when the template engine works; or a JSON error, which
    is only ever the error of the repository query or of the template
    engine.  Failures of the cache and of the tracking insert produce no
    error response. *)
Theorem response_is_redirect_page_or_fault env w request :
  exists response w',
    serveRequest env request w = (Returned response, w')
    /\ (response = Redirect 302 "/pricing"
        \/ (exists couponCode found i,
               pathParameters request !! "coupon" = Some couponCode
               /\ (cachedSnapshot env w (affiliateLinkKey couponCode) = Some found
                   \/ findActiveLink w couponCode = Some found)
               /\ link_id found = Some i
               /\ render_fault env = None
               /\ response = Html 200 "coupon_redirect"
                                  (mkTemplateData found (detectCountry request)))
        \/ (exists e,
               (query_fault env = Some e \/ render_fault env = Some e)
               /\ response = JSONError (surfacedStatus e) (extractErrorMessage e))).
Proof.
  destruct (pathParameters request !! "coupon") as [couponCode|] eqn:Hc.
  2:{ destruct (serveRequest_run env request w _ _
                  (handle_no_coupon env request w (or_introl Hc)))
        as (w' & Hrun & _).
      exists (Redirect 302 "/pricing"), w'. split; [exact Hrun | now left]. }
  destruct (String.eqb couponCode "") eqn:Hne.
  { apply String.eqb_eq in Hne. subst couponCode.
    destruct (serveRequest_run env request w _ _
                (handle_no_coupon env request w (or_intror Hc)))
      as (w' & Hrun & _).
    exists (Redirect 302 "/pricing"), w'. split; [exact Hrun | now left]. }
  destruct (serve_resolved env request w couponCode Hc Hne)
    as (w1 & w' & _ & Hserve & _).
  eexists _, w'. split; [exact Hserve|].
  unfold resolvedOutcome, responseFor.
  destruct (cachedSnapshot env w (affiliateLinkKey couponCode)) as [snapshot|] eqn:Hs.
  - destruct (link_id snapshot) as [i|] eqn:Hid; [|now left].
    destruct (render_fault env) as [e|] eqn:Hr.
    + right; right. exists e. split; [now right | apply errorResponse_surfaced].
    + right; left. exists couponCode, snapshot, i. auto.
  - destruct (query_fault env) as [e|] eqn:Hq.
    { right; right. exists e. split; [now left | apply errorResponse_surfaced]. }
    destruct (findActiveLink w couponCode) as [found|] eqn:Hf; [|now left].
    destruct (link_id found) as [i|] eqn:Hid; [|now left].
    destruct (render_fault env) as [e|] eqn:Hr.
    + right; right. exists e. split; [now right | apply errorResponse_surfaced].
    + right; left. exists couponCode, found, i. auto 6.
Qed.

(** X2.  When the cache supplies no snapshot and the repository query
    throws, the request is answered with a JSON error whose status is the
    error's statusCode, else its status, else 500 (a zero code counts as
    none) and whose message is the error's message, else its first
    entry of errors, else the generic text; the failure is logged, the
    cache store is left as it was, no cache write and no tracking insert
    is issued for the request, and no tracking row is written for it. *)
Theorem repository_failure_is_surfaced env w request couponCode e :
  pathParameters request !! "coupon" = Some couponCode ->
  String.eqb couponCode "" = false ->
  cachedSnapshot env w (affiliateLinkKey couponCode) = None ->
  query_fault env = Some e ->
  exists w',
    serveRequest env request w
    = (Returned (JSONError (surfacedStatus e) (extractErrorMessage e)), w')
    /\ cache_store w' = cache_store w
    /\ trace w' = trace w ++ readEvents w (affiliateLinkKey couponCode)
                  ++ [DbQuery couponCode (clock w)]
                  ++ List.map (fun t => DbInsert (columnsOf t)) (spawned w)
    /\ affiliate_tracking w'
       = trackingAfter env (clock w) (spawned w) (affiliate_tracking w)
    /\ In (mkLog ERROR ("Coupon request failed: " +:+ messageOf e)) (log w').
Proof.
  intros Hc Hne Hs Hq.
  destruct (serve_resolved env request w couponCode Hc Hne)
    as (w1 & w' & Hrun & Hserve & Hstore & Htrace & Htracking & Hlog).
  unfold resolvedOutcome in *. rewrite Hs, Hq in *. cbn in *.
  destruct (resolve_miss_fault env w couponCode e Hs Hq) as (w1' & Hrun' & Hadv).
  rewrite Hrun in Hrun'. injection Hrun' as <-.
  destruct Hadv as (_ & Hst1 & _ & _ & Htr1).
  exists w'. rewrite errorResponse_surfaced in Hserve.
  split; [exact Hserve|].
  split; [congruence|].
  split.
  { rewrite Htrace, Htr1, !app_nil_r, <- !app_assoc. reflexivity. }
  split.
  { rewrite Htracking, app_nil_r. reflexivity. }
  rewrite Hlog. apply in_or_app. right. now left.
Qed.

(** X3.  The click is dispatched before the page is rendered: when the
    template engine fails for a resolved coupon, the request is answered
    with the JSON error of the engine, both the rendering failure and the
    request failure are logged, and the tracking insert is still issued;
    with a working tracking store the click row is written although no
    page was delivered. *)
Theorem click_is_tracked_before_rendering env w request couponCode found i e :
  pathParameters request !! "coupon" = Some couponCode ->
  String.eqb couponCode "" = false ->
  fst (resolveAffiliateLink env couponCode w) = Returned (Some found) ->
  link_id found = Some i ->
  render_fault env = Some e ->
  exists w',
    serveRequest env request w
    = (Returned (JSONError (surfacedStatus e) (extractErrorMessage e)), w')
    /\ (exists evs,
           trace w' = trace w ++ evs ++ [DbInsert (clickEventFor request found)])
    /\ In (mkLog ERROR ("Template rendering failed: " +:+ messageOf e)) (log w')
    /\ In (mkLog ERROR ("Coupon request failed: " +:+ messageOf e)) (log w')
    /\ (insert_fault env = None ->
        exists rows,
          affiliate_tracking w'
          = rows ++ [rowOf rows (clock w) (clickEventFor request found)]).
Proof.
  intros Hc Hne Hres Hid Hr.
  destruct (serve_resolved env request w couponCode Hc Hne)
    as (w1 & w' & Hrun & Hserve & Hstore & Htrace & Htracking & Hlog).
  rewrite Hrun in Hres. cbn in Hres.
  rewrite Hres in *. cbn in *. rewrite Hid, Hr in *.
  destruct (resolve_cache_writes env w couponCode _ _ Hrun) as (evs & Hevs & _).
  exists w'. rewrite errorResponse_surfaced in Hserve.
  split; [exact Hserve|].
  split.
  { exists (evs ++ List.map (fun t => DbInsert (columnsOf t)) (spawned w)).
    rewrite Htrace, Hevs, map_app, <- !app_assoc. reflexivity. }
  split.
  { rewrite Hlog. apply in_or_app. right. now left. }
  split.
  { rewrite Hlog. apply in_or_app. right. right. now left. }
  intros Hins.
  exists (trackingAfter env (clock w) (spawned w) (affiliate_tracking w)).
  rewrite Htracking, trackingAfter_app. cbn. rewrite Hins. reflexivity.
Qed.

(** X4.  What the handler dispatches matches what it answers: with a
    redirect no tracking task is started; with a page exactly one is
    started, and its click event carries the link id, affiliate id,
    campaign id and country of the data the page is rendered from, with
    status CLICK. *)
Theorem tracked_click_matches_response env w request response w' :
  handlePromotionCouponRequest env request w = (Returned response, w') ->
  (forall statusCode location,
      response = Redirect statusCode location -> spawned w' = spawned w)
  /\ (forall statusCode template templateData,
         response = Html statusCode template templateData ->
         exists clickEvent,
           spawned w' = spawned w
                        ++ [InsertTrackingTask clickEvent (link_id (data templateData))]
           /\ ev_link_id clickEvent = link_id (data templateData)
           /\ ev_affiliate_id clickEvent = link_affiliate_id (data templateData)
           /\ ev_campaign_id clickEvent = link_campaign_id (data templateData)
           /\ ev_country clickEvent = country templateData
           /\ ev_status clickEvent = CLICK).
Proof.
  intros Hrun.
  destruct (pathParameters request !! "coupon") as [couponCode|] eqn:Hc.
  2:{ rewrite (handle_no_coupon env request w (or_introl Hc)) in Hrun.
      injection Hrun as <- <-. split; [reflexivity | discriminate]. }
  destruct (String.eqb_spec couponCode "") as [-> | Hne].
  { rewrite (handle_no_coupon env request w (or_intror Hc)) in Hrun.
    injection Hrun as <- <-. split; [reflexivity | discriminate]. }
  destruct (resolveAffiliateLink env couponCode w) as [resolved w1] eqn:Hres.
  destruct (handle_from_resolve env request w couponCode resolved w1 Hc Hne Hres)
    as (w'' & Hrun' & _ & _ & _ & Hsp & _).
  rewrite Hrun in Hrun'. injection Hrun' as -> <-.
  destruct (resolve_frame env w couponCode resolved w1 Hres) as (_ & _ & Hsp1).
  rewrite Hsp1 in Hsp. clear Hrun Hres.
  unfold responseFor, tasksFor in *.
  destruct resolved as [[found|]|e0].
  - destruct (link_id found) as [i|] eqn:Hid.
    + destruct (render_fault env) as [e0|].
      * split; intros; unfold errorResponse in *; discriminate.
      * split; [discriminate|].
        intros statusCode template templateData [= <- <- <-].
        exists (clickEventFor request found). cbn. rewrite Hid.
        repeat split; assumption.
    + split; [intros; rewrite Hsp; apply app_nil_r | discriminate].
  - split; [intros; rewrite Hsp; apply app_nil_r | discriminate].
  - split; intros; unfold errorResponse in *; discriminate.
Qed.

(** ** Failures of the cache write *)

Lemma trackingAfter_env env env' now tasks :
  insert_fault env' = insert_fault env ->
  forall rows, trackingAfter env' now tasks rows = trackingAfter env now tasks rows.
Proof.
  intros Hi. induction tasks as [|task rest IH]; intros rows; cbn; [reflexivity|].
  rewrite Hi. apply IH.
Qed.

Lemma resolve_write_log env w couponCode found :
  cachedSnapshot env w (affiliateLinkKey couponCode) = None ->
  query_fault env = None ->
  findActiveLink w couponCode = Some found ->
  cache_connected w = true ->
  exists w1 before,
    resolveAffiliateLink env couponCode w = (Returned (Some found), w1)
    /\ log w1
       = before
         ++ [match writeFailure (set_behaviour env) with
             | None => mkLog INFO ("Cached affiliate link: " +:+ couponCode)
             | Some err => mkLog WARNING ("Cache write failed: " +:+ messageOf err)
             end].
Proof.
  intros Hs Hq Hfound Hconn. unfold resolveAffiliateLink.
  destruct (attemptCacheRetrieval_run env w couponCode ("affiliate:link:" +:+ couponCode))
    as (w0 & Hatt & Hsur & _).
  rewrite bind_run, Hatt.
  change ("affiliate:link:" +:+ couponCode) with (affiliateLinkKey couponCode).
  rewrite Hs.
  assert (Hfound0 : findActiveLink w0 couponCode = Some found)
    by (rewrite (findActiveLink_surroundings w w0 couponCode Hsur); exact Hfound).
  assert (Hconn0 : cache_connected w0 = true)
    by (destruct Hsur as (_ & Hc0 & _); congruence).
  unfold queryOnCacheMiss.
  rewrite bind_run. unfold logInfo at 1, logAt at 1, modify at 1.
  rewrite bind_run, database_query_run, Hq, findActiveLink_set_log, Hfound0.
  unfold cacheClient_isConnected, gets, bind. cbn. rewrite Hconn0.
  unfold tryCatch, cacheClient_setWithTimeout, cacheClient_setWithExpiry,
    bind, emit, modify, ret, writeFailure. cbn.
  destruct (set_behaviour env) as [t | t e | ]; cbn.
  - unfold awaitRace, awaitFirstResolved, createTimeout, operationFirst.
    destruct (t <? 1000); cbn; eexists _, _; split; reflexivity.
  - unfold awaitRace, awaitFirstResolved, createTimeout, operationFirst.
    destruct (t <? 1000); cbn; eexists _, _; split; reflexivity.
  - eexists _, _; split; reflexivity.
Qed.

Lemma cachedSnapshot_set_behaviour b env w cacheKey :
  cachedSnapshot (with_set_behaviour b env) w cacheKey = cachedSnapshot env w cacheKey.
Proof. reflexivity. Qed.

(** X5.  A failing cache write never reaches the client: however the
    write of STEP 5 behaves (answer, late answer, error, no answer), the
    response and the tracking rows of the request are the same; when the
    write fails or times out after a successful repository read, the
    record is still resolved and a warning "Cache write failed" with the
    error's message (the timeout message after 1000 ms) is logged; and
    unless the server answered the write, the store is left as it was. *)
Theorem cache_write_failure_is_swallowed env w request b :
  fst (serveRequest (with_set_behaviour b env) request w)
  = fst (serveRequest env request w)
  /\ affiliate_tracking (snd (serveRequest (with_set_behaviour b env) request w))
     = affiliate_tracking (snd (serveRequest env request w))
  /\ forall couponCode found err,
      cachedSnapshot env w (affiliateLinkKey couponCode) = None ->
      query_fault env = None ->
      findActiveLink w couponCode = Some found ->
      cache_connected w = true ->
      writeFailure b = Some err ->
      exists w1,
        resolveAffiliateLink (with_set_behaviour b env) couponCode w
        = (Returned (Some found), w1)
        /\ In (mkLog WARNING ("Cache write failed: " +:+ messageOf err)) (log w1)
        /\ ((forall t, b <> Responds t) -> cache_store w1 = cache_store w).
Proof.
  split; [|split].
  - destruct (pathParameters request !! "coupon") as [couponCode|] eqn:Hc.
    2:{ rewrite !serveRequest_response.
        rewrite !(handle_no_coupon _ request w (or_introl Hc)). reflexivity. }
    destruct (String.eqb couponCode "") eqn:Hne.
    { apply String.eqb_eq in Hne. subst couponCode.
      rewrite !serveRequest_response.
      rewrite !(handle_no_coupon _ request w (or_intror Hc)). reflexivity. }
    destruct (serve_resolved env request w couponCode Hc Hne)
      as (w1 & w' & _ & Hserve & _).
    destruct (serve_resolved (with_set_behaviour b env) request w couponCode Hc Hne)
      as (w1b & wb' & _ & Hserveb & _).
    rewrite Hserve, Hserveb. reflexivity.
  - destruct (pathParameters request !! "coupon") as [couponCode|] eqn:Hc.
    2:{ destruct (serveRequest_run env request w _ _
                    (handle_no_coupon env request w (or_introl Hc)))
          as (w' & Hrun & _ & _ & _ & _ & Htrk & _).
        destruct (serveRequest_run (with_set_behaviour b env) request w _ _
                    (handle_no_coupon _ request w (or_introl Hc)))
          as (wb' & Hrunb & _ & _ & _ & _ & Htrkb & _).
        rewrite Hrun, Hrunb. cbn. rewrite Htrk, Htrkb.
        apply trackingAfter_env. reflexivity. }
    destruct (String.eqb couponCode "") eqn:Hne.
    { apply String.eqb_eq in Hne. subst couponCode.
      destruct (serveRequest_run env request w _ _
                  (handle_no_coupon env request w (or_intror Hc)))
        as (w' & Hrun & _ & _ & _ & _ & Htrk & _).
      destruct (serveRequest_run (with_set_behaviour b env) request w _ _
                  (handle_no_coupon _ request w (or_intror Hc)))
        as (wb' & Hrunb & _ & _ & _ & _ & Htrkb & _).
      rewrite Hrun, Hrunb. cbn. rewrite Htrk, Htrkb.
      apply trackingAfter_env. reflexivity. }
    destruct (serve_resolved env request w couponCode Hc Hne)
      as (w1 & w' & _ & Hserve & _ & _ & Htrk & _).
    destruct (serve_resolved (with_set_behaviour b env) request w couponCode Hc Hne)
      as (w1b & wb' & _ & Hserveb & _ & _ & Htrkb & _).
    rewrite Hserve, Hserveb. cbn. rewrite Htrk, Htrkb.
    apply trackingAfter_env. reflexivity.
  - intros couponCode found err Hs Hq Hfound Hconn Hfail.
    destruct (resolve_write_log (with_set_behaviour b env) w couponCode found
                Hs Hq Hfound Hconn) as (w1 & before & Hrun & Hlog).
    cbn in Hlog. rewrite Hfail in Hlog.
    exists w1. split; [exact Hrun|]. split.
    { rewrite Hlog. apply in_or_app. right. now left. }
    intros Hnot.
    destruct (resolve_miss_found (with_set_behaviour b env) w couponCode found
                Hs Hq Hfound) as (w1' & Hrun' & _ & Hstore & _).
    rewrite Hrun in Hrun'. injection Hrun' as <-.
    rewrite Hstore. unfold storeAfterWrite. cbn. rewrite Hconn.
    destruct b as [t | t e0 | ]; [exfalso; exact (Hnot t eq_refl) | reflexivity | reflexivity].
Qed.

(** ** Cached texts that are of no use *)

(** X6.  A cached text that does not parse, or that is the text null, is
    treated as a miss: STEP 3 yields NULL without throwing.  For a text
    that does not parse the only line logged is the warning "Cache read
    failed" with the parser's message; for the text null the line "Cache
    hit" is logged although nothing was found.  In both cases the
    resolution goes on to query the repository and returns its outcome. *)
Theorem unusable_cache_entry_falls_back env w couponCode cachedText :
  cacheAnswers env w = true ->
  storedValue w (affiliateLinkKey couponCode) = Some cachedText ->
  (forall e,
      parseJSON cachedText = Thrown e ->
      exists w1,
        attemptCacheRetrieval env couponCode (affiliateLinkKey couponCode) w
        = (Returned None, w1)
        /\ log w1 = log w ++ [mkLog WARNING ("Cache read failed: " +:+ messageOf e)])
  /\ (parseJSON cachedText = Returned None ->
      exists w1,
        attemptCacheRetrieval env couponCode (affiliateLinkKey couponCode) w
        = (Returned None, w1)
        /\ log w1 = log w ++ [mkLog INFO ("Cache hit for coupon: " +:+ couponCode)])
  /\ ((forall found, parseJSON cachedText <> Returned (Some found)) ->
      exists w2,
        resolveAffiliateLink env couponCode w
        = (match query_fault env with
           | Some e => Thrown e
           | None => Returned (findActiveLink w couponCode)
           end, w2)
        /\ In (DbQuery couponCode (clock w)) (trace w2)).
Proof.
  intros Ha Hstored.
  assert (Hup : (cache_connected w && cache_healthy w)%bool = true
                /\ exists t, get_behaviour env = Responds t /\ (t <? 1000) = true).
  { unfold cacheAnswers, answersInTime in Ha.
    apply andb_prop in Ha as [Hup Hans]. split; [exact Hup|].
    destruct (get_behaviour env) as [t | |]; try discriminate. eauto. }
  destruct Hup as (Hup & t & Hget & Ht).
  assert (Hrun : forall parsed,
             parseJSON cachedText = parsed ->
             attemptCacheRetrieval env couponCode (affiliateLinkKey couponCode) w
             = match parsed with
               | Returned found =>
                   (Returned found,
                    set_log (log w ++ [mkLog INFO ("Cache hit for coupon: " +:+ couponCode)])
                            (set_trace (trace w ++ [CacheGet (affiliateLinkKey couponCode)]) w))
               | Thrown e =>
                   (Returned None,
                    set_log (log w ++ [mkLog WARNING ("Cache read failed: " +:+ messageOf e)])
                            (set_trace (trace w ++ [CacheGet (affiliateLinkKey couponCode)]) w))
               end).
  { intros parsed Hp. unfold attemptCacheRetrieval.
    unfold cacheClient_isConnected, cacheClient_isHealthy, gets, bind at 1 2.
    rewrite Hup.
    unfold tryCatch, cacheClient_getWithTimeout, cacheClient_get, bind, emit, modify,
      gets, ret.
    rewrite Hget. cbn.
    unfold awaitRace, awaitFirstResolved, createTimeout, operationFirst.
    rewrite Ht. cbn.
    change (storedValue (set_trace (trace w ++ [CacheGet (affiliateLinkKey couponCode)]) w)
                        (affiliateLinkKey couponCode))
      with (storedValue w (affiliateLinkKey couponCode)).
    rewrite Hstored. cbn. rewrite Hp.
    destruct parsed; reflexivity. }
  split; [|split].
  - intros e Hp. rewrite (Hrun _ Hp). eexists. split; reflexivity.
  - intros Hp. rewrite (Hrun _ Hp). eexists. split; reflexivity.
  - intros Hnone. apply resolve_miss_outcome.
    unfold cachedSnapshot, usableSnapshot. rewrite Ha, Hstored.
    destruct (parseJSON cachedText) as [[found|]|e] eqn:Hp; try reflexivity.
    exfalso. exact (Hnone found eq_refl).
Qed.

(** ** The reading helper *)

(** X7.  [getCachedAffiliateLink] never throws; it returns the parsed
    snapshot exactly when the client is connected, the server answers
    before the 1000 ms timer and a live text that parses is stored under
    affiliate:link:{coupon}, and NULL in every other case.  Unlike STEP 3
    of the controller it does not consult the health of the client: the
    two agree on a healthy client, and STEP 3 yields NULL on an unhealthy
    one whatever the store holds. *)
Theorem getCachedAffiliateLink_result env w couponCode :
  fst (getCachedAffiliateLink env couponCode w)
  = Returned (if (cache_connected w && answersInTime (get_behaviour env))%bool
              then usableSnapshot w (affiliateLinkKey couponCode)
              else None)
  /\ (cache_healthy w = true ->
      fst (getCachedAffiliateLink env couponCode w)
      = fst (attemptCacheRetrieval env couponCode (affiliateLinkKey couponCode) w))
  /\ (cache_healthy w = false ->
      fst (attemptCacheRetrieval env couponCode (affiliateLinkKey couponCode) w)
      = Returned None).
Proof.
  assert (Hval : fst (getCachedAffiliateLink env couponCode w)
                 = Returned (if (cache_connected w && answersInTime (get_behaviour env))%bool
                             then usableSnapshot w (affiliateLinkKey couponCode)
                             else None)).
  { unfold getCachedAffiliateLink, usableSnapshot, answersInTime.
    unfold cacheClient_isConnected, gets, bind at 1.
    destruct (cache_connected w) eqn:Hconn; cbn; [|reflexivity].
    unfold tryCatch, cacheClient_get, bind, emit, modify, gets, ret.
    destruct (get_behaviour env) as [t | t e | ]; cbn.
    - unfold awaitFirstResolved, createTimeout, operationFirst.
      destruct (t <? 1000) eqn:Ht; cbn; [|reflexivity].
      change (storedValue (set_trace (trace w ++ [CacheGet ("affiliate:link:" +:+ couponCode)]) w)
                          ("affiliate:link:" +:+ couponCode))
        with (storedValue w (affiliateLinkKey couponCode)).
      destruct (storedValue w (affiliateLinkKey couponCode)) as [cachedText|]; cbn;
        [|reflexivity].
      destruct (parseJSON cachedText) as [found|e]; reflexivity.
    - unfold awaitFirstResolved, createTimeout, operationFirst.
      destruct (t <? 1000); reflexivity.
    - reflexivity. }
  split; [exact Hval|].
  destruct (attemptCacheRetrieval_run env w couponCode (affiliateLinkKey couponCode))
    as (w1 & Hatt & _).
  split; intros Hh; rewrite ?Hval, Hatt; unfold fst, cachedSnapshot, cacheAnswers.
  - rewrite Hh, andb_true_r. reflexivity.
  - rewrite Hh, andb_false_r. reflexivity.
Qed.

(** ** The repository query *)

Lemma findActiveLink_Some w couponCode found :
  findActiveLink w couponCode = Some found ->
  exists al cp, activeRow w couponCode al cp /\ found = linkObject (al, cp).
Proof.
  unfold findActiveLink. intros Hhead.
  destruct (selectRows (affiliate_links w) (campaigns w) couponCode (clock w) (clock w))
    as [|[al cp] rest] eqn:Hrows; [discriminate|].
  cbn in Hhead. injection Hhead as <-.
  exists al, cp. split; [|reflexivity].
  apply in_selectRows. rewrite Hrows. now left.
Qed.

(** X8.  What the repository query of STEP 4 returns is built from a row
    of affiliate_links with the requested coupon and from the campaign it
    references, and that campaign satisfies start_on < now < end_on at
    the time of the query; the object carries the row's id, affiliate id
    and campaign id and the whole campaign. *)
Theorem repository_answer_is_an_active_row w couponCode found :
  findActiveLink w couponCode = Some found ->
  exists al cp,
    In al (affiliate_links w) /\ In cp (campaigns w)
    /\ row_coupon al = couponCode
    /\ row_campaign_id al = campaign_pk cp
    /\ start_on cp < clock w < end_on cp
    /\ link_id found = Some (row_id al)
    /\ link_coupon found = couponCode
    /\ link_affiliate_id found = row_affiliate_id al
    /\ link_campaign_id found = campaign_pk cp
    /\ link_campaign found = Some cp.
Proof.
  intros Hfound.
  destruct (findActiveLink_Some w couponCode found Hfound)
    as (al & cp & (Hal & Hcp & Hjoin & Hcoupon & Hstart & Hend) & ->).
  exists al, cp. cbn. repeat split; assumption.
Qed.

(** X9.  A page served without a snapshot from the cache shows a
    campaign that is active at the time of the request: the data passed
    to the template carry the requested coupon and a campaign with
    start_on < now < end_on. *)
Theorem page_off_the_repository_shows_active_campaign
        env w request couponCode statusCode template templateData :
  pathParameters request !! "coupon" = Some couponCode ->
  cachedSnapshot env w (affiliateLinkKey couponCode) = None ->
  fst (serveRequest env request w) = Returned (Html statusCode template templateData) ->
  link_coupon (data templateData) = couponCode
  /\ exists cp,
      link_campaign (data templateData) = Some cp
      /\ In cp (campaigns w)
      /\ start_on cp < clock w < end_on cp.
Proof.
  intros Hc Hs Hpage.
  destruct (String.eqb couponCode "") eqn:Hne.
  { apply String.eqb_eq in Hne. subst couponCode.
    rewrite serveRequest_response,
      (handle_no_coupon env request w (or_intror Hc)) in Hpage. discriminate. }
  destruct (serve_resolved env request w couponCode Hc Hne)
    as (w1 & w' & _ & Hserve & _).
  rewrite Hserve in Hpage. cbn in Hpage.
  unfold resolvedOutcome, responseFor in Hpage. rewrite Hs in Hpage.
  destruct (query_fault env) as [e|]; [discriminate|].
  destruct (findActiveLink w couponCode) as [found|] eqn:Hfound; [|discriminate].
  destruct (link_id found); [|discriminate].
  destruct (render_fault env); [discriminate|].
  injection Hpage as <- <- <-. cbn.
  destruct (findActiveLink_Some w couponCode found Hfound)
    as (al & cp & (Hal & Hcp & Hjoin & Hcoupon & Hstart & Hend) & ->).
  cbn. split; [exact Hcoupon|]. exists cp. repeat split; assumption.
Qed.

(** X10.  The helper [queryAffiliateLinkFromDatabase] and the query of
    STEP 4 issue the same repository read and agree on its outcome: both
    throw the same error, both return NULL together, and for a found row
    the helper returns the same object restricted to its select list
    (image_id, created_at and updated_at of the campaign left out). *)
Theorem helper_query_agrees_with_step4 env w couponCode :
  fst (queryAffiliateLinkFromDatabase env couponCode w)
  = match fst (database_query env couponCode w) with
    | Returned found => Returned (option_map withSelectedColumns found)
    | Thrown e => Thrown e
    end
  /\ snd (queryAffiliateLinkFromDatabase env couponCode w)
     = snd (database_query env couponCode w)
  /\ trace (snd (database_query env couponCode w))
     = trace w ++ [DbQuery couponCode (clock w)].
Proof.
  rewrite queryAffiliateLinkFromDatabase_run, database_query_run. cbn.
  split; [|split; reflexivity].
  destruct (query_fault env); [reflexivity|].
  unfold findActiveLink.
  destruct (selectRows (affiliate_links w) (campaigns w) couponCode (clock w) (clock w))
    as [|[al cp] rest]; reflexivity.
Qed.

Lemma NoDup_map_eq {A B} (f : A -> B) (l : list A) a b :
  List.NoDup (List.map f l) -> In a l -> In b l -> f a = f b -> a = b.
Proof.
  induction l as [|x l IH]; cbn; [intros _ []|].
  intros Hnd Ha Hb Hf. inversion Hnd as [|? ? Hnotin Hnd']; subst.
  destruct Ha as [-> | Ha], Hb as [-> | Hb].
  - reflexivity.
  - exfalso. apply Hnotin. rewrite Hf. apply in_map. exact Hb.
  - exfalso. apply Hnotin. rewrite <- Hf. apply in_map. exact Ha.
  - apply IH; assumption.
Qed.

(** X11.  Under the constraints of the schema (coupon is UNIQUE in
    affiliate_links, id is the primary key of campaigns) the limit of the
    query discards nothing: a row with the coupon whose campaign is
    active is the one the repository returns, and the helper returns the
    same row restricted to its select list. *)
Theorem unique_coupon_has_one_answer env w couponCode al cp :
  List.NoDup (List.map row_coupon (affiliate_links w)) ->
  List.NoDup (List.map campaign_pk (campaigns w)) ->
  activeRow w couponCode al cp ->
  query_fault env = None ->
  findActiveLink w couponCode = Some (linkObject (al, cp))
  /\ fst (queryAffiliateLinkFromDatabase env couponCode w)
     = Returned (Some (selectedColumns (al, cp))).
Proof.
  intros Hcoupons Hids Hactive Hq.
  assert (Hfound : findActiveLink w couponCode = Some (linkObject (al, cp))).
  { destruct (findActiveLink w couponCode) as [found|] eqn:Hfound.
    2:{ apply findActiveLink_None_iff in Hfound. exfalso. apply Hfound. eauto. }
    destruct (findActiveLink_Some w couponCode found Hfound)
      as (al' & cp' & (Hal' & Hcp' & Hjoin' & Hcoupon' & _) & ->).
    destruct Hactive as (Hal & Hcp & Hjoin & Hcoupon & _).
    assert (al' = al)
      by (apply (NoDup_map_eq row_coupon (affiliate_links w)); congruence).
    subst al'.
    assert (cp' = cp)
      by (apply (NoDup_map_eq campaign_pk (campaigns w)); congruence).
    subst cp'. reflexivity. }
  split; [exact Hfound|].
  rewrite queryAffiliateLinkFromDatabase_run, Hq. cbn.
  unfold findActiveLink in Hfound.
  destruct (selectRows (affiliate_links w) (campaigns w) couponCode (clock w) (clock w))
    as [|[al' cp'] rest]; [discriminate|].
  cbn in *. injection Hfound as Hrow.
  unfold linkObject in Hrow. cbn in Hrow.
  assert (cp' = cp) by congruence. subst cp'.
  unfold selectedColumns, linkObject. cbn. congruence.
Qed.

(** ** Header lookup *)

(** X12.  [extractHeader] returns the value of the first header of the
    request whose name equals the requested name up to letter case, and
    NULL exactly when no header of the request has such a name. *)
Theorem extractHeader_first_match request headerName :
  match extractHeader request headerName with
  | Some v =>
      exists before header after,
        headers request = before ++ header :: after
        /\ toLowerCase (name header) = toLowerCase headerName
        /\ value header = v
        /\ forall h, In h before -> toLowerCase (name h) <> toLowerCase headerName
  | None =>
      forall h, In h (headers request) -> toLowerCase (name h) <> toLowerCase headerName
  end.
Proof.
  unfold extractHeader. cbn.
  induction (headers request) as [|header rest IH]; cbn.
  - intros h [].
  - destruct (String.eqb_spec (toLowerCase (name header)) (toLowerCase headerName))
      as [Heq | Hne].
    + exists [], header, rest. repeat split; [exact Heq|]. intros h [].
    + destruct (findHeader rest (toLowerCase headerName)) as [v|].
      * destruct IH as (before & h0 & after & -> & Hname & Hvalue & Hbefore).
        exists (header :: before), h0, after. repeat split; try assumption.
        intros h [<- | Hin]; [exact Hne | exact (Hbefore h Hin)].
      * intros h [<- | Hin]; [exact Hne | exact (IH h Hin)].
Qed.

(** ** The operations of a resolution *)

(** X13.  One resolution of a coupon issues at most three operations, in
    this order: at most one cache read under affiliate:link:{coupon},
    then at most one repository query, then at most one cache write of
    what the query returned with TTL 1800.  The query is issued exactly
    when the cache supplied no snapshot, the write only for a found row
    on a connected client, and with a disconnected client the repository
    query is the only operation. *)
Theorem resolver_operation_budget env w couponCode :
  exists resolved w1 reads queries writes,
    resolveAffiliateLink env couponCode w = (resolved, w1)
    /\ trace w1 = trace w ++ reads ++ queries ++ writes
    /\ (reads = [] \/ reads = [CacheGet (affiliateLinkKey couponCode)])
    /\ (queries = [] \/ queries = [DbQuery couponCode (clock w)])
    /\ (queries = [] <-> exists snapshot,
           cachedSnapshot env w (affiliateLinkKey couponCode) = Some snapshot)
    /\ (writes = []
        \/ exists found,
            findActiveLink w couponCode = Some found
            /\ resolved = Returned (Some found)
            /\ cache_connected w = true
            /\ writes = [CacheSet (affiliateLinkKey couponCode) (toJSON found) 1800])
    /\ (cache_connected w = false ->
        reads = [] /\ queries = [DbQuery couponCode (clock w)] /\ writes = []).
Proof.
  assert (Hreads : readEvents w (affiliateLinkKey couponCode) = []
                   \/ readEvents w (affiliateLinkKey couponCode)
                      = [CacheGet (affiliateLinkKey couponCode)]).
  { unfold readEvents. destruct (cache_connected w && cache_healthy w)%bool; auto. }
  assert (Hoff : cache_connected w = false ->
                 readEvents w (affiliateLinkKey couponCode) = []
                 /\ cachedSnapshot env w (affiliateLinkKey couponCode) = None).
  { intros Hoff. unfold readEvents, cachedSnapshot, cacheAnswers. rewrite Hoff. auto. }
  destruct (cachedSnapshot env w (affiliateLinkKey couponCode)) as [snapshot|] eqn:Hs.
  - destruct (resolve_hit env w couponCode snapshot Hs)
      as (w1 & Hrun & _ & _ & _ & _ & Htrace).
    exists (Returned (Some snapshot)), w1,
      (readEvents w (affiliateLinkKey couponCode)), [], [].
    rewrite !app_nil_r.
    split; [exact Hrun|]. split; [exact Htrace|].
    split; [exact Hreads|]. split; [now left|].
    split; [split; eauto|].
    split; [now left|].
    intros Hoff'. destruct (Hoff Hoff') as [_ Hnone]. discriminate.
  - destruct (query_fault env) as [e|] eqn:Hq.
    { destruct (resolve_miss_fault env w couponCode e Hs Hq)
        as (w1 & Hrun & _ & _ & _ & _ & Htrace).
      exists (Thrown e), w1, (readEvents w (affiliateLinkKey couponCode)),
        [DbQuery couponCode (clock w)], [].
      rewrite !app_nil_r.
      split; [exact Hrun|]. split; [exact Htrace|].
      split; [exact Hreads|]. split; [now right|].
      split; [split; [discriminate | intros (snapshot & Hsome); discriminate]|].
      split; [now left|].
      intros Hoff'. split; [exact (proj1 (Hoff Hoff')) | auto]. }
    destruct (findActiveLink w couponCode) as [found|] eqn:Hfound.
    + destruct (resolve_miss_found env w couponCode found Hs Hq Hfound)
        as (w1 & Hrun & _ & _ & _ & _ & Htrace).
      exists (Returned (Some found)), w1, (readEvents w (affiliateLinkKey couponCode)),
        [DbQuery couponCode (clock w)],
        (writeEvents w (affiliateLinkKey couponCode) found).
      split; [exact Hrun|]. split; [exact Htrace|].
      split; [exact Hreads|]. split; [now right|].
      split; [split; [discriminate | intros (snapshot & Hsome); discriminate]|].
      unfold writeEvents.
      destruct (cache_connected w) eqn:Hconn.
      * split; [right; exists found; auto|]. discriminate.
      * split; [now left|]. intros _. split; [exact (proj1 (Hoff eq_refl)) | auto].
    + destruct (resolve_miss_none env w couponCode Hs Hq Hfound)
        as (w1 & Hrun & _ & _ & _ & _ & Htrace).
      exists (Returned None), w1, (readEvents w (affiliateLinkKey couponCode)),
        [DbQuery couponCode (clock w)], [].
      rewrite !app_nil_r.
      split; [exact Hrun|]. split; [exact Htrace|].
      split; [exact Hreads|]. split; [now right|].
      split; [split; [discriminate | intros (snapshot & Hsome); discriminate]|].
      split; [now left|].
      intros Hoff'. split; [exact (proj1 (Hoff Hoff')) | auto].
Qed.

(** ** The writing helper *)

(** X14.  [cacheAffiliateLink] never throws.  It reports TRUE exactly
    when the client is connected and the write completes, with a value or
    with an error, before the 1000 ms timer; it issues the write under
    affiliate:link:{coupon} with the given TTL exactly when the client is
    connected; and the entry reaches the store exactly when the client is
    connected and the server answers the write, however late.  So FALSE
    is reported for a write the server applied after the timer, and TRUE
    for a write that was rejected before it. *)
Theorem cacheAffiliateLink_report env w couponCode affiliateLink ttl :
  exists w',
    cacheAffiliateLink env couponCode affiliateLink ttl w
    = (Returned (cache_connected w && settlesInTime (set_behaviour env))%bool, w')
    /\ trace w'
       = trace w ++ (if cache_connected w
                     then [CacheSet (affiliateLinkKey couponCode) (toJSON affiliateLink) ttl]
                     else [])
    /\ cache_store w'
       = (if cache_connected w
          then match set_behaviour env with
               | Responds _ => <[affiliateLinkKey couponCode
                                 := (toJSON affiliateLink, clock w + ttl)]> (cache_store w)
               | _ => cache_store w
               end
          else cache_store w).
Proof.
  unfold cacheAffiliateLink, settlesInTime.
  unfold cacheClient_isConnected, gets, bind at 1.
  destruct (cache_connected w) eqn:Hconn; cbn.
  2:{ eexists. split; [reflexivity|]. split; [symmetry; apply app_nil_r | reflexivity]. }
  unfold tryCatch, cacheClient_setWithExpiry, bind, emit, modify, ret.
  destruct (set_behaviour env) as [t | t e | ]; cbn.
  - unfold awaitFirstResolved, createTimeout, operationFirst.
    destruct (t <? 1000); cbn; eexists; repeat split.
  - unfold awaitFirstResolved, createTimeout, operationFirst.
    destruct (t <? 1000); cbn; eexists; repeat split.
  - eexists; repeat split.
Qed.

(** ** Cache invalidation *)

Lemma affiliateLinkKey_inj couponCode couponCode' :
  affiliateLinkKey couponCode = affiliateLinkKey couponCode' -> couponCode = couponCode'.
Proof. unfold affiliateLinkKey. cbn. intros Heq. injection Heq as Heq. exact Heq. Qed.

Lemma globMatch_star_any (s : string) : globMatch "*" s = true.
Proof.
  induction s as [|a s IH]; [reflexivity|].
  cbn. cbn in IH. exact IH.
Qed.

Lemma globMatch_affiliateLinkKey (key : string) :
  globMatch "affiliate:link:*" key = true
  <-> exists couponCode, key = affiliateLinkKey couponCode.
Proof.
  split.
  - unfold affiliateLinkKey.
    do 15 (destruct key as [|a key]; [discriminate|];
           cbn [globMatch];
           match goal with
           | |- context [Ascii.eqb ?c a] =>
               destruct (Ascii.eqb_spec c a) as [<- | ?]; [|discriminate]
           end;
           cbn [andb]).
    intros _. exists key. reflexivity.
  - intros [couponCode ->]. unfold affiliateLinkKey.
    exact (globMatch_star_any couponCode).
Qed.

Lemma foldr_delete_In {A} (m : gmap string A) (keys : list string) (k : string) :
  In k keys -> foldr delete m keys !! k = None.
Proof.
  induction keys as [|k0 keys IH]; cbn; [intros []|].
  intros Hin. destruct (decide (k0 = k)) as [-> | Hne].
  - apply lookup_delete_eq.
  - rewrite lookup_delete_ne by exact Hne.
    destruct Hin as [Heq | Hin]; [contradiction | exact (IH Hin)].
Qed.

Lemma foldr_delete_not_In {A} (m : gmap string A) (keys : list string) (k : string) :
  ~ In k keys -> foldr delete m keys !! k = m !! k.
Proof.
  induction keys as [|k0 keys IH]; cbn; [reflexivity|].
  intros Hnot. rewrite lookup_delete_ne by (intros ->; apply Hnot; now left).
  apply IH. intros Hin. apply Hnot. now right.
Qed.

Lemma in_liveKeys w (k : string) :
  In k (liveKeys w)
  <-> exists entry, cache_store w !! k = Some entry /\ clock w < entry.2.
Proof.
  unfold liveKeys. rewrite in_map_iff. split.
  - intros ([k0 entry] & <- & Hin). apply filter_In in Hin as [Hin Hlive].
    apply list_elem_of_In, elem_of_map_to_list in Hin.
    exists entry. split; [exact Hin|]. cbn in Hlive. lia.
  - intros (entry & Hlook & Hlive).
    exists (k, entry). split; [reflexivity|]. apply filter_In. split.
    + apply list_elem_of_In, elem_of_map_to_list. exact Hlook.
    + cbn. lia.
Qed.

(** The snapshot STEP 3 obtains depends on the world through the
    surroundings and the entry under the key only. *)
Lemma cachedSnapshot_entry env w w' cacheKey :
  sameSurroundings w w' ->
  cache_store w' !! cacheKey = cache_store w !! cacheKey ->
  cachedSnapshot env w' cacheKey = cachedSnapshot env w cacheKey.
Proof.
  intros (Hclock & Hconn & Hhealthy & _) Hentry.
  unfold cachedSnapshot, cacheAnswers, usableSnapshot, storedValue.
  rewrite Hclock, Hconn, Hhealthy, Hentry. reflexivity.
Qed.

Lemma cachedSnapshot_no_live_entry env w cacheKey :
  (forall entry, cache_store w !! cacheKey = Some entry -> entry.2 <= clock w) ->
  cachedSnapshot env w cacheKey = None.
Proof.
  intros Hdead. apply cachedSnapshot_no_usable.
  unfold usableSnapshot, storedValue, liveValue.
  destruct (cache_store w !! cacheKey) as [entry|] eqn:Hentry; [|reflexivity].
  specialize (Hdead entry eq_refl).
  destruct (clock w <? entry.2) eqn:Hlive; [lia | reflexivity].
Qed.

Lemma resolve_without_snapshot env w couponCode :
  cachedSnapshot env w (affiliateLinkKey couponCode) = None ->
  fst (resolveAffiliateLink env couponCode w)
  = match query_fault env with
    | Some e => Thrown e
    | None => Returned (findActiveLink w couponCode)
    end.
Proof.
  intros Hs. destruct (resolve_miss_outcome env w couponCode Hs) as (w1 & Hrun & _).
  rewrite Hrun. reflexivity.
Qed.

Lemma invalidate_coupon_run admin w couponCode :
  cache_connected w = true ->
  exists w',
    invalidateAffiliateLinkCache admin (Some couponCode) w = (Returned tt, w')
    /\ sameSurroundings w w'
    /\ affiliate_tracking w' = affiliate_tracking w
    /\ spawned w' = spawned w
    /\ trace w' = trace w
    /\ cache_store w'
       = match del_behaviour admin with
         | Responds _ => delete (affiliateLinkKey couponCode) (cache_store w)
         | _ => cache_store w
         end
    /\ log w'
       = log w ++ [match deleteFailure admin with
                   | None => mkLog INFO ("Invalidated cache for coupon: " +:+ couponCode)
                   | Some err =>
                       mkLog WARNING ("Cache invalidation failed: " +:+ messageOf err)
                   end].
Proof.
  intros Hconn. unfold invalidateAffiliateLinkCache, deleteFailure, writeFailure.
  unfold cacheClient_isConnected, gets, bind at 1. rewrite Hconn. cbn [negb].
  unfold tryCatch, cacheClient_deleteWithTimeout, cacheClient_delete, bind, modify, ret.
  destruct (del_behaviour admin) as [t | t e | ]; cbn.
  - unfold awaitRace, awaitFirstResolved, createTimeout, operationFirst.
    destruct (t <? 1000); cbn; eexists; repeat split.
  - unfold awaitRace, awaitFirstResolved, createTimeout, operationFirst.
    destruct (t <? 1000); cbn; eexists; repeat split.
  - eexists; repeat split.
Qed.

Lemma invalidate_all_run admin w :
  cache_connected w = true ->
  exists w',
    invalidateAffiliateLinkCache admin None w = (Returned tt, w')
    /\ sameSurroundings w w'
    /\ affiliate_tracking w' = affiliate_tracking w
    /\ spawned w' = spawned w
    /\ trace w' = trace w
    /\ cache_store w'
       = match keys_fault admin, del_behaviour admin with
         | None, Responds _ =>
             foldr delete (cache_store w)
                   (List.filter (globMatch "affiliate:link:*") (liveKeys w))
         | _, _ => cache_store w
         end.
Proof.
  intros Hconn. unfold invalidateAffiliateLinkCache.
  unfold cacheClient_isConnected, gets, bind at 1. rewrite Hconn. cbn [negb].
  unfold tryCatch, cacheClient_getKeysByPattern.
  destruct (keys_fault admin) as [e|].
  { cbn. eexists; repeat split. }
  unfold bind at 1. unfold gets at 1. cbn beta iota.
  destruct (List.filter (globMatch "affiliate:link:*") (liveKeys w)) as [|k keys] eqn:Hkeys.
  { cbn. eexists. repeat split. destruct (del_behaviour admin); reflexivity. }
  cbn [List.length Nat.ltb Nat.leb].
  unfold cacheClient_deleteMultipleWithTimeout, cacheClient_delete, bind, modify, ret.
  destruct (del_behaviour admin) as [t | t e | ]; cbn -[globMatch liveKeys].
  - unfold awaitRace, awaitFirstResolved, createTimeout, operationFirst.
    destruct (t <? 1000); cbn -[globMatch liveKeys]; eexists; repeat split.
  - unfold awaitRace, awaitFirstResolved, createTimeout, operationFirst.
    destruct (t <? 1000); cbn -[globMatch liveKeys]; eexists; repeat split.
  - eexists; repeat split.
Qed.

(** X15.  Invalidating one coupon on a connected client whose delete
    command the server answers removes the entry under
    affiliate:link:{coupon} and nothing else: the next resolution of that
    coupon obtains no snapshot and returns what the repository holds now,
    whatever was cached before, and what the cache supplies for every
    other coupon is unchanged. *)
Theorem invalidated_coupon_is_read_from_repository admin w couponCode t :
  cache_connected w = true ->
  del_behaviour admin = Responds t ->
  exists w',
    invalidateAffiliateLinkCache admin (Some couponCode) w = (Returned tt, w')
    /\ sameSurroundings w w'
    /\ cache_store w' = delete (affiliateLinkKey couponCode) (cache_store w)
    /\ (forall env,
           cachedSnapshot env w' (affiliateLinkKey couponCode) = None
           /\ fst (resolveAffiliateLink env couponCode w')
              = match query_fault env with
                | Some e => Thrown e
                | None => Returned (findActiveLink w couponCode)
                end)
    /\ (forall env other,
           other <> couponCode ->
           cachedSnapshot env w' (affiliateLinkKey other)
           = cachedSnapshot env w (affiliateLinkKey other)).
Proof.
  intros Hconn Hdel.
  destruct (invalidate_coupon_run admin w couponCode Hconn)
    as (w' & Hrun & Hsur & _ & _ & _ & Hstore & _).
  rewrite Hdel in Hstore.
  exists w'. split; [exact Hrun|]. split; [exact Hsur|]. split; [exact Hstore|].
  split.
  - intros env.
    assert (Hs : cachedSnapshot env w' (affiliateLinkKey couponCode) = None).
    { apply cachedSnapshot_no_live_entry. intros entry.
      rewrite Hstore, lookup_delete_eq. discriminate. }
    split; [exact Hs|].
    rewrite (resolve_without_snapshot env w' couponCode Hs).
    rewrite (findActiveLink_surroundings w w' couponCode Hsur). reflexivity.
  - intros env other Hother. apply cachedSnapshot_entry; [exact Hsur|].
    rewrite Hstore. apply lookup_delete_ne.
    intros Heq. apply Hother. symmetry. exact (affiliateLinkKey_inj _ _ Heq).
Qed.

(** X16.  The wildcard invalidation on a connected client whose commands
    the server answers clears the cache of affiliate links: afterwards no
    coupon has a snapshot, so every resolution returns what the
    repository holds now; entries under keys that are not of the form
    affiliate:link:{coupon} are left in place. *)
Theorem wildcard_invalidation_clears_every_coupon admin w t :
  cache_connected w = true ->
  keys_fault admin = None ->
  del_behaviour admin = Responds t ->
  exists w',
    invalidateAffiliateLinkCache admin None w = (Returned tt, w')
    /\ sameSurroundings w w'
    /\ (forall env couponCode,
           cachedSnapshot env w' (affiliateLinkKey couponCode) = None
           /\ fst (resolveAffiliateLink env couponCode w')
              = match query_fault env with
                | Some e => Thrown e
                | None => Returned (findActiveLink w couponCode)
                end)
    /\ (forall key,
           (forall couponCode, key <> affiliateLinkKey couponCode) ->
           cache_store w' !! key = cache_store w !! key).
Proof.
  intros Hconn Hkeys Hdel.
  destruct (invalidate_all_run admin w Hconn)
    as (w' & Hrun & Hsur & _ & _ & _ & Hstore).
  rewrite Hkeys, Hdel in Hstore.
  exists w'. split; [exact Hrun|]. split; [exact Hsur|]. split.
  - intros env couponCode.
    assert (Hs : cachedSnapshot env w' (affiliateLinkKey couponCode) = None).
    { apply cachedSnapshot_no_live_entry. intros entry. rewrite Hstore.
      destruct (in_dec string_dec (affiliateLinkKey couponCode)
                       (List.filter (globMatch "affiliate:link:*") (liveKeys w)))
        as [Hin | Hnot].
      - rewrite (foldr_delete_In _ _ _ Hin). discriminate.
      - rewrite (foldr_delete_not_In _ _ _ Hnot). intros Hentry.
        destruct Hsur as (Hclock & _). rewrite Hclock.
        destruct (Z_lt_le_dec (clock w) entry.2) as [Hlive | Hdead]; [|exact Hdead].
        exfalso. apply Hnot. apply filter_In. split.
        + apply in_liveKeys. eauto.
        + apply globMatch_affiliateLinkKey. eauto. }
    split; [exact Hs|].
    rewrite (resolve_without_snapshot env w' couponCode Hs).
    rewrite (findActiveLink_surroundings w w' couponCode Hsur). reflexivity.
  - intros key Hother. rewrite Hstore. apply foldr_delete_not_In.
    intros Hin. apply filter_In in Hin as [_ Hmatch].
    apply globMatch_affiliateLinkKey in Hmatch as [couponCode ->].
    exact (Hother couponCode eq_refl).
Qed.

(** X17.  Invalidation never throws and only ever removes entries of
    the cache: whatever the server does, the call returns, repository,
    tracking table and clock are untouched, and every key either keeps
    its entry or loses it.  On a disconnected client the call does
    nothing at all; when the delete command is not answered by the
    server the store is left as it was, and for a single coupon the
    failure is logged as a warning "Cache invalidation failed". *)
Theorem invalidation_is_contained admin w coupon :
  exists w',
    invalidateAffiliateLinkCache admin coupon w = (Returned tt, w')
    /\ sameSurroundings w w'
    /\ affiliate_tracking w' = affiliate_tracking w
    /\ trace w' = trace w
    /\ (forall key,
           cache_store w' !! key = cache_store w !! key
           \/ cache_store w' !! key = None)
    /\ (cache_connected w = false -> w' = w)
    /\ ((forall t, del_behaviour admin <> Responds t) ->
        cache_store w' = cache_store w)
    /\ (forall couponCode err,
           cache_connected w = true ->
           coupon = Some couponCode ->
           deleteFailure admin = Some err ->
           log w' = log w ++ [mkLog WARNING
                                    ("Cache invalidation failed: " +:+ messageOf err)]).
Proof.
  destruct (cache_connected w) eqn:Hconn.
  2:{ exists w. unfold invalidateAffiliateLinkCache.
      unfold cacheClient_isConnected, gets, bind at 1. rewrite Hconn. cbn.
      split; [reflexivity|]. split; [apply sameSurroundings_refl|].
      split; [reflexivity|]. split; [reflexivity|].
      split; [intros key; now left|]. split; [reflexivity|].
      split; [reflexivity|]. intros couponCode err Hon. discriminate. }
  destruct coupon as [couponCode|].
  - destruct (invalidate_coupon_run admin w couponCode Hconn)
      as (w' & Hrun & Hsur & Htrk & _ & Htrace & Hstore & Hlog).
    exists w'. split; [exact Hrun|]. split; [exact Hsur|].
    split; [exact Htrk|]. split; [exact Htrace|].
    split.
    { intros key. rewrite Hstore. destruct (del_behaviour admin); auto.
      destruct (decide (affiliateLinkKey couponCode = key)) as [<- | Hne].
      - right. apply lookup_delete_eq.
      - left. apply lookup_delete_ne. exact Hne. }
    split; [discriminate|].
    split.
    { intros Hnot. rewrite Hstore.
      destruct (del_behaviour admin) as [t | |]; [exfalso; exact (Hnot t eq_refl) | |];
        reflexivity. }
    intros couponCode' err _ [= <-] Hfail. rewrite Hlog, Hfail. reflexivity.
  - destruct (invalidate_all_run admin w Hconn)
      as (w' & Hrun & Hsur & Htrk & _ & Htrace & Hstore).
    exists w'. split; [exact Hrun|]. split; [exact Hsur|].
    split; [exact Htrk|]. split; [exact Htrace|].
    split.
    { intros key. rewrite Hstore.
      destruct (keys_fault admin); [auto|]. destruct (del_behaviour admin); auto.
      destruct (in_dec string_dec key
                       (List.filter (globMatch "affiliate:link:*") (liveKeys w)))
        as [Hin | Hnot].
      - right. exact (foldr_delete_In _ _ _ Hin).
      - left. exact (foldr_delete_not_In _ _ _ Hnot). }
    split; [discriminate|].
    split; [|discriminate].
    intros Hnot. rewrite Hstore.
    destruct (keys_fault admin); [reflexivity|].
    destruct (del_behaviour admin) as [t | |]; [exfalso; exact (Hnot t eq_refl) | |];
      reflexivity.
Qed.

(** ** Error handling *)

(** X18.  The global error handler never throws and answers with
    content type application/json.  Its status is the error's statusCode,
    else its status, else 500; its message is the error's message, else
    the first entry of its errors, else the generic text, which is the
    message the catch-all of the controller sends for the same error.
    The catch-all sends the same status except for a zero code, which
    the global handler passes on and the catch-all replaces by 500: the
    two statuses differ exactly when the status sent here is zero.  The
    body repeats message and status and carries the stack trace in the
    development environment only; one line is logged at error level and
    nothing else changes. *)
Theorem handleError_agrees_with_catch_all isDevEnvironment stackTrace (error : Error) w :
  let status := match err_statusCode error with
                | Some code => code
                | None => match err_status error with
                          | Some code => code
                          | None => 500
                          end
                end in
  let message := match err_message error with
                 | Some m => m
                 | None => match err_errors error with
                           | m :: _ => m
                           | [] => "An unexpected error occurred"
                           end
                 end in
  handleError isDevEnvironment stackTrace error w
  = (Returned (mkSentError "application/json" status
                           (mkErrorBody message status
                                        (if isDevEnvironment
                                         then Some (stackTrace error) else None))),
     set_log (log w ++ [mkLog ERROR ("Request failed: " +:+ message +:+ " (status: "
                                     +:+ pretty status +:+ ")")]) w)
  /\ errorResponse error = JSONError (if status =? 0 then 500 else status) message
  /\ (errorResponse error = JSONError status message <-> status <> 0).
Proof.
  cbv zeta.
  assert (Hcatch : errorResponse error
                   = JSONError (if extractHTTPStatusCode error 500 =? 0
                                then 500 else extractHTTPStatusCode error 500)
                               (extractErrorMessage error))
    by reflexivity.
  change (match err_statusCode error with
          | Some code => code
          | None => match err_status error with
                    | Some code => code
                    | None => 500
                    end
          end) with (extractHTTPStatusCode error 500).
  change (match err_message error with
          | Some m => m
          | None => match err_errors error with
                    | m :: _ => m
                    | [] => "An unexpected error occurred"
                    end
          end) with (extractErrorMessage error).
  split.
  { unfold handleError, logError, logAt, modify, bind, ret.
    destruct isDevEnvironment; reflexivity. }
  split; [exact Hcatch|].
  rewrite Hcatch.
  destruct (Z.eqb_spec (extractHTTPStatusCode error 500) 0) as [Hzero | Hnz].
  - rewrite Hzero. split; [discriminate | intros Hne; contradiction].
  - split; [intros _; exact Hnz | reflexivity].
Qed.

End Coverage.

(** * Facts about batch click buffering *)

Section BufferFacts.

Context `{Serializer} `{EventSerializer}.

Local Open Scope job_scope.

Implicit Types (jenv : JobEnv) (s : BufferWorld) (w : World).

Lemma jbind_run {A B} (m : Job A) (k : A -> Job B) s :
  jbind m k s = match m s with
                | (Returned a, s') => k a s'
                | (Thrown e, s') => (Thrown e, s')
                end.
Proof. reflexivity. Qed.

Lemma jtry_run {A} (m : Job A) (h : Error -> Job A) s :
  jtry m h s = match m s with
               | (Returned a, s') => (Returned a, s')
               | (Thrown e, s') => h e s'
               end.
Proof. reflexivity. Qed.

Lemma insertClickTracking_run env (event : ClickTrackingEvent) w :
  let columns := mkEvent (ev_country event) (ev_affiliate_id event)
                         (ev_campaign_id event) (ev_link_id event)
                         (ev_status event) HOLD 0 in
  let w1 := set_trace (trace w ++ [DbInsert columns]) w in
  insertClickTracking env event w
  = match insert_fault env with
    | Some e => (Thrown e, w1)
    | None =>
        (Returned (Z.of_nat (List.length (affiliate_tracking w)) + 1),
         set_affiliate_tracking
           (affiliate_tracking w ++ [rowOf (affiliate_tracking w) (clock w) columns]) w1)
    end.
Proof.
  unfold insertClickTracking, database_insert, bind, emit, modify, gets,
    getCurrentDateTime, ret, throw.
  destruct (insert_fault env); reflexivity.
Qed.

Lemma listOf_insert_eq s key (l : list eventText) :
  listOf (set_lists (<[key := l]> (lists s)) s) key = l.
Proof. unfold listOf. cbn. rewrite lookup_insert_eq. reflexivity. Qed.

Lemma listOf_insert_ne s key key' (l : list eventText) :
  key <> key' ->
  listOf (set_lists (<[key := l]> (lists s)) s) key' = listOf s key'.
Proof. intros Hne. unfold listOf. cbn. rewrite lookup_insert_ne by exact Hne. reflexivity. Qed.

Lemma parseEvents_run batch :
  forall events s,
    parseEvents batch events s
    = (match parsedBatch batch with
       | Returned parsed => Returned (events ++ parsed)
       | Thrown e => Thrown e
       end, s).
Proof.
  induction batch as [|clickJSON rest IH]; intros events s; cbn.
  - rewrite app_nil_r. reflexivity.
  - destruct (eventParseJSON clickJSON) as [event|e]; [|reflexivity].
    rewrite IH. destruct (parsedBatch rest) as [parsed|e]; [|reflexivity].
    rewrite <- app_assoc. reflexivity.
Qed.

Lemma parsedBatch_length batch parsed :
  parsedBatch batch = Returned parsed -> List.length parsed = List.length batch.
Proof.
  revert parsed. induction batch as [|clickJSON rest IH]; intros parsed; cbn.
  - intros [= <-]. reflexivity.
  - destruct (eventParseJSON clickJSON) as [event|e]; [|discriminate].
    destruct (parsedBatch rest) as [events|e]; [|discriminate].
    intros [= <-]. cbn. rewrite (IH events eq_refl). reflexivity.
Qed.

Lemma parsedBatch_round_trip (events : list ClickTrackingEvent) :
  (forall event, eventParseJSON (eventToJSON event) = Returned event) ->
  parsedBatch (List.map eventToJSON events) = Returned events.
Proof.
  intros Hround. induction events as [|event rest IH]; cbn; [reflexivity|].
  rewrite Hround, IH. reflexivity.
Qed.

Lemma pushEach_run jenv key batch :
  push_fault jenv key = None ->
  forall s,
  exists s',
    pushEach jenv key batch s = (Returned tt, s')
    /\ base s' = base s
    /\ listOf s' key = listOf s key ++ batch
    /\ (forall key', key <> key' -> listOf s' key' = listOf s key').
Proof.
  intros Hpush. induction batch as [|click rest IH]; intros s; cbn.
  - exists s. split; [reflexivity|]. split; [reflexivity|].
    split; [symmetry; apply app_nil_r | reflexivity].
  - rewrite jbind_run. unfold cacheClient_listPush. rewrite Hpush.
    destruct (IH (set_lists (<[key := listOf s key ++ [click]]> (lists s)) s))
      as (s' & Hrun & Hbase & Hlist & Hother).
    exists s'. split; [exact Hrun|]. split; [exact Hbase|]. split.
    + rewrite Hlist, listOf_insert_eq, <- app_assoc. reflexivity.
    + intros key' Hne. rewrite (Hother key' Hne). apply listOf_insert_ne. exact Hne.
Qed.

Lemma pushEach_fault jenv key batch e s :
  push_fault jenv key = Some e ->
  batch <> [] ->
  pushEach jenv key batch s = (Thrown e, s).
Proof.
  intros Hpush Hne. destruct batch as [|click rest]; [contradiction|].
  cbn. rewrite jbind_run. unfold cacheClient_listPush. rewrite Hpush. reflexivity.
Qed.

Lemma bulkRows_app now events :
  forall rows,
  exists added,
    bulkRows now events rows = rows ++ added
    /\ Forall2 (fun event row =>
                  exists id, row = bulkRow id now event) events added
    /\ List.map trk_id added
       = List.map (fun i => Z.of_nat (List.length rows) + Z.of_nat i + 1)
                  (seq 0 (List.length events)).
Proof.
  unfold bulkRows.
  induction events as [|event rest IH]; intros rows; cbn.
  - exists []. split; [symmetry; apply app_nil_r|]. split; [constructor | reflexivity].
  - destruct (IH (rows ++ [rowOf rows now event])) as (added & Hrows & Hfields & Hids).
    exists (rowOf rows now event :: added). split.
    + rewrite Hrows, <- app_assoc. reflexivity.
    + split.
      * constructor; [|exact Hfields]. eexists. reflexivity.
      * cbn. f_equal; [lia|]. rewrite Hids, <- seq_shift, List.map_map.
        apply map_ext. intros i. rewrite length_app. cbn. lia.
Qed.

Lemma length_eqb_nil {A} (l : list A) :
  l <> [] -> (List.length l =? 0)%nat = false /\ (0 <? List.length l)%nat = true.
Proof. destruct l; [contradiction | intros _; split; reflexivity]. Qed.

(** The pass of the job on an empty buffer. *)
Lemma flushPass_idle jenv s :
  pop_fault jenv = None ->
  listOf s "click_buffer" = [] ->
  exists s',
    flushPass jenv s = (Returned tt, s')
    /\ (forall key, listOf s' key = listOf s key)
    /\ affiliate_tracking (base s') = affiliate_tracking (base s)
    /\ clock (base s') = clock (base s) + 10
    /\ log (base s') = log (base s).
Proof.
  intros Hpop Hempty. unfold flushPass.
  rewrite jbind_run, jtry_run, jbind_run.
  unfold cacheClient_listPopMultiple. rewrite Hpop, Hempty.
  rewrite take_nil, drop_nil.
  cbn. eexists. split; [reflexivity|]. cbn.
  split; [|repeat split].
  intros key. unfold listOf. cbn.
  destruct (decide ("click_buffer" = key)) as [<- | Hne].
  - rewrite lookup_insert_eq. symmetry. exact Hempty.
  - rewrite lookup_insert_ne by exact Hne. reflexivity.
Qed.

(** The pass of the job on a batch that parses and is inserted. *)
Lemma flushPass_success jenv s events :
  pop_fault jenv = None ->
  bulk_fault jenv = None ->
  take (Z.to_nat 5000) (listOf s "click_buffer") <> [] ->
  parsedBatch (take (Z.to_nat 5000) (listOf s "click_buffer")) = Returned events ->
  exists s',
    flushPass jenv s = (Returned tt, s')
    /\ listOf s' "click_buffer" = drop (Z.to_nat 5000) (listOf s "click_buffer")
    /\ (forall key, "click_buffer" <> key -> listOf s' key = listOf s key)
    /\ affiliate_tracking (base s')
       = bulkRows (clock (base s)) events (affiliate_tracking (base s))
    /\ clock (base s') = clock (base s) + 10
    /\ log (base s')
       = log (base s) ++ [mkLog INFO ("Flushed " +:+ pretty (List.length events)
                                      +:+ " clicks to database")].
Proof.
  intros Hpop Hbulk Hne Hparsed. unfold flushPass.
  rewrite jbind_run, jtry_run, jbind_run.
  unfold cacheClient_listPopMultiple. rewrite Hpop.
  rewrite jbind_run. unfold assignClicks.
  rewrite (proj1 (length_eqb_nil _ Hne)).
  rewrite jbind_run, parseEvents_run, Hparsed.
  rewrite jbind_run. unfold database_bulkInsert. rewrite Hbulk.
  cbn -[Z.to_nat take drop bulkRows pretty].
  eexists. split; [reflexivity|].
  cbn -[Z.to_nat take drop bulkRows pretty].
  split; [apply listOf_insert_eq|].
  split; [intros key Hkey; unfold listOf; cbn -[Z.to_nat take drop];
          rewrite lookup_insert_ne by exact Hkey; reflexivity|].
  repeat split.
Qed.

(** The pass of the job on a batch that does not parse or is rejected by
    the table, with a working dead-letter list. *)
Lemma flushPass_parked jenv s e :
  pop_fault jenv = None ->
  push_fault jenv "click_buffer:dead_letter" = None ->
  take (Z.to_nat 5000) (listOf s "click_buffer") <> [] ->
  parsedBatch (take (Z.to_nat 5000) (listOf s "click_buffer")) = Thrown e
  \/ ((exists events,
          parsedBatch (take (Z.to_nat 5000) (listOf s "click_buffer")) = Returned events)
      /\ bulk_fault jenv = Some e) ->
  exists s',
    flushPass jenv s = (Returned tt, s')
    /\ listOf s' "click_buffer" = drop (Z.to_nat 5000) (listOf s "click_buffer")
    /\ listOf s' "click_buffer:dead_letter"
       = listOf s "click_buffer:dead_letter" ++ take (Z.to_nat 5000) (listOf s "click_buffer")
    /\ affiliate_tracking (base s') = affiliate_tracking (base s)
    /\ clock (base s') = clock (base s) + 10
    /\ log (base s')
       = log (base s) ++ [mkLog ERROR ("Click buffer flush failed: " +:+ messageOf e)].
Proof.
  intros Hpop Hpush Hne Hfail.
  set (batch := take (Z.to_nat 5000) (listOf s "click_buffer")) in *.
  set (s1 := set_clicks (Some batch)
               (set_lists (<["click_buffer" := drop (Z.to_nat 5000) (listOf s "click_buffer")]>
                             (lists s)) s)).
  assert (Hhandler :
            exists s',
              (let s2 := set_base (set_log (log (base s1)
                                            ++ [mkLog ERROR ("Click buffer flush failed: "
                                                             +:+ messageOf e)])
                                           (base s1)) s1 in
               pushEach jenv "click_buffer:dead_letter" batch s2) = (Returned tt, s')
              /\ base s' = set_log (log (base s)
                                    ++ [mkLog ERROR ("Click buffer flush failed: "
                                                     +:+ messageOf e)]) (base s)
              /\ listOf s' "click_buffer" = drop (Z.to_nat 5000) (listOf s "click_buffer")
              /\ listOf s' "click_buffer:dead_letter"
                 = listOf s "click_buffer:dead_letter" ++ batch).
  { cbv zeta.
    destruct (pushEach_run jenv "click_buffer:dead_letter" batch Hpush
                (set_base (set_log (log (base s1)
                                    ++ [mkLog ERROR ("Click buffer flush failed: "
                                                     +:+ messageOf e)])
                                   (base s1)) s1))
      as (s' & Hrun & Hbase & Hdead & Hother).
    exists s'. split; [exact Hrun|]. split; [exact Hbase|]. split.
    - rewrite (Hother "click_buffer") by discriminate.
      unfold s1, listOf. cbn -[Z.to_nat take drop].
      rewrite lookup_insert_eq. reflexivity.
    - rewrite Hdead. f_equal.
      unfold s1, listOf. cbn -[Z.to_nat take drop].
      rewrite lookup_insert_ne by discriminate. reflexivity. }
  destruct Hhandler as (s' & Hrun & Hbase & Hbuffer & Hdead).
  cbv zeta in Hrun.
  assert (Hpass :
            flushPass jenv s
            = (Returned tt,
               set_base (set_clock (clock (base s') + 10) (base s')) s')).
  { unfold flushPass.
    rewrite jbind_run, jtry_run, jbind_run.
    unfold cacheClient_listPopMultiple. rewrite Hpop.
    rewrite jbind_run. unfold assignClicks.
    fold batch. rewrite (proj1 (length_eqb_nil _ Hne)).
    rewrite jbind_run, parseEvents_run.
    fold s1.
    destruct Hfail as [Hparse | [[events Hparse] Hbulk]]; rewrite Hparse.
    - rewrite jbind_run. unfold lift at 1, logError at 1, logAt at 1, modify at 1.
      rewrite jbind_run. unfold readClicks at 1.
      rewrite jbind_run.
      change (clicks (set_base
                        (set_log (log (base s1)
                                  ++ [mkLog ERROR ("Click buffer flush failed: "
                                                   +:+ messageOf e)]) (base s1)) s1))
        with (Some batch).
      cbv beta iota.
      rewrite (proj2 (length_eqb_nil _ Hne)), Hrun. reflexivity.
    - rewrite jbind_run. unfold database_bulkInsert. rewrite Hbulk.
      unfold jthrow at 1.
      rewrite jbind_run. unfold lift at 1, logError at 1, logAt at 1, modify at 1.
      rewrite jbind_run. unfold readClicks at 1.
      rewrite jbind_run.
      change (clicks (set_base
                        (set_log (log (base s1)
                                  ++ [mkLog ERROR ("Click buffer flush failed: "
                                                   +:+ messageOf e)]) (base s1)) s1))
        with (Some batch).
      cbv beta iota.
      rewrite (proj2 (length_eqb_nil _ Hne)), Hrun. reflexivity. }
  eexists. split; [exact Hpass|].
  split; [exact Hbuffer|]. split; [exact Hdead|].
  cbn. rewrite Hbase. repeat split.
Qed.

(** The pass of the job on a failing batch when the dead-letter list
    cannot be written either. *)
Lemma flushPass_lost jenv s e e' :
  pop_fault jenv = None ->
  push_fault jenv "click_buffer:dead_letter" = Some e' ->
  take (Z.to_nat 5000) (listOf s "click_buffer") <> [] ->
  parsedBatch (take (Z.to_nat 5000) (listOf s "click_buffer")) = Thrown e
  \/ ((exists events,
          parsedBatch (take (Z.to_nat 5000) (listOf s "click_buffer")) = Returned events)
      /\ bulk_fault jenv = Some e) ->
  exists s',
    flushPass jenv s = (Thrown e', s')
    /\ listOf s' "click_buffer" = drop (Z.to_nat 5000) (listOf s "click_buffer")
    /\ listOf s' "click_buffer:dead_letter" = listOf s "click_buffer:dead_letter"
    /\ affiliate_tracking (base s') = affiliate_tracking (base s).
Proof.
  intros Hpop Hpush Hne Hfail.
  set (batch := take (Z.to_nat 5000) (listOf s "click_buffer")) in *.
  set (s1 := set_clicks (Some batch)
               (set_lists (<["click_buffer" := drop (Z.to_nat 5000) (listOf s "click_buffer")]>
                             (lists s)) s)).
  set (s2 := set_base (set_log (log (base s1)
                                ++ [mkLog ERROR ("Click buffer flush failed: "
                                                 +:+ messageOf e)]) (base s1)) s1).
  assert (Hpass : flushPass jenv s = (Thrown e', s2)).
  { unfold flushPass.
    rewrite jbind_run, jtry_run, jbind_run.
    unfold cacheClient_listPopMultiple. rewrite Hpop.
    rewrite jbind_run. unfold assignClicks.
    fold batch. rewrite (proj1 (length_eqb_nil _ Hne)).
    rewrite jbind_run, parseEvents_run.
    fold s1.
    destruct Hfail as [Hparse | [[events Hparse] Hbulk]]; rewrite Hparse.
    - rewrite jbind_run. unfold lift at 1, logError at 1, logAt at 1, modify at 1.
      rewrite jbind_run. unfold readClicks at 1.
      rewrite jbind_run. fold s2.
      change (clicks s2) with (Some batch).
      cbv beta iota.
      rewrite (proj2 (length_eqb_nil _ Hne)), (pushEach_fault jenv _ _ e' s2 Hpush Hne).
      reflexivity.
    - rewrite jbind_run. unfold database_bulkInsert. rewrite Hbulk.
      unfold jthrow at 1.
      rewrite jbind_run. unfold lift at 1, logError at 1, logAt at 1, modify at 1.
      rewrite jbind_run. unfold readClicks at 1.
      rewrite jbind_run. fold s2.
      change (clicks s2) with (Some batch).
      cbv beta iota.
      rewrite (proj2 (length_eqb_nil _ Hne)), (pushEach_fault jenv _ _ e' s2 Hpush Hne).
      reflexivity. }
  exists s2. split; [exact Hpass|].
  split; [unfold s2, s1, listOf; cbn -[Z.to_nat take drop];
          rewrite lookup_insert_eq; reflexivity|].
  split; [unfold s2, s1, listOf; cbn -[Z.to_nat take drop];
          rewrite lookup_insert_ne by discriminate; reflexivity|].
  reflexivity.
Qed.

Lemma bulkRows_length now events rows :
  List.length (bulkRows now events rows) = (List.length rows + List.length events)%nat.
Proof.
  destruct (bulkRows_app now events rows) as (added & -> & Hfields & _).
  rewrite length_app. f_equal. symmetry. exact (Forall2_length _ _ _ Hfields).
Qed.

Lemma take_batch_nonempty {A} (l : list A) : l <> [] -> take (Z.to_nat 5000) l <> [].
Proof.
  assert (Hn : exists n, Z.to_nat 5000 = S n) by (exists (Z.to_nat 4999); lia).
  destruct Hn as [n ->]. destruct l; [contradiction | discriminate].
Qed.

Lemma parsedBatch_split batch :
  forall n events,
    parsedBatch batch = Returned events ->
    parsedBatch (take n batch) = Returned (take n events)
    /\ parsedBatch (drop n batch) = Returned (drop n events).
Proof.
  induction batch as [|clickJSON rest IH]; intros n events; cbn.
  - intros [= <-]. rewrite !take_nil, !drop_nil. split; reflexivity.
  - destruct (eventParseJSON clickJSON) as [event|e] eqn:Hparse; [|discriminate].
    destruct (parsedBatch rest) as [parsed|e] eqn:Hrest; [|discriminate].
    intros [= <-]. destruct n as [|n]; cbn.
    + rewrite Hparse, Hrest. split; reflexivity.
    + destruct (IH n parsed eq_refl) as [Htake Hdrop].
      rewrite Hparse, Htake, Hdrop. split; reflexivity.
Qed.

(** The two ways [bufferClickForBatch] stores a click. *)
Lemma bufferClick_buffered jenv (clickEvent : ClickTrackingEvent) s :
  cache_connected (base s) = true ->
  push_fault jenv "click_buffer" = None ->
  exists s',
    bufferClickForBatch jenv clickEvent s = (Returned tt, s')
    /\ base s' = base s
    /\ listOf s' "click_buffer" = listOf s "click_buffer" ++ [eventToJSON clickEvent]
    /\ (forall key, "click_buffer" <> key -> listOf s' key = listOf s key)
    /\ debug_log s' = debug_log s ++ ["Click buffered for batch insertion"].
Proof.
  intros Hconn Hpush. unfold bufferClickForBatch.
  rewrite jbind_run. unfold lift at 1, cacheClient_isConnected, gets.
  rewrite Hconn. cbn [negb].
  rewrite jtry_run, jbind_run. unfold cacheClient_listPush. rewrite Hpush.
  unfold logDebug. eexists. split; [reflexivity|].
  split; [destruct s; reflexivity|].
  split; [unfold listOf; cbn; rewrite lookup_insert_eq; reflexivity|].
  split; [|reflexivity].
  intros key Hkey. unfold listOf. cbn. rewrite lookup_insert_ne by exact Hkey.
  destruct s; reflexivity.
Qed.

Lemma bufferClick_direct jenv (clickEvent : ClickTrackingEvent) s :
  cache_connected (base s) = false
  \/ (exists e, push_fault jenv "click_buffer" = Some e) ->
  let columns := mkEvent (ev_country clickEvent) (ev_affiliate_id clickEvent)
                         (ev_campaign_id clickEvent) (ev_link_id clickEvent)
                         (ev_status clickEvent) HOLD 0 in
  exists s',
    bufferClickForBatch jenv clickEvent s
    = (match insert_fault (request_env jenv) with
       | Some e => Thrown e
       | None => Returned tt
       end, s')
    /\ lists s' = lists s
    /\ affiliate_tracking (base s')
       = match insert_fault (request_env jenv) with
         | Some _ => affiliate_tracking (base s)
         | None => affiliate_tracking (base s)
                   ++ [rowOf (affiliate_tracking (base s)) (clock (base s)) columns]
         end
    /\ (forall e, cache_connected (base s) = true ->
                  push_fault jenv "click_buffer" = Some e ->
                  In (mkLog WARNING ("Click buffering failed, using direct insert: "
                                     +:+ messageOf e)) (log (base s'))).
Proof.
  intros Hwhy columns. unfold bufferClickForBatch.
  rewrite jbind_run. unfold lift at 1, cacheClient_isConnected, gets.
  destruct (cache_connected (base s)) eqn:Hconn; cbn [negb].
  - destruct Hwhy as [Hoff | [e Hpush]]; [discriminate|].
    rewrite jtry_run, jbind_run. unfold cacheClient_listPush. rewrite Hpush.
    unfold jthrow at 1.
    rewrite jbind_run. unfold lift at 1, logWarning at 1, logAt at 1, modify at 1.
    rewrite jbind_run. unfold lift at 1. rewrite insertClickTracking_run.
    destruct (insert_fault (request_env jenv)) as [e'|]; cbn.
    + eexists. split; [reflexivity|]. split; [destruct s; reflexivity|].
      split; [reflexivity|]. intros e0 _ [= <-]. cbn.
      apply in_or_app. right. now left.
    + eexists. split; [reflexivity|]. split; [destruct s; reflexivity|].
      split; [reflexivity|]. intros e0 _ [= <-]. cbn.
      apply in_or_app. right. now left.
  - rewrite jbind_run. unfold lift at 1. rewrite insertClickTracking_run.
    destruct (insert_fault (request_env jenv)) as [e'|]; cbn.
    + eexists. split; [reflexivity|]. split; [destruct s; reflexivity|].
      split; [reflexivity|]. intros e0 Hon. discriminate.
    + eexists. split; [reflexivity|]. split; [destruct s; reflexivity|].
      split; [reflexivity|]. intros e0 Hon. discriminate.
Qed.

(** ** The buffer and the job *)

(** X20.  [bufferClickForBatch] stores a click exactly once or tells its
    caller: on a connected client whose push succeeds the serialized
    event is appended to the list click_buffer and the tracking table is
    untouched; on a disconnected client, or when the push fails (which is
    logged as a warning), the click is inserted directly, with payment
    HOLD and amount 0, and no list changes; and when that direct insert
    fails too, its error is thrown to the caller and nothing is stored. *)
Theorem buffered_click_is_stored_once jenv (clickEvent : ClickTrackingEvent) s :
  (cache_connected (base s) = true ->
   push_fault jenv "click_buffer" = None ->
   exists s',
     bufferClickForBatch jenv clickEvent s = (Returned tt, s')
     /\ listOf s' "click_buffer" = listOf s "click_buffer" ++ [eventToJSON clickEvent]
     /\ listOf s' "click_buffer:dead_letter" = listOf s "click_buffer:dead_letter"
     /\ affiliate_tracking (base s') = affiliate_tracking (base s))
  /\ (cache_connected (base s) = false
      \/ (exists e, push_fault jenv "click_buffer" = Some e) ->
      (insert_fault (request_env jenv) = None ->
       exists s',
         bufferClickForBatch jenv clickEvent s = (Returned tt, s')
         /\ lists s' = lists s
         /\ affiliate_tracking (base s')
            = affiliate_tracking (base s)
              ++ [mkTrackingRow (Z.of_nat (List.length (affiliate_tracking (base s))) + 1)
                                (ev_country clickEvent) (ev_affiliate_id clickEvent)
                                (ev_campaign_id clickEvent) (ev_link_id clickEvent)
                                (ev_status clickEvent) HOLD 0
                                (clock (base s)) (clock (base s))])
      /\ (forall e,
             insert_fault (request_env jenv) = Some e ->
             exists s',
               bufferClickForBatch jenv clickEvent s = (Thrown e, s')
               /\ lists s' = lists s
               /\ affiliate_tracking (base s') = affiliate_tracking (base s)))
  /\ (forall e,
         cache_connected (base s) = true ->
         push_fault jenv "click_buffer" = Some e ->
         In (mkLog WARNING ("Click buffering failed, using direct insert: "
                            +:+ messageOf e))
            (log (base (snd (bufferClickForBatch jenv clickEvent s))))).
Proof.
  split; [|split].
  - intros Hconn Hpush.
    destruct (bufferClick_buffered jenv clickEvent s Hconn Hpush)
      as (s' & Hrun & Hbase & Hbuffer & Hother & _).
    exists s'. split; [exact Hrun|]. split; [exact Hbuffer|].
    split; [apply Hother; discriminate|]. rewrite Hbase. reflexivity.
  - intros Hwhy.
    destruct (bufferClick_direct jenv clickEvent s Hwhy)
      as (s' & Hrun & Hlists & Htable & _).
    split.
    + intros Hins. rewrite Hins in Hrun, Htable. exists s'. auto.
    + intros e Hins. rewrite Hins in Hrun, Htable. exists s'. auto.
  - intros e Hconn Hpush.
    destruct (bufferClick_direct jenv clickEvent s (or_intror (ex_intro _ e Hpush)))
      as (s' & Hrun & _ & _ & Hlog).
    rewrite Hrun. exact (Hlog e Hconn Hpush).
Qed.

(** X21.  One pass of the job over a non-empty buffer whose batch parses
    and is accepted by the table: the first 5000 texts leave the buffer,
    the tracking table gains one row per event of the batch, in order,
    with consecutive ids, the event's own country, ids, status, payment
    state and amount, and the time of the pass as both timestamps; the
    dead-letter list is untouched, the flush is logged, and the job then
    waits 10 seconds. *)
Theorem flush_pass_moves_batch_to_table jenv s events :
  pop_fault jenv = None ->
  bulk_fault jenv = None ->
  listOf s "click_buffer" <> [] ->
  parsedBatch (take (Z.to_nat 5000) (listOf s "click_buffer")) = Returned events ->
  exists s' added,
    flushPass jenv s = (Returned tt, s')
    /\ listOf s' "click_buffer" = drop (Z.to_nat 5000) (listOf s "click_buffer")
    /\ listOf s' "click_buffer:dead_letter" = listOf s "click_buffer:dead_letter"
    /\ affiliate_tracking (base s') = affiliate_tracking (base s) ++ added
    /\ Forall2 (fun event row => exists id, row = bulkRow id (clock (base s)) event)
               events added
    /\ List.map trk_id added
       = List.map (fun i => Z.of_nat (List.length (affiliate_tracking (base s)))
                            + Z.of_nat i + 1)
                  (seq 0 (List.length events))
    /\ List.length added
       = Nat.min 5000 (List.length (listOf s "click_buffer"))
    /\ clock (base s') = clock (base s) + 10
    /\ In (mkLog INFO ("Flushed " +:+ pretty (List.length events) +:+ " clicks to database"))
          (log (base s')).
Proof.
  intros Hpop Hbulk Hne Hparsed.
  destruct (flushPass_success jenv s events Hpop Hbulk (take_batch_nonempty _ Hne) Hparsed)
    as (s' & Hrun & Hbuffer & Hother & Htable & Hclock & Hlog).
  destruct (bulkRows_app (clock (base s)) events (affiliate_tracking (base s)))
    as (added & Hrows & Hfields & Hids).
  exists s', added. split; [exact Hrun|]. split; [exact Hbuffer|].
  split; [apply Hother; discriminate|].
  split; [rewrite Htable; exact Hrows|].
  split; [exact Hfields|]. split; [exact Hids|].
  split.
  { rewrite <- (Forall2_length _ _ _ Hfields), (parsedBatch_length _ _ Hparsed).
    rewrite length_take. change (Z.to_nat 5000) with 5000%nat. reflexivity. }
  split; [exact Hclock|].
  rewrite Hlog. apply in_or_app. right. now left.
Qed.

(** X22.  One pass of the job over a batch that does not parse, or that
    the table rejects: the failure is logged, the table is untouched, and
    with a working dead-letter list the whole batch is appended to
    click_buffer:dead_letter in order.  When the dead-letter list cannot
    be written either, the job stops with that error and the batch, which
    has left the buffer, is in neither list nor in the table. *)
Theorem failed_batch_is_parked jenv s e :
  pop_fault jenv = None ->
  listOf s "click_buffer" <> [] ->
  parsedBatch (take (Z.to_nat 5000) (listOf s "click_buffer")) = Thrown e
  \/ ((exists events,
          parsedBatch (take (Z.to_nat 5000) (listOf s "click_buffer")) = Returned events)
      /\ bulk_fault jenv = Some e) ->
  (push_fault jenv "click_buffer:dead_letter" = None ->
   exists s',
     flushPass jenv s = (Returned tt, s')
     /\ listOf s' "click_buffer" = drop (Z.to_nat 5000) (listOf s "click_buffer")
     /\ listOf s' "click_buffer:dead_letter"
        = listOf s "click_buffer:dead_letter"
          ++ take (Z.to_nat 5000) (listOf s "click_buffer")
     /\ affiliate_tracking (base s') = affiliate_tracking (base s)
     /\ In (mkLog ERROR ("Click buffer flush failed: " +:+ messageOf e)) (log (base s')))
  /\ (forall e',
         push_fault jenv "click_buffer:dead_letter" = Some e' ->
         exists s',
           flushPass jenv s = (Thrown e', s')
           /\ listOf s' "click_buffer" = drop (Z.to_nat 5000) (listOf s "click_buffer")
           /\ listOf s' "click_buffer:dead_letter" = listOf s "click_buffer:dead_letter"
           /\ affiliate_tracking (base s') = affiliate_tracking (base s)).
Proof.
  intros Hpop Hne Hfail. split.
  - intros Hpush.
    destruct (flushPass_parked jenv s e Hpop Hpush (take_batch_nonempty _ Hne) Hfail)
      as (s' & Hrun & Hbuffer & Hdead & Htable & _ & Hlog).
    exists s'. split; [exact Hrun|]. split; [exact Hbuffer|].
    split; [exact Hdead|]. split; [exact Htable|].
    rewrite Hlog. apply in_or_app. right. now left.
  - intros e' Hpush.
    exact (flushPass_lost jenv s e e' Hpop Hpush (take_batch_nonempty _ Hne) Hfail).
Qed.

Lemma flushPass_conserves jenv s :
  pop_fault jenv = None ->
  push_fault jenv "click_buffer:dead_letter" = None ->
  exists s',
    flushPass jenv s = (Returned tt, s')
    /\ clicksHeld s' = clicksHeld s
    /\ clock (base s') = clock (base s) + 10.
Proof.
  intros Hpop Hpush. unfold clicksHeld.
  destruct (listOf s "click_buffer") as [|click rest] eqn:Hbuffer.
  { destruct (flushPass_idle jenv s Hpop Hbuffer)
      as (s' & Hrun & Hlists & Htable & Hclock & _).
    exists s'. split; [exact Hrun|]. rewrite !Hlists, Htable, Hbuffer. auto. }
  assert (Hne : listOf s "click_buffer" <> []) by (rewrite Hbuffer; discriminate).
  rewrite <- Hbuffer.
  assert (Hsplit : (List.length (take (Z.to_nat 5000) (listOf s "click_buffer"))
                    + List.length (drop (Z.to_nat 5000) (listOf s "click_buffer")))%nat
                   = List.length (listOf s "click_buffer")).
  { rewrite <- length_app, take_drop. reflexivity. }
  destruct (parsedBatch (take (Z.to_nat 5000) (listOf s "click_buffer")))
    as [events|e] eqn:Hparsed.
  - destruct (bulk_fault jenv) as [e|] eqn:Hbulk.
    + destruct (flushPass_parked jenv s e Hpop Hpush (take_batch_nonempty _ Hne))
        as (s' & Hrun & Hbuf & Hdead & Htable & Hclock & _).
      { right. split; [eauto | exact Hbulk]. }
      exists s'. split; [exact Hrun|]. rewrite Hbuf, Hdead, Htable, length_app.
      split; [lia | exact Hclock].
    + destruct (flushPass_success jenv s events Hpop Hbulk
                  (take_batch_nonempty _ Hne) Hparsed)
        as (s' & Hrun & Hbuf & Hother & Htable & Hclock & _).
      exists s'. split; [exact Hrun|].
      rewrite Hbuf, (Hother "click_buffer:dead_letter") by discriminate.
      rewrite Htable, bulkRows_length, (parsedBatch_length _ _ Hparsed).
      split; [lia | exact Hclock].
  - destruct (flushPass_parked jenv s e Hpop Hpush (take_batch_nonempty _ Hne))
      as (s' & Hrun & Hbuf & Hdead & Htable & Hclock & _).
    { now left. }
    exists s'. split; [exact Hrun|]. rewrite Hbuf, Hdead, Htable, length_app.
    split; [lia | exact Hclock].
Qed.

(** X23.  While the buffer can be popped and the dead-letter list can be
    written, the job loses no click and never stops with an error: after
    any number of passes, whatever fails to parse or to be inserted, the
    number of clicks in the buffer, in the tracking table and in the
    dead-letter list together is what it was, and every pass has taken 10
    seconds. *)
Theorem flush_keeps_every_click jenv passes :
  pop_fault jenv = None ->
  push_fault jenv "click_buffer:dead_letter" = None ->
  forall s,
  exists s',
    flushClickBuffer jenv passes s = (Returned tt, s')
    /\ clicksHeld s' = clicksHeld s
    /\ clock (base s') = clock (base s) + 10 * Z.of_nat passes.
Proof.
  intros Hpop Hpush. induction passes as [|n IH]; intros s.
  - exists s. split; [reflexivity|]. split; [reflexivity | cbn; lia].
  - destruct (flushPass_conserves jenv s Hpop Hpush) as (s1 & Hpass & Hheld & Hclock).
    destruct (IH s1) as (s' & Hrun & Hheld' & Hclock').
    exists s'. cbn [flushClickBuffer]. rewrite jbind_run, Hpass.
    split; [exact Hrun|]. split; [congruence | lia].
Qed.

(** X24.  With a working buffer and table, everything that is buffered
    reaches the table: when the texts of the buffer parse, a job that
    runs for at least one pass per 5000 of them empties the buffer and
    appends one row per buffered click to the tracking table, in the
    order of the buffer, each row carrying its event's fields and the
    time of the pass that wrote it; the dead-letter list is untouched. *)
Theorem buffered_clicks_reach_the_table jenv passes :
  pop_fault jenv = None ->
  bulk_fault jenv = None ->
  forall s events,
    parsedBatch (listOf s "click_buffer") = Returned events ->
    (List.length (listOf s "click_buffer") <= passes * 5000)%nat ->
    exists s' added,
      flushClickBuffer jenv passes s = (Returned tt, s')
      /\ listOf s' "click_buffer" = []
      /\ listOf s' "click_buffer:dead_letter" = listOf s "click_buffer:dead_letter"
      /\ affiliate_tracking (base s') = affiliate_tracking (base s) ++ added
      /\ Forall2 (fun event row =>
                    exists id now,
                      row = bulkRow id now event
                      /\ clock (base s) <= now < clock (base s) + 10 * Z.of_nat passes)
                 events added.
Proof.
  intros Hpop Hbulk. induction passes as [|n IH]; intros s events Hparsed Hlen.
  - assert (Hempty : listOf s "click_buffer" = [])
      by (destruct (listOf s "click_buffer"); [reflexivity | cbn in Hlen; lia]).
    rewrite Hempty in Hparsed. cbn in Hparsed. injection Hparsed as <-.
    exists s, []. split; [reflexivity|]. split; [exact Hempty|].
    split; [reflexivity|]. split; [symmetry; apply app_nil_r | constructor].
  - cbn [flushClickBuffer]. rewrite jbind_run.
    destruct (listOf s "click_buffer") as [|click rest] eqn:Hbuffer.
    { cbn in Hparsed. injection Hparsed as <-.
      destruct (flushPass_idle jenv s Hpop Hbuffer)
        as (s1 & Hpass & Hlists & Htable & Hclock & _).
      rewrite Hpass.
      destruct (IH s1 []) as (s' & added & Hrun & Hbuf & Hdead & Hrows & Hfields).
      { rewrite Hlists, Hbuffer. reflexivity. }
      { rewrite Hlists, Hbuffer. cbn. lia. }
      exists s', added. split; [exact Hrun|]. split; [exact Hbuf|].
      split; [rewrite Hdead; apply Hlists|].
      split; [rewrite Hrows, Htable; reflexivity|].
      inversion Hfields. constructor. }
    assert (Hne : listOf s "click_buffer" <> []) by (rewrite Hbuffer; discriminate).
    rewrite <- Hbuffer in *.
    destruct (parsedBatch_split _ (Z.to_nat 5000) events Hparsed) as [Htake Hdrop].
    destruct (flushPass_success jenv s _ Hpop Hbulk (take_batch_nonempty _ Hne) Htake)
      as (s1 & Hpass & Hbuf1 & Hother1 & Htable1 & Hclock1 & _).
    rewrite Hpass.
    destruct (IH s1 (drop (Z.to_nat 5000) events))
      as (s' & added & Hrun & Hbuf & Hdead & Hrows & Hfields).
    { rewrite Hbuf1. exact Hdrop. }
    { rewrite Hbuf1, length_drop. change (Z.to_nat 5000) with 5000%nat. lia. }
    destruct (bulkRows_app (clock (base s)) (take (Z.to_nat 5000) events)
                (affiliate_tracking (base s))) as (first & Hfirst & Hfields1 & _).
    exists s', (first ++ added). split; [exact Hrun|]. split; [exact Hbuf|].
    split; [rewrite Hdead; apply Hother1; discriminate|].
    split; [rewrite Hrows, Htable1, Hfirst, <- app_assoc; reflexivity|].
    rewrite <- (take_drop (Z.to_nat 5000) events).
    apply Forall2_app.
    + eapply Forall2_impl; [exact Hfields1|].
      intros event row [id ->]. exists id, (clock (base s)). split; [reflexivity | lia].
    + eapply Forall2_impl; [exact Hfields|].
      intros event row (id & now & -> & Hnow). exists id, now.
      split; [reflexivity | lia].
Qed.

(** X25.  A click that is buffered and then flushed ends up in the
    tracking table as the row of the event itself: on an empty buffer,
    with a connected client, working push, pop and bulk insert, and a
    serialized event that parses back to itself, [bufferClickForBatch]
    followed by one pass of the job appends exactly one row, with the
    next id, the event's fields and the current time, and leaves the
    buffer empty.  For the events the handler creates (payment HOLD,
    amount 0) this is the row a direct insert would have written. *)
Theorem buffered_click_round_trip jenv (clickEvent : ClickTrackingEvent) s :
  cache_connected (base s) = true ->
  push_fault jenv "click_buffer" = None ->
  pop_fault jenv = None ->
  bulk_fault jenv = None ->
  listOf s "click_buffer" = [] ->
  eventParseJSON (eventToJSON clickEvent) = Returned clickEvent ->
  exists s',
    (bufferClickForBatch jenv clickEvent ;; flushPass jenv) s = (Returned tt, s')
    /\ listOf s' "click_buffer" = []
    /\ affiliate_tracking (base s')
       = affiliate_tracking (base s)
         ++ [bulkRow (Z.of_nat (List.length (affiliate_tracking (base s))) + 1)
                     (clock (base s)) clickEvent]
    /\ (ev_payment clickEvent = HOLD -> ev_amount clickEvent = 0 ->
        insert_fault (request_env jenv) = None ->
        affiliate_tracking (base s')
        = affiliate_tracking
            (snd (insertClickTracking (request_env jenv) clickEvent (base s)))).
Proof.
  intros Hconn Hpush Hpop Hbulk Hempty Hround.
  destruct (bufferClick_buffered jenv clickEvent s Hconn Hpush)
    as (s1 & Hrun1 & Hbase1 & Hbuf1 & _).
  rewrite Hempty in Hbuf1. cbn in Hbuf1.
  assert (Hparsed : parsedBatch (take (Z.to_nat 5000) (listOf s1 "click_buffer"))
                    = Returned [clickEvent]).
  { rewrite Hbuf1. change (Z.to_nat 5000) with 5000%nat. cbn. rewrite Hround. reflexivity. }
  assert (Hne : take (Z.to_nat 5000) (listOf s1 "click_buffer") <> []).
  { rewrite Hbuf1. change (Z.to_nat 5000) with 5000%nat. discriminate. }
  destruct (flushPass_success jenv s1 [clickEvent] Hpop Hbulk Hne Hparsed)
    as (s' & Hrun & Hbuf & _ & Htable & _).
  exists s'. rewrite jbind_run, Hrun1. split; [exact Hrun|].
  split.
  { rewrite Hbuf, Hbuf1. change (Z.to_nat 5000) with 5000%nat. reflexivity. }
  rewrite Hbase1 in Htable.
  split; [exact Htable|].
  intros Hhold Hzero Hins. rewrite Htable, insertClickTracking_run, Hins. cbn.
  unfold rowOf. cbn. rewrite Hhold, Hzero. reflexivity.
Qed.

End BufferFacts.

(** ** Further facts at concrete inputs *)

Lemma repository_failure_is_surfaced_witness :
  let env := mkEnv (Responds 3) (Responds 3) (Some databaseDown) None None in
  let w := worldAt 1500 ∅ in
  let request := requestFor "SUMMER2024" [] in
  pathParameters request !! "coupon" = Some "SUMMER2024"
  /\ String.eqb "SUMMER2024" "" = false
  /\ cachedSnapshot env w (affiliateLinkKey "SUMMER2024") = None
  /\ query_fault env = Some databaseDown
  /\ fst (serveRequest env request w)
     = Returned (JSONError 503 "Database temporarily unavailable")
  /\ cache_store (snd (serveRequest env request w)) = cache_store w.
Proof.
  cbv zeta.
  set (env := mkEnv (Responds 3) (Responds 3) (Some databaseDown) None None).
  set (w := worldAt 1500 ∅).
  set (request := requestFor "SUMMER2024" []).
  assert (H1 : pathParameters request !! "coupon" = Some "SUMMER2024") by reflexivity.
  assert (H2 : String.eqb "SUMMER2024" "" = false) by reflexivity.
  assert (H3 : cachedSnapshot env w (affiliateLinkKey "SUMMER2024") = None) by reflexivity.
  assert (H4 : query_fault env = Some databaseDown) by reflexivity.
  split; [exact H1|]. split; [exact H2|]. split; [exact H3|]. split; [exact H4|].
  destruct (repository_failure_is_surfaced env w request "SUMMER2024" databaseDown
                                           H1 H2 H3 H4)
    as (w' & Hrun & Hstore & _).
  rewrite Hrun. split; [reflexivity | exact Hstore].
Defined.

Lemma click_is_tracked_before_rendering_witness :
  let env := mkEnv (Responds 3) (Responds 3) None None (Some templateMissing) in
  let w := worldAt 1500 ∅ in
  let request := requestFor "SUMMER2024" [mkHeader "CF-IPCountry" "US"] in
  pathParameters request !! "coupon" = Some "SUMMER2024"
  /\ String.eqb "SUMMER2024" "" = false
  /\ fst (resolveAffiliateLink env "SUMMER2024" w) = Returned (Some summerLink)
  /\ link_id summerLink = Some 789
  /\ render_fault env = Some templateMissing
  /\ insert_fault env = None
  /\ fst (serveRequest env request w) = Returned (JSONError 500 "Failed to lookup view")
  /\ exists rows,
      affiliate_tracking (snd (serveRequest env request w))
      = rows ++ [rowOf rows 1500 (clickEventFor request summerLink)].
Proof.
  cbv zeta.
  set (env := mkEnv (Responds 3) (Responds 3) None None (Some templateMissing)).
  set (w := worldAt 1500 ∅).
  set (request := requestFor "SUMMER2024" [mkHeader "CF-IPCountry" "US"]).
  assert (H1 : pathParameters request !! "coupon" = Some "SUMMER2024") by reflexivity.
  assert (H2 : String.eqb "SUMMER2024" "" = false) by reflexivity.
  assert (H3 : fst (resolveAffiliateLink env "SUMMER2024" w) = Returned (Some summerLink))
    by reflexivity.
  assert (H4 : link_id summerLink = Some 789) by reflexivity.
  assert (H5 : render_fault env = Some templateMissing) by reflexivity.
  assert (H6 : insert_fault env = None) by reflexivity.
  split; [exact H1|]. split; [exact H2|]. split; [exact H3|]. split; [exact H4|].
  split; [exact H5|]. split; [exact H6|].
  destruct (click_is_tracked_before_rendering env w request "SUMMER2024" summerLink 789
                                              templateMissing H1 H2 H3 H4 H5)
    as (w' & Hrun & _ & _ & _ & Hrows).
  rewrite Hrun. split; [reflexivity | exact (Hrows H6)].
Defined.

Lemma tracked_click_matches_response_witness :
  let w := worldAt 1500 ∅ in
  let request := requestFor "SUMMER2024" [mkHeader "cf-ipcountry" "US"] in
  let page := mkTemplateData summerLink "US" in
  let w' := snd (handlePromotionCouponRequest quietEnv request w) in
  handlePromotionCouponRequest quietEnv request w
  = (Returned (Html 200 "coupon_redirect" page), w')
  /\ exists clickEvent,
      spawned w' = spawned w ++ [InsertTrackingTask clickEvent (Some 789)]
      /\ ev_link_id clickEvent = Some 789
      /\ ev_country clickEvent = "US".
Proof.
  cbv zeta.
  set (w := worldAt 1500 ∅).
  set (request := requestFor "SUMMER2024" [mkHeader "cf-ipcountry" "US"]).
  assert (Hrun : handlePromotionCouponRequest quietEnv request w
                 = (Returned (Html 200 "coupon_redirect" (mkTemplateData summerLink "US")),
                    snd (handlePromotionCouponRequest quietEnv request w)))
    by reflexivity.
  split; [exact Hrun|].
  destruct (proj2 (tracked_click_matches_response quietEnv w request _ _ Hrun)
                  200 "coupon_redirect" (mkTemplateData summerLink "US") eq_refl)
    as (clickEvent & Hsp & Hid & _ & _ & Hcountry & _).
  exists clickEvent. split; [exact Hsp|]. split; [exact Hid | exact Hcountry].
Defined.

Lemma unusable_cache_entry_falls_back_witness :
  let w := worldAt 1500 {[ "affiliate:link:SUMMER2024" := (TextMalformed "{", 3300) ]} in
  cacheAnswers quietEnv w = true
  /\ storedValue w (affiliateLinkKey "SUMMER2024") = Some (TextMalformed "{")
  /\ parseJSON (TextMalformed "{") = Thrown SyntaxError
  /\ (forall found, parseJSON (TextMalformed "{") <> Returned (Some found))
  /\ (exists w1,
         attemptCacheRetrieval quietEnv "SUMMER2024" (affiliateLinkKey "SUMMER2024") w
         = (Returned None, w1)
         /\ log w1 = [mkLog WARNING "Cache read failed: Unexpected token in JSON"])
  /\ exists w2,
      resolveAffiliateLink quietEnv "SUMMER2024" w = (Returned (Some summerLink), w2)
      /\ In (DbQuery "SUMMER2024" 1500) (trace w2).
Proof.
  cbv zeta.
  set (w := worldAt 1500 {[ "affiliate:link:SUMMER2024" := (TextMalformed "{", 3300) ]}).
  assert (H1 : cacheAnswers quietEnv w = true) by reflexivity.
  assert (H2 : storedValue w (affiliateLinkKey "SUMMER2024") = Some (TextMalformed "{"))
    by reflexivity.
  assert (H3 : parseJSON (TextMalformed "{") = Thrown SyntaxError) by reflexivity.
  assert (H4 : forall found, parseJSON (TextMalformed "{") <> Returned (Some found))
    by (intros found; discriminate).
  split; [exact H1|]. split; [exact H2|]. split; [exact H3|]. split; [exact H4|].
  destruct (unusable_cache_entry_falls_back quietEnv w "SUMMER2024" (TextMalformed "{")
                                            H1 H2)
    as (Hthrown & _ & Hfalls).
  split; [exact (Hthrown SyntaxError H3) | exact (Hfalls H4)].
Defined.

Lemma repository_answer_is_an_active_row_witness :
  findActiveLink (worldAt 1500 ∅) "SUMMER2024" = Some summerLink
  /\ exists al cp,
      row_coupon al = "SUMMER2024"
      /\ start_on cp < 1500 < end_on cp
      /\ link_id summerLink = Some (row_id al)
      /\ link_campaign summerLink = Some cp.
Proof.
  assert (H1 : findActiveLink (worldAt 1500 ∅) "SUMMER2024" = Some summerLink)
    by reflexivity.
  split; [exact H1|].
  destruct (repository_answer_is_an_active_row (worldAt 1500 ∅) "SUMMER2024" summerLink H1)
    as (al & cp & _ & _ & Hcoupon & _ & Hwindow & Hid & _ & _ & _ & Hcampaign).
  exists al, cp. auto.
Defined.

Lemma page_off_the_repository_shows_active_campaign_witness :
  let w := worldAt 1500 ∅ in
  let request := requestFor "SUMMER2024" [] in
  pathParameters request !! "coupon" = Some "SUMMER2024"
  /\ cachedSnapshot quietEnv w (affiliateLinkKey "SUMMER2024") = None
  /\ fst (serveRequest quietEnv request w)
     = Returned (Html 200 "coupon_redirect" (mkTemplateData summerLink "UNKNOWN"))
  /\ link_coupon summerLink = "SUMMER2024"
  /\ exists cp,
      link_campaign summerLink = Some cp
      /\ In cp [summerSale]
      /\ start_on cp < 1500 < end_on cp.
Proof.
  cbv zeta.
  set (w := worldAt 1500 ∅).
  set (request := requestFor "SUMMER2024" []).
  assert (H1 : pathParameters request !! "coupon" = Some "SUMMER2024") by reflexivity.
  assert (H2 : cachedSnapshot quietEnv w (affiliateLinkKey "SUMMER2024") = None)
    by reflexivity.
  assert (H3 : fst (serveRequest quietEnv request w)
               = Returned (Html 200 "coupon_redirect"
                                (mkTemplateData summerLink "UNKNOWN")))
    by reflexivity.
  split; [exact H1|]. split; [exact H2|]. split; [exact H3|].
  exact (page_off_the_repository_shows_active_campaign
           quietEnv w request "SUMMER2024"
           200 "coupon_redirect" (mkTemplateData summerLink "UNKNOWN") H1 H2 H3).
Defined.

Lemma unique_coupon_has_one_answer_witness :
  let w := worldAt 1500 ∅ in
  List.NoDup (List.map row_coupon (affiliate_links w))
  /\ List.NoDup (List.map campaign_pk (campaigns w))
  /\ activeRow w "SUMMER2024" summerRow summerSale
  /\ query_fault quietEnv = None
  /\ findActiveLink w "SUMMER2024" = Some (linkObject (summerRow, summerSale))
  /\ fst (queryAffiliateLinkFromDatabase quietEnv "SUMMER2024" w)
     = Returned (Some (selectedColumns (summerRow, summerSale))).
Proof.
  cbv zeta.
  set (w := worldAt 1500 ∅).
  assert (Hcoupons : List.NoDup (List.map row_coupon (affiliate_links w)))
    by (constructor; [intros [] | constructor]).
  assert (Hids : List.NoDup (List.map campaign_pk (campaigns w)))
    by (constructor; [intros [] | constructor]).
  assert (Hactive : activeRow w "SUMMER2024" summerRow summerSale).
  { unfold activeRow. cbn. repeat split; auto; lia. }
  assert (Hq : query_fault quietEnv = None) by reflexivity.
  split; [exact Hcoupons|]. split; [exact Hids|]. split; [exact Hactive|].
  split; [exact Hq|].
  exact (unique_coupon_has_one_answer quietEnv w "SUMMER2024" summerRow summerSale
                                      Hcoupons Hids Hactive Hq).
Defined.

Lemma invalidated_coupon_is_read_from_repository_witness :
  let w := worldAt 2500 warmStore in
  let w' := snd (invalidateAffiliateLinkCache answeringAdmin (Some "SUMMER2024") w) in
  cache_connected w = true
  /\ del_behaviour answeringAdmin = Responds 3
  /\ fst (resolveAffiliateLink quietEnv "SUMMER2024" w) = Returned (Some summerLink)
  /\ fst (resolveAffiliateLink quietEnv "SUMMER2024" w') = Returned None.
Proof.
  cbv zeta.
  set (w := worldAt 2500 warmStore).
  assert (H1 : cache_connected w = true) by reflexivity.
  assert (H2 : del_behaviour answeringAdmin = Responds 3) by reflexivity.
  split; [exact H1|]. split; [exact H2|]. split; [reflexivity|].
  destruct (invalidated_coupon_is_read_from_repository answeringAdmin w "SUMMER2024" 3
                                                       H1 H2)
    as (w' & Hrun & _ & _ & Hnext & _).
  rewrite Hrun. exact (proj2 (Hnext quietEnv)).
Defined.

Lemma wildcard_invalidation_clears_every_coupon_witness :
  let w := worldAt 2500 warmStore in
  let w' := snd (invalidateAffiliateLinkCache answeringAdmin None w) in
  cache_connected w = true
  /\ keys_fault answeringAdmin = None
  /\ del_behaviour answeringAdmin = Responds 3
  /\ cachedSnapshot quietEnv w (affiliateLinkKey "SUMMER2024") = Some summerLink
  /\ cachedSnapshot quietEnv w' (affiliateLinkKey "SUMMER2024") = None.
Proof.
  cbv zeta.
  set (w := worldAt 2500 warmStore).
  assert (H1 : cache_connected w = true) by reflexivity.
  assert (H2 : keys_fault answeringAdmin = None) by reflexivity.
  assert (H3 : del_behaviour answeringAdmin = Responds 3) by reflexivity.
  split; [exact H1|]. split; [exact H2|]. split; [exact H3|].
  split; [reflexivity|].
  destruct (wildcard_invalidation_clears_every_coupon answeringAdmin w 3 H1 H2 H3)
    as (w' & Hrun & _ & Hnext & _).
  rewrite Hrun. exact (proj1 (Hnext quietEnv "SUMMER2024")).
Defined.

Lemma flush_pass_moves_batch_to_table_witness :
  let s := bufferWorld 1500 [ClickOf (clickFrom "US"); ClickOf (clickFrom "DE")] in
  pop_fault quietJob = None
  /\ bulk_fault quietJob = None
  /\ listOf s "click_buffer" <> []
  /\ parsedBatch (take (Z.to_nat 5000) (listOf s "click_buffer"))
     = Returned [clickFrom "US"; clickFrom "DE"]
  /\ exists s' added,
      flushPass quietJob s = (Returned tt, s')
      /\ listOf s' "click_buffer" = []
      /\ affiliate_tracking (base s') = added
      /\ List.map trk_id added = [1; 2]
      /\ List.length added = 2%nat.
Proof.
  cbv zeta.
  set (s := bufferWorld 1500 [ClickOf (clickFrom "US"); ClickOf (clickFrom "DE")]).
  assert (H1 : pop_fault quietJob = None) by reflexivity.
  assert (H2 : bulk_fault quietJob = None) by reflexivity.
  assert (H3 : listOf s "click_buffer" <> []) by discriminate.
  assert (H4 : parsedBatch (take (Z.to_nat 5000) (listOf s "click_buffer"))
               = Returned [clickFrom "US"; clickFrom "DE"]) by reflexivity.
  split; [exact H1|]. split; [exact H2|]. split; [exact H3|]. split; [exact H4|].
  destruct (flush_pass_moves_batch_to_table quietJob s [clickFrom "US"; clickFrom "DE"]
                                            H1 H2 H3 H4)
    as (s' & added & Hrun & Hbuffer & _ & Htable & _ & Hids & Hlen & _).
  exists s', added. split; [exact Hrun|]. split; [exact Hbuffer|].
  split; [exact Htable|]. split; [exact Hids | exact Hlen].
Defined.

Lemma failed_batch_is_parked_witness :
  let s := bufferWorld 1500 [ClickOf (clickFrom "US"); ClickMalformed "{"] in
  pop_fault quietJob = None
  /\ listOf s "click_buffer" <> []
  /\ parsedBatch (take (Z.to_nat 5000) (listOf s "click_buffer")) = Thrown SyntaxError
  /\ push_fault quietJob "click_buffer:dead_letter" = None
  /\ exists s',
      flushPass quietJob s = (Returned tt, s')
      /\ listOf s' "click_buffer" = []
      /\ listOf s' "click_buffer:dead_letter"
         = [ClickOf (clickFrom "US"); ClickMalformed "{"]
      /\ affiliate_tracking (base s') = [].
Proof.
  cbv zeta.
  set (s := bufferWorld 1500 [ClickOf (clickFrom "US"); ClickMalformed "{"]).
  assert (H1 : pop_fault quietJob = None) by reflexivity.
  assert (H2 : listOf s "click_buffer" <> []) by discriminate.
  assert (H3 : parsedBatch (take (Z.to_nat 5000) (listOf s "click_buffer"))
               = Thrown SyntaxError) by reflexivity.
  assert (H4 : push_fault quietJob "click_buffer:dead_letter" = None) by reflexivity.
  split; [exact H1|]. split; [exact H2|]. split; [exact H3|]. split; [exact H4|].
  destruct (proj1 (failed_batch_is_parked quietJob s SyntaxError H1 H2 (or_introl H3)) H4)
    as (s' & Hrun & Hbuffer & Hdead & Htable & _).
  exists s'. split; [exact Hrun|]. split; [exact Hbuffer|].
  split; [exact Hdead | exact Htable].
Defined.

Lemma flush_keeps_every_click_witness :
  let s := bufferWorld 1500 [ClickOf (clickFrom "US"); ClickOf (clickFrom "DE")] in
  pop_fault rejectingJob = None
  /\ push_fault rejectingJob "click_buffer:dead_letter" = None
  /\ exists s',
      flushClickBuffer rejectingJob 3 s = (Returned tt, s')
      /\ clicksHeld s' = 2%nat
      /\ clock (base s') = 1530.
Proof.
  cbv zeta.
  assert (H1 : pop_fault rejectingJob = None) by reflexivity.
  assert (H2 : push_fault rejectingJob "click_buffer:dead_letter" = None) by reflexivity.
  split; [exact H1|]. split; [exact H2|].
  exact (flush_keeps_every_click
           rejectingJob 3 H1 H2
           (bufferWorld 1500 [ClickOf (clickFrom "US"); ClickOf (clickFrom "DE")])).
Defined.

Lemma buffered_clicks_reach_the_table_witness :
  let s := bufferWorld 1500 [ClickOf (clickFrom "US"); ClickOf (clickFrom "DE")] in
  pop_fault quietJob = None
  /\ bulk_fault quietJob = None
  /\ parsedBatch (listOf s "click_buffer") = Returned [clickFrom "US"; clickFrom "DE"]
  /\ (List.length (listOf s "click_buffer") <= 1 * 5000)%nat
  /\ exists s' added,
      flushClickBuffer quietJob 1 s = (Returned tt, s')
      /\ listOf s' "click_buffer" = []
      /\ affiliate_tracking (base s') = added
      /\ List.length added = 2%nat.
Proof.
  cbv zeta.
  set (s := bufferWorld 1500 [ClickOf (clickFrom "US"); ClickOf (clickFrom "DE")]).
  assert (H1 : pop_fault quietJob = None) by reflexivity.
  assert (H2 : bulk_fault quietJob = None) by reflexivity.
  assert (H3 : parsedBatch (listOf s "click_buffer")
               = Returned [clickFrom "US"; clickFrom "DE"]) by reflexivity.
  assert (H4 : (List.length (listOf s "click_buffer") <= 1 * 5000)%nat).
  { change (List.length (listOf s "click_buffer")) with 2%nat. lia. }
  split; [exact H1|]. split; [exact H2|]. split; [exact H3|]. split; [exact H4|].
  destruct (buffered_clicks_reach_the_table quietJob 1 H1 H2 s
                                            [clickFrom "US"; clickFrom "DE"] H3 H4)
    as (s' & added & Hrun & Hbuffer & _ & Htable & Hfields).
  exists s', added. split; [exact Hrun|]. split; [exact Hbuffer|].
  split; [exact Htable|].
  symmetry. exact (Forall2_length _ _ _ Hfields).
Defined.

Lemma buffered_click_round_trip_witness :
  let s := bufferWorld 1500 [] in
  cache_connected (base s) = true
  /\ push_fault quietJob "click_buffer" = None
  /\ pop_fault quietJob = None
  /\ bulk_fault quietJob = None
  /\ listOf s "click_buffer" = []
  /\ eventParseJSON (eventToJSON (clickFrom "US")) = Returned (clickFrom "US")
  /\ exists s',
      jbind (bufferClickForBatch quietJob (clickFrom "US")) (fun _ => flushPass quietJob) s
      = (Returned tt, s')
      /\ affiliate_tracking (base s')
         = [mkTrackingRow 1 "US" 123 456 (Some 789) CLICK HOLD 0 1500 1500].
Proof.
  cbv zeta.
  set (s := bufferWorld 1500 []).
  assert (H1 : cache_connected (base s) = true) by reflexivity.
  assert (H2 : push_fault quietJob "click_buffer" = None) by reflexivity.
  assert (H3 : pop_fault quietJob = None) by reflexivity.
  assert (H4 : bulk_fault quietJob = None) by reflexivity.
  assert (H5 : listOf s "click_buffer" = []) by reflexivity.
  assert (H6 : eventParseJSON (eventToJSON (clickFrom "US")) = Returned (clickFrom "US"))
    by reflexivity.
  split; [exact H1|]. split; [exact H2|]. split; [exact H3|]. split; [exact H4|].
  split; [exact H5|]. split; [exact H6|].
  destruct (buffered_click_round_trip quietJob (clickFrom "US") s H1 H2 H3 H4 H5 H6)
    as (s' & Hrun & _ & Htable & _).
  exists s'. split; [exact Hrun | exact Htable].
Defined.

Lemma cache_write_failure_is_swallowed_witness :
  let b := Fails 5 connectionReset in
  let w := worldAt 1500 ∅ in
  let request := requestFor "SUMMER2024" [] in
  cachedSnapshot quietEnv w (affiliateLinkKey "SUMMER2024") = None
  /\ query_fault quietEnv = None
  /\ findActiveLink w "SUMMER2024" = Some summerLink
  /\ cache_connected w = true
  /\ writeFailure b = Some connectionReset
  /\ fst (serveRequest (with_set_behaviour b quietEnv) request w)
     = Returned (Html 200 "coupon_redirect" (mkTemplateData summerLink "UNKNOWN"))
  /\ exists w1,
      resolveAffiliateLink (with_set_behaviour b quietEnv) "SUMMER2024" w
      = (Returned (Some summerLink), w1)
      /\ In (mkLog WARNING "Cache write failed: read ECONNRESET") (log w1)
      /\ cache_store w1 = cache_store w.
Proof.
  cbv zeta.
  set (b := Fails 5 connectionReset).
  set (w := worldAt 1500 ∅).
  set (request := requestFor "SUMMER2024" []).
  assert (H1 : cachedSnapshot quietEnv w (affiliateLinkKey "SUMMER2024") = None)
    by reflexivity.
  assert (H2 : query_fault quietEnv = None) by reflexivity.
  assert (H3 : findActiveLink w "SUMMER2024" = Some summerLink) by reflexivity.
  assert (H4 : cache_connected w = true) by reflexivity.
  assert (H5 : writeFailure b = Some connectionReset) by reflexivity.
  split; [exact H1|]. split; [exact H2|]. split; [exact H3|]. split; [exact H4|].
  split; [exact H5|].
  destruct (cache_write_failure_is_swallowed quietEnv w request b)
    as (Hresponse & _ & Hlogged).
  split; [rewrite Hresponse; reflexivity|].
  destruct (Hlogged "SUMMER2024" summerLink connectionReset H1 H2 H3 H4 H5)
    as (w1 & Hrun & Hlog & Hstore).
  exists w1. split; [exact Hrun|]. split; [exact Hlog|].
  apply Hstore. intros t. discriminate.
Defined.

Lemma handleError_agrees_with_catch_all_witness :
  let w := worldAt 1500 ∅ in
  fst (handleError false (fun _ => "at controller") rejectedQuery w)
  = Returned (mkSentError "application/json" 0 (mkErrorBody "Validation error" 0 None))
  /\ errorResponse rejectedQuery = JSONError 500 "Validation error"
  /\ fst (handleError true (fun _ => "at controller") databaseDown w)
     = Returned (mkSentError "application/json" 503
                             (mkErrorBody "Database temporarily unavailable" 503
                                          (Some "at controller")))
  /\ errorResponse databaseDown = JSONError 503 "Database temporarily unavailable".
Proof.
  cbv zeta.
  destruct (handleError_agrees_with_catch_all false (fun _ => "at controller")
                                              rejectedQuery (worldAt 1500 ∅))
    as (Hrun & Hcatch & _).
  destruct (handleError_agrees_with_catch_all true (fun _ => "at controller")
                                              databaseDown (worldAt 1500 ∅))
    as (Hrun' & _ & Hsame).
  rewrite Hrun, Hrun'.
  split; [reflexivity|]. split; [exact Hcatch|]. split; [reflexivity|].
  apply Hsame. discriminate.
Defined.

Lemma buffered_click_is_stored_once_witness :
  let s := bufferWorld 1500 [] in
  cache_connected (base s) = true
  /\ push_fault quietJob "click_buffer" = None
  /\ push_fault pushlessJob "click_buffer" = Some connectionReset
  /\ insert_fault (request_env pushlessJob) = None
  /\ (exists s',
         bufferClickForBatch quietJob (clickFrom "US") s = (Returned tt, s')
         /\ listOf s' "click_buffer" = [ClickOf (clickFrom "US")]
         /\ affiliate_tracking (base s') = [])
  /\ exists s',
      bufferClickForBatch pushlessJob (clickFrom "US") s = (Returned tt, s')
      /\ lists s' = lists s
      /\ affiliate_tracking (base s')
         = [mkTrackingRow 1 "US" 123 456 (Some 789) CLICK HOLD 0 1500 1500].
Proof.
  cbv zeta.
  set (s := bufferWorld 1500 []).
  assert (H1 : cache_connected (base s) = true) by reflexivity.
  assert (H2 : push_fault quietJob "click_buffer" = None) by reflexivity.
  assert (H3 : push_fault pushlessJob "click_buffer" = Some connectionReset)
    by reflexivity.
  assert (H4 : insert_fault (request_env pushlessJob) = None) by reflexivity.
  split; [exact H1|]. split; [exact H2|]. split; [exact H3|]. split; [exact H4|].
  split.
  - destruct (proj1 (buffered_click_is_stored_once quietJob (clickFrom "US") s) H1 H2)
      as (s' & Hrun & Hbuffer & _ & Htable).
    exists s'. split; [exact Hrun|]. split; [exact Hbuffer | exact Htable].
  - destruct (proj1 (proj2 (buffered_click_is_stored_once pushlessJob (clickFrom "US") s)))
      as [Hdirect _].
    { right. exists connectionReset. exact H3. }
    exact (Hdirect H4).
Defined.
